(** * boss-manage: the CloudFormation configuration builder, the stack
      provisioner and the secret-compensation workflows

    A shallow embedding of [cloud_formation/configuration.py] and of the
    [create] entry points of [cloud_formation/configs/proofreader.py] and
    [cloud_formation/configs/production.py].

    Python values are an inductive type of JSON-like values, Python [dict]s
    are insertion-ordered association lists, a method that mutates [self] and
    may raise is a function from the object's state to a result and the state
    at the point of return or raise. *)

From Stdlib Require Import String Ascii List ZArith Lia Bool Arith DecimalString DecimalNat.
Import ListNotations.
Open Scope list_scope.
Open Scope string_scope.

Set Implicit Arguments.
Set Warnings "-register-all".

(** ** Python values *)

Inductive pyval : Type :=
| VNone : pyval
| VBool : bool -> pyval
| VInt : Z -> pyval
| VStr : string -> pyval
| VList : list pyval -> pyval
| VTuple : list pyval -> pyval
| VDict : list (string * pyval) -> pyval.

(** [x is None] *)
Definition is_none (v : pyval) : bool :=
  match v with VNone => true | _ => false end.

(** [type(x) == dict] *)
Definition is_dict (v : pyval) : bool :=
  match v with VDict _ => true | _ => false end.

(** ** Dictionaries with string keys, in insertion order *)

Definition dict (V : Type) : Type := list (string * V).

Section Dict.
Variable V : Type.

  (** [d.get(k)] as an option *)
Fixpoint dict_get (k : string) (d : dict V) : option V :=
    match d with
    | [] => None
    | (k', v) :: d' => if String.eqb k k' then Some v else dict_get k d'
    end.

  (** [d.get(k, default)] *)
Definition dict_get_default (k : string) (default : V) (d : dict V) : V :=
    match dict_get k d with Some v => v | None => default end.

  (** [k in d] *)
Definition dict_mem (k : string) (d : dict V) : bool :=
    match dict_get k d with Some _ => true | None => false end.

  (** [d[k] = v]: an existing key keeps its position, a new key goes last *)
Fixpoint dict_set (k : string) (v : V) (d : dict V) : dict V :=
    match d with
    | [] => [(k, v)]
    | (k', v') :: d' =>
        if String.eqb k k' then (k, v) :: d' else (k', v') :: dict_set k v d'
    end.

Definition dict_keys (d : dict V) : list string := map fst d.
End Dict.

(** ** Exceptions and results *)

Inductive exn : Type :=
| Exception : string -> exn
| KeyError : string -> exn
| TypeError : string -> exn
| IndexError : string -> exn
| ValueError : string -> exn.

(** The outcome of a call: a value, a raised exception, or [OutOfFuel] when
    a loop was still running after the steps it was given (only the polling
    loop of [create] can produce it). *)
Inductive result (A : Type) : Type :=
| Ok : A -> result A
| Raise : exn -> result A
| OutOfFuel : result A.
Arguments Ok {A} _.
Arguments Raise {A} _.
Arguments OutOfFuel {A}.

Definition is_raise {A : Type} (r : result A) : bool :=
  match r with Raise _ => true | _ => false end.

(** ** Computations over a mutable state that may raise

    The state component is the state at the point where the computation
    returned or raised: what was mutated before a raise stays mutated. *)

Definition M (S A : Type) : Type := S -> result A * S.

Definition ret {S A : Type} (a : A) : M S A := fun s => (Ok a, s).

Definition raise {S A : Type} (e : exn) : M S A := fun s => (Raise e, s).

Definition bind {S A B : Type} (m : M S A) (f : A -> M S B) : M S B :=
  fun s =>
    match m s with
    | (Ok a, s') => f a s'
    | (Raise e, s') => (Raise e, s')
    | (OutOfFuel, s') => (OutOfFuel, s')
    end.

Definition lift {S A : Type} (r : result A) : M S A := fun s => (r, s).

Definition get_state {S : Type} : M S S := fun s => (Ok s, s).

Definition modify {S : Type} (f : S -> S) : M S unit := fun s => (Ok tt, f s).

(** [try: body except: handler e]; the handler receives the exception being
    handled, so that a bare [raise] at its end is [raise e]. *)
Definition try_except {S A : Type} (body : M S A) (handler : exn -> M S A) : M S A :=
  fun s =>
    match body s with
    | (Ok a, s') => (Ok a, s')
    | (Raise e, s') => handler e s'
    | (OutOfFuel, s') => (OutOfFuel, s')
    end.

(** [for x in xs: body x] *)
Fixpoint for_each {S X : Type} (xs : list X) (body : X -> M S unit) : M S unit :=
  match xs with
  | [] => ret tt
  | x :: xs' => bind (body x) (fun _ => for_each xs' body)
  end.

Declare Scope py_scope.
Delimit Scope py_scope with py.
Notation "x <- m ;; k" := (bind m (fun x => k))
  (at level 61, m at next level, right associativity) : py_scope.
Notation "m ;;; k" := (bind m (fun _ => k))
  (at level 61, right associativity) : py_scope.
Open Scope py_scope.

(** ** The process environment and [get_scenario] *)

(** [os.environ[name]] *)
Definition environ_lookup (environ : dict string) (name : string) : result string :=
  match dict_get name environ with
  | Some v => Ok v
  | None => Raise (KeyError name)
  end.

(** [<dict>.get(scenario, None)], then [.get("default", default)] when that
    is [None]: the selection shared by [get_scenario] and by the builder
    operations that inline it. *)
Definition scenario_select (scenario : string) (d : dict pyval) (default : pyval) : pyval :=
  let var_ := dict_get_default scenario VNone d in
  if is_none var_ then dict_get_default "default" default d else var_.

Definition get_scenario (environ : dict string) (var : pyval) (default : pyval)
  : result pyval :=
  match environ_lookup environ "SCENARIO" with
  | Ok scenario =>
      match var with
      | VDict d => Ok (scenario_select scenario d default)
      | _ => Ok var
      end
  | Raise e => Raise e
  | OutOfFuel => OutOfFuel
  end.

(** [bool_str] *)
Definition bool_str (val : bool) : string := if val then "true" else "false".

(** ** Strings *)

(** [s.replace(old, new)] for one-character [old] and [new] *)
Fixpoint str_replace_char (old new : ascii) (s : string) : string :=
  match s with
  | EmptyString => EmptyString
  | String c s' =>
      String (if Ascii.eqb c old then new else c) (str_replace_char old new s')
  end.

(** ** Arguments and parameters *)

Record Argument : Type := mkArgument {
  ParameterKey : string;
  ParameterValue : pyval
}.

(** Modelled from the spec: [lib.template_argument] lives in the [library]
    module, which is not part of the sources at hand.  The spec describes an
    Argument as "a parameter key and its bound value" and the argument
    document as a sequence of [{ParameterKey, ParameterValue}] pairs;
    [create] reads exactly these two fields. *)
Definition template_argument (key : string) (value : pyval) : Argument :=
  {| ParameterKey := key; ParameterValue := value |}.

Record Arg : Type := mkArg {
  key : string;
  parameter : dict pyval;
  argument : Argument
}.

(** The static constructors of [class Arg]. *)
Module Arg.

Definition String (key : string) (value : pyval) (description : string) : Arg :=
    let parameter := [("Description", VStr description); ("Type", VStr "String")] in
    let argument := template_argument key value in
    mkArg key parameter argument.

Definition Password (key : string) (value : pyval) (description : string) : Arg :=
    let parameter :=
      [("Description", VStr description); ("Type", VStr "String");
       ("NoEcho", VStr "true")] in
    let argument := template_argument key value in
    mkArg key parameter argument.

Definition IP (key : string) (value : pyval) (description : string) : Arg :=
    let parameter :=
      [("Description", VStr description); ("Type", VStr "String");
       ("MinLength", VStr "7"); ("MaxLength", VStr "15");
       ("Default", VStr "0.0.0.0");
       ("AllowedPattern", VStr "(\d{1,3})\.(\d{1,3})\.(\d{1,3})\.(\d{1,3})");
       ("ConstraintDescription", VStr "must be a valid IP of the form x.x.x.x.")] in
    let argument := template_argument key value in
    mkArg key parameter argument.

Definition Port (key : string) (value : pyval) (description : string) : Arg :=
    let parameter :=
      [("Description", VStr description); ("Type", VStr "Number");
       ("MinValue", VStr "1"); ("MaxValue", VStr "65535")] in
    let argument := template_argument key value in
    mkArg key parameter argument.

Definition CIDR (key : string) (value : pyval) (description : string) : Arg :=
    let parameter :=
      [("Description", VStr description); ("Type", VStr "String");
       ("MinLength", VStr "9"); ("MaxLength", VStr "18");
       ("Default", VStr "0.0.0.0/0");
       ("AllowedPattern",
        VStr "(\d{1,3})\.(\d{1,3})\.(\d{1,3})\.(\d{1,3})/(\d{1,2})");
       ("ConstraintDescription",
        VStr "must be a valid IP CIDR range of the form x.x.x.x/x.")] in
    let argument := template_argument key value in
    mkArg key parameter argument.

Definition VPC (key : string) (value : pyval) (description : string) : Arg :=
    let parameter :=
      [("Description", VStr description); ("Type", VStr "AWS::EC2::VPC::Id")] in
    let argument := template_argument key value in
    mkArg key parameter argument.

Definition Subnet (key : string) (value : pyval) (description : string) : Arg :=
    let parameter :=
      [("Description", VStr description); ("Type", VStr "AWS::EC2::Subnet::Id")] in
    let argument := template_argument key value in
    mkArg key parameter argument.

Definition AMI (key : string) (value : pyval) (description : string) : Arg :=
    let parameter :=
      [("Description", VStr description); ("Type", VStr "AWS::EC2::Image::Id")] in
    let argument := template_argument key value in
    mkArg key parameter argument.

Definition Instance (key : string) (value : pyval) (description : string) : Arg :=
    let parameter :=
      [("Description", VStr description); ("Type", VStr "AWS::EC2::Instance::Id")] in
    let argument := template_argument key value in
    mkArg key parameter argument.

Definition KeyPair (key : string) (value : pyval) (hostname : string) : Arg :=
    let parameter :=
      [("Description",
        VStr ("Name of an existing EC2 KeyPair to enable SSH access to '"
              ++ hostname ++ "'"));
       ("Type", VStr "AWS::EC2::KeyPair::KeyName");
       ("ConstraintDescription",
        VStr "must be the name of an existing EC2 KeyPair.")] in
    let argument := template_argument key value in
    mkArg key parameter argument.

Definition SecurityGroup (key : string) (value : pyval) (description : string) : Arg :=
    let parameter :=
      [("Description", VStr description);
       ("Type", VStr "AWS::EC2::SecurityGroup::Id")] in
    let argument := template_argument key value in
    mkArg key parameter argument.

  (** The dict literal names ["Type"] three times; the last one stays. *)
Definition RouteTable (key : string) (value : pyval) (description : string) : Arg :=
    let parameter :=
      dict_set "Type" (VStr "String")
        (dict_set "Type" (VStr "AWS::EC2::RouteTable::Id")
           [("Description", VStr description);
            ("Type",
             VStr "For whatever reason CloudFormation does not recognize RouteTable::Id")]) in
    let argument := template_argument key value in
    mkArg key parameter argument.

Definition Certificate (key : string) (value : pyval) (description : string) : Arg :=
    let parameter :=
      [("Description", VStr description);
       ("Type", VStr "AWS::ACM::Certificate::Id")] in
    let argument := template_argument key value in
    mkArg key parameter argument.

End Arg.

(** ** [str()] and [repr()] of values

    Strings are byte strings here; [repr] of a text follows CPython for
    ASCII text (quote choice, backslash escapes, [\xNN] for control
    characters), bytes above 127 are left as they are. *)

Definition Z_str (z : Z) : string := DecimalString.NilZero.string_of_int (Z.to_int z).

Definition nat_str (n : nat) : string :=
  DecimalString.NilZero.string_of_uint (Nat.to_uint n).

Fixpoint str_join (sep : string) (l : list string) : string :=
  match l with
  | [] => EmptyString
  | [x] => x
  | x :: l' => x ++ sep ++ str_join sep l'
  end.

Fixpoint str_contains_char (c : ascii) (s : string) : bool :=
  match s with
  | EmptyString => false
  | String c' s' => Ascii.eqb c c' || str_contains_char c s'
  end.

Definition squote : ascii := ascii_of_nat 39.
Definition dquote : ascii := ascii_of_nat 34.
Definition backslash : ascii := ascii_of_nat 92.

Definition hex_digit (n : nat) : ascii :=
  nth n (list_ascii_of_string "0123456789abcdef") "0"%char.

Fixpoint repr_chars (quote : ascii) (s : string) : string :=
  match s with
  | EmptyString => EmptyString
  | String c s' =>
      let n := nat_of_ascii c in
      let rest := repr_chars quote s' in
      if Ascii.eqb c quote || Ascii.eqb c backslash then
        String backslash (String c rest)
      else if (n =? 9)%nat then String backslash (String "t" rest)
      else if (n =? 10)%nat then String backslash (String "n" rest)
      else if (n =? 13)%nat then String backslash (String "r" rest)
      else if (n <? 32)%nat || (n =? 127)%nat then
        String backslash
          (String "x" (String (hex_digit (n / 16)) (String (hex_digit (n mod 16)) rest)))
      else String c rest
  end.

Definition py_repr_str (s : string) : string :=
  let quote :=
    if str_contains_char squote s && negb (str_contains_char dquote s)
    then dquote else squote in
  String quote (repr_chars quote s ++ String quote EmptyString).

Fixpoint py_repr (v : pyval) : string :=
  match v with
  | VNone => "None"
  | VBool b => if b then "True" else "False"
  | VInt z => Z_str z
  | VStr s => py_repr_str s
  | VList l => "[" ++ str_join ", " (map py_repr l) ++ "]"
  | VTuple l =>
      match l with
      | [x] => "(" ++ py_repr x ++ ",)"
      | _ => "(" ++ str_join ", " (map py_repr l) ++ ")"
      end
  | VDict d =>
      "{" ++ str_join ", "
               (map (fun '(k, x) => py_repr_str k ++ ": " ++ py_repr x) d) ++ "}"
  end.

(** [str(v)] *)
Definition py_str (v : pyval) : string :=
  match v with
  | VStr s => s
  | _ => py_repr v
  end.

(** ** Item access on values *)

(** [v[k]] for a string key *)
Definition pv_getitem (v : pyval) (k : string) : result pyval :=
  match v with
  | VDict d =>
      match dict_get k d with
      | Some x => Ok x
      | None => Raise (KeyError k)
      end
  | _ => Raise (TypeError "indices must be integers")
  end.

(** [v[k] = x] for a string key *)
Definition pv_setitem (v : pyval) (k : string) (x : pyval) : result pyval :=
  match v with
  | VDict d => Ok (VDict (dict_set k x d))
  | _ => Raise (TypeError "object does not support item assignment")
  end.

(** [{ "Ref" : x }] *)
Definition Ref (x : pyval) : pyval := VDict [("Ref", x)].

(** [[{ "Ref" : x } for x in xs]] *)
Definition Refs (xs : list pyval) : pyval := VList (map Ref xs).

(** ** The configuration object *)

Record CloudFormationConfiguration : Type := mkConfiguration {
  resources : dict pyval;
  parameters : dict (dict pyval);
  arguments : list Argument;
  region : pyval;
  vpc_domain : string;
  vpc_subnet : pyval;
  subnet_domain : pyval;
  subnet_subnet : pyval
}.

Definition with_resources (f : dict pyval -> dict pyval)
  (c : CloudFormationConfiguration) : CloudFormationConfiguration :=
  mkConfiguration (f (resources c)) (parameters c) (arguments c) (region c)
    (vpc_domain c) (vpc_subnet c) (subnet_domain c) (subnet_subnet c).

Definition with_subnet (domain subnet : pyval)
  (c : CloudFormationConfiguration) : CloudFormationConfiguration :=
  mkConfiguration (resources c) (parameters c) (arguments c) (region c)
    (vpc_domain c) (vpc_subnet c) domain subnet.

Definition Build : Type -> Type := M CloudFormationConfiguration.

(** [self.resources[key] = value] *)
Definition set_resource (key : string) (value : pyval) : Build unit :=
  modify (with_resources (dict_set key value)).

(** [self.resources[key][field] = value] *)
Definition set_resource_field (key field : string) (value : pyval) : Build unit :=
  c <- get_state ;;
  r <- lift (match dict_get key (resources c) with
             | Some r => Ok r
             | None => Raise (KeyError key)
             end) ;;
  r' <- lift (pv_setitem r field value) ;;
  set_resource key r'.

(** [self.resources[key]["Properties"][prop] = value] *)
Definition set_resource_property (key prop : string) (value : pyval) : Build unit :=
  c <- get_state ;;
  r <- lift (match dict_get key (resources c) with
             | Some r => Ok r
             | None => Raise (KeyError key)
             end) ;;
  p <- lift (pv_getitem r "Properties") ;;
  p' <- lift (pv_setitem p prop value) ;;
  r' <- lift (pv_setitem r "Properties" p') ;;
  set_resource key r'.

(** [if x is not None: m] *)
Definition when_not_none (x : pyval) (m : Build unit) : Build unit :=
  if is_none x then ret tt else m.

(** [add_arg] *)
Definition add_arg (arg : Arg) : Build unit :=
  fun self =>
    if negb (dict_mem (key arg) (parameters self)) then
      (Ok tt,
       mkConfiguration (resources self)
         (dict_set (key arg) (parameter arg) (parameters self))
         ((arguments self ++ [argument arg])%list)
         (region self) (vpc_domain self) (vpc_subnet self)
         (subnet_domain self) (subnet_subnet self))
    else (Ok tt, self).

(** ** Builder operations of [CloudFormationConfiguration] *)

Section Builder.

  (** [os.environ] of the process *)
Variable environ : dict string.

  (** The scenario selection that several operations inline:
      [if type(x) == dict: x = x.get(scenario) or x.get("default", dflt)],
      reading [os.environ["SCENARIO"]] inside the branch. *)
Definition inline_scenario (x : pyval) (dflt : pyval) : Build pyval :=
    match x with
    | VDict d =>
        scenario <- lift (environ_lookup environ "SCENARIO") ;;
        ret (scenario_select scenario d dflt)
    | _ => ret x
    end.

  (** [_add_record_cname] *)
Definition _add_record_cname (key hostname : string) (vpc : string) (ttl : pyval)
    (rds cluster replication ec2 : bool) : Build unit :=
    address_key <-
      (if rds then ret (VStr "Endpoint.Address")
       else if cluster then raise (Exception "NotSupported currently")
       else if replication then ret (VStr "PrimaryEndPoint.Address")
       else if ec2 then ret (VStr "PrivateDnsName")
       else ret VNone) ;;
    set_resource (key ++ "Record")
      (VDict [
         ("Type", VStr "AWS::Route53::RecordSet");
         ("Properties", VDict [
            ("HostedZoneName",
             VDict [("Fn::Join",
                     VList [VStr EmptyString;
                            VList [Ref (VStr (vpc ++ "Domain")); VStr "."]])]);
            ("Name", VStr hostname);
            ("ResourceRecords",
             VList [VDict [("Fn::GetAtt", VList [VStr key; address_key])]]);
            ("TTL", ttl);
            ("Type", VStr "CNAME")])]) ;;;
    self <- get_state ;;
    (if dict_mem "DNSZone" (resources self)
     then set_resource_field (key ++ "Record") "DependsOn" (VStr "DNSZone")
     else ret tt) ;;;
    self <- get_state ;;
    add_arg (Arg.String (vpc ++ "Domain") (VStr (vpc_domain self))
               ("Domain of the VPC '" ++ vpc ++ "'")).

  (** [checks.count(None)] *)
Definition count_none (checks : list pyval) : nat :=
    length (filter is_none checks).

  (** [add_route_table_route] *)
Definition add_route_table_route (key : string) (route_table : pyval)
    (cidr gateway peer instance depends_on : pyval) : Build unit :=
    set_resource key
      (VDict [
         ("Type", VStr "AWS::EC2::Route");
         ("Properties", VDict [
            ("RouteTableId", Ref route_table);
            ("DestinationCidrBlock", Ref (VStr (key ++ "Cidr")))])]) ;;;
    let checks := [gateway; peer; instance] in
    (if negb (Nat.eqb (length checks - count_none checks) 1)
     then raise (Exception
       "Required to specify one and only one of the following arguments: gateway|peer|instance")
     else ret tt) ;;;
    when_not_none gateway
      (set_resource_property key "GatewayId" (Ref gateway)) ;;;
    when_not_none peer
      (set_resource_property key "VpcPeeringConnectionId" (Ref peer)) ;;;
    when_not_none instance
      (set_resource_property key "InstanceId" (Ref instance)) ;;;
    when_not_none depends_on
      (set_resource_field key "DependsOn" depends_on) ;;;
    add_arg (Arg.CIDR (key ++ "Cidr") cidr
               ("Destination CIDR Block for Route '" ++ key ++ "'")).

  (** [add_rds_db] *)
Definition add_rds_db (key hostname : string)
    (port db_name username password : pyval) (subnets : list pyval)
    (type_ storage : pyval) (security_groups : option (list pyval)) : Build unit :=
    scenario <- lift (environ_lookup environ "SCENARIO") ;;
    let type_ :=
      match type_ with
      | VDict d => scenario_select scenario d (VStr "db.t2.micro")
      | _ => type_
      end in
    let multi_az :=
      dict_get_default scenario (VStr "false")
        [("development", VStr "false"); ("production", VStr "true")] in
    set_resource key
      (VDict [
         ("Type", VStr "AWS::RDS::DBInstance");
         ("Properties", VDict [
            ("Engine", VStr "mysql");
            ("LicenseModel", VStr "general-public-license");
            ("EngineVersion", VStr "5.6.23");
            ("DBInstanceClass", type_);
            ("MultiAZ", multi_az);
            ("StorageType", VStr "standard");
            ("AllocatedStorage", VStr (py_str storage));
            ("DBInstanceIdentifier", Ref (VStr (key ++ "Hostname")));
            ("MasterUsername", Ref (VStr (key ++ "Username")));
            ("MasterUserPassword", Ref (VStr (key ++ "Password")));
            ("DBSubnetGroupName", Ref (VStr (key ++ "SubnetGroup")));
            ("PubliclyAccessible", VStr "false");
            ("DBName", Ref (VStr (key ++ "DBName")));
            ("Port", Ref (VStr (key ++ "Port")));
            ("StorageEncrypted", VStr "false")])]) ;;;
    set_resource (key ++ "SubnetGroup")
      (VDict [
         ("Type", VStr "AWS::RDS::DBSubnetGroup");
         ("Properties", VDict [
            ("DBSubnetGroupDescription", Ref (VStr (key ++ "Hostname")));
            ("SubnetIds", Refs subnets)])]) ;;;
    (match security_groups with
     | Some sgs => set_resource_property key "VPCSecurityGroups" (Refs sgs)
     | None => ret tt
     end) ;;;
    add_arg (Arg.String (key ++ "Hostname")
               (VStr (str_replace_char "." "-" hostname))
               ("Hostname of the RDS DB Instance '" ++ key ++ "'")) ;;;
    add_arg (Arg.Port (key ++ "Port") port
               ("DB Server Port for the RDS DB Instance '" ++ key ++ "'")) ;;;
    add_arg (Arg.String (key ++ "DBName") db_name
               ("Name of the intial database on the RDS DB Instance '" ++ key ++ "'")) ;;;
    add_arg (Arg.String (key ++ "Username") username
               ("Master Username for RDS DB Instance '" ++ key ++ "'")) ;;;
    add_arg (Arg.Password (key ++ "Password") password
               ("Master User Password for RDS DB Instance '" ++ key ++ "'")) ;;;
    _add_record_cname key hostname "VPC" (VStr "300") true false false false.

  (** [add_redis_cluster] *)
Definition add_redis_cluster (key hostname : string)
    (subnets security_groups : list pyval) (type_ port version : pyval) : Build unit :=
    type_ <- inline_scenario type_ (VStr "cache.t2.micro") ;;
    set_resource key
      (VDict [
         ("Type", VStr "AWS::ElastiCache::CacheCluster");
         ("Properties", VDict [
            ("CacheNodeType", type_);
            ("CacheSubnetGroupName", Ref (VStr (key ++ "SubnetGroup")));
            ("Engine", VStr "redis");
            ("EngineVersion", version);
            ("NumCacheNodes", VStr "1");
            ("Port", port);
            ("Tags", VList [
               VDict [("Key", VStr "Stack"); ("Value", Ref (VStr "AWS::StackName"))];
               VDict [("Key", VStr "Name"); ("Value", Ref (VStr (key ++ "Hostname")))]]);
            ("VpcSecurityGroupIds", Refs security_groups)]);
         ("DependsOn", VStr (key ++ "SubnetGroup"))]) ;;;
    set_resource (key ++ "SubnetGroup")
      (VDict [
         ("Type", VStr "AWS::ElastiCache::SubnetGroup");
         ("Properties", VDict [
            ("Description", Ref (VStr (key ++ "Hostname")));
            ("SubnetIds", Refs subnets)])]) ;;;
    add_arg (Arg.String (key ++ "Hostname")
               (VStr (str_replace_char "." "-" hostname))
               ("Hostname of the Redis Cluster '" ++ key ++ "'")) ;;;
    _add_record_cname key hostname "VPC" (VStr "300") false true false false.

End Builder.

(** ** The outside world: provisioning service, secret store, console *)

Inductive event : Type :=
| CreateStack (StackName : string) (TemplateBody : pyval)
    (Parameters : list Argument) (Tags : pyval)
| DescribeStacks (StackName : string)
| Sleep (seconds : Z)
| Print (text : string)
| CallVault (command : string) (args : list pyval) (kwargs : dict pyval).

(** What happened so far, oldest first, and how many [describe_stacks] calls
    the provisioning service has answered. *)
Record World : Type := mkWorld {
  trace : list event;
  describes : nat
}.

Definition IO : Type -> Type := M World.

Definition emit (e : event) : IO unit :=
  modify (fun w => mkWorld (trace w ++ [e])%list (describes w)).

(** [print(text)] *)
Definition print (text : string) : IO unit := emit (Print text).

(** [time.sleep(seconds)] *)
Definition sleep (seconds : Z) : IO unit := emit (Sleep seconds).

(** The Boto3 session, by its answers: what [create_stack] returns or raises
    for a request, and what the [n]-th [describe_stacks] call returns, as the
    list of the [StackStatus] of the entries of [response['Stacks']]. *)
Record Session : Type := mkSession {
  create_stack_answer :
    string -> pyval -> list Argument -> pyval -> result pyval;
  describe_stacks_answer : nat -> string -> result (list string)
}.

(** [client.create_stack(StackName=..., TemplateBody=..., Parameters=..., Tags=...)] *)
Definition create_stack (session : Session) (StackName : string)
  (TemplateBody : pyval) (Parameters : list Argument) (Tags : pyval) : IO pyval :=
  emit (CreateStack StackName TemplateBody Parameters Tags) ;;;
  lift (create_stack_answer session StackName TemplateBody Parameters Tags).

(** [client.describe_stacks(StackName=name)] *)
Definition describe_stacks (session : Session) (StackName : string)
  : IO (list string) :=
  fun w =>
    (describe_stacks_answer session (describes w) StackName,
     mkWorld (trace w ++ [DescribeStacks StackName])%list (S (describes w))).

(** ** The stack provisioner: [CloudFormationConfiguration.create] *)

Section Provisioner.

  (** [lib.get_commit()], the build identifier the submission is tagged with *)
Variable get_commit : string.

  (** [_create_template]: the document handed to [json.dumps], before
      rendering. *)
Definition _create_template (self : CloudFormationConfiguration)
    (description : string) : pyval :=
    VDict [("AWSTemplateFormatVersion", VStr "2010-09-09");
           ("Description", VStr description);
           ("Parameters", VDict (map (fun '(k, p) => (k, VDict p)) (parameters self)));
           ("Resources", VDict (resources self))].

  (** [get_status = lambda r: r['Stacks'][0]['StackStatus']] *)
Definition get_status (response : list string) : result string :=
    match response with
    | status :: _ => Ok status
    | [] => Raise (IndexError "list index out of range")
    end.

  (** The [while] loop of [create]; [fuel] bounds the iterations the model
      follows, the loop itself has no bound. *)
Fixpoint poll (fuel : nat) (session : Session) (name : string)
    (response : list string) : IO (list string) :=
    status <- lift (get_status response) ;;
    if String.eqb status "CREATE_IN_PROGRESS" then
      match fuel with
      | O => lift OutOfFuel
      | S fuel' =>
          sleep 5 ;;;
          print "." ;;;
          response <- describe_stacks session name ;;
          poll fuel' session name response
      end
    else ret response.

  (** [create]; the result is Python's [True], [False] or [None]. *)
Definition create (self : CloudFormationConfiguration) (session : Session)
    (name : string) (wait : bool) (fuel : nat) : IO (option bool) :=
    for_each (arguments self) (fun argument =>
      if is_none (ParameterValue argument) then
        raise (Exception
                 ("Could not determine argument '" ++ ParameterKey argument ++ "'"))
      else ret tt) ;;;
    response <- create_stack session name (_create_template self EmptyString)
                  (arguments self)
                  (VList [VDict [("Key", VStr "Commit"); ("Value", VStr get_commit)]]) ;;
    if wait then
      response <- describe_stacks session name ;;
      if Nat.eqb (length response) 0 then
        print "Problem launching stack" ;;;
        ret None
      else
        print "Waiting for create " ;;;
        response <- poll fuel session name response ;;
        print " done" ;;;
        status <- lift (get_status response) ;;
        if String.eqb status "CREATE_COMPLETE" then
          print ("Created stack '" ++ name ++ "'") ;;;
          ret (Some true)
        else
          print ("Status of stack '" ++ name ++ "' is '" ++ status ++ "'") ;;;
          ret (Some false)
    else ret None.

End Provisioner.

(** ** The secret store and the compensation workflows *)

(** The collaborators of the two [create] entry points that live in the
    [library] and [hosts] modules, by what they return. *)
Record Library : Type := mkLibrary {
  (** outcome of [lib.call_vault(..., command, *args, **kwargs)], given what
      happened before the call *)
  call_vault_answer :
    list event -> string -> list pyval -> dict pyval -> result pyval;
  (** [lib.keypair_lookup(session)] *)
  keypair_lookup : pyval;
  (** [lib.generate_password()] *)
  generate_password : string;
  (** [str(uuid.uuid4())] *)
  uuid4 : string;
  (** [lib.domain_to_stackname] *)
  domain_to_stackname : string -> result string;
  (** [hosts.lookup] *)
  hosts_lookup : string -> pyval;
  (** [str(user_data)] for a [configuration.UserData()] after the listed
      [user_data[section][option] = value] assignments, in order *)
  UserData_str : list (string * string * pyval) -> result string;
  (** [lib.get_commit()] *)
  lib_get_commit : string
}.

(** [not x] for the result of [config.create] *)
Definition py_not (success : option bool) : bool :=
  match success with
  | Some true => false
  | Some false => true
  | None => true
  end.

Section CallVault.
Variable lib : Library.

  (** The local wrapper [call_vault(command, *args, **kwargs)] *)
Definition call_vault (command : string) (args : list pyval) (kwargs : dict pyval)
    : IO pyval :=
    fun w =>
      (call_vault_answer lib (trace w) command args kwargs,
       mkWorld (trace w ++ [CallVault command args kwargs])%list (describes w)).
End CallVault.

Module Proofreader.

Definition VAULT_DJANGO : string := "secret/proofreader/django".
Definition VAULT_DJANGO_DB : string := "secret/proofreader/django/db".

Section Create.
Variable lib : Library.
    (** [create_config(session, domain, keypair, user_data, db)] *)
Variable create_config :
      string -> pyval -> string -> dict pyval -> result CloudFormationConfiguration.

    (** [create(session, domain)] *)
Definition create (session : Session) (domain : string) (fuel : nat) : IO unit :=
      let keypair := keypair_lookup lib in
      let db :=
        [("name", VStr "microns_proofreader");
         ("user", VStr "proofreader");
         ("password", VStr (generate_password lib));
         ("port", VStr "3306")] in
      proofreader_token <- call_vault lib "vault-provision" [VStr "proofreader"] [] ;;
      user_data <- lift (UserData_str lib
        [("vault", "token", proofreader_token);
         ("system", "fqdn", VStr ("proofreader-web." ++ domain));
         ("system", "type", VStr "proofreader-web");
         ("aws", "db", VStr ("proofreader-db." ++ domain))]) ;;
      call_vault lib "vault-write" [VStr VAULT_DJANGO]
        [("secret_key", VStr (uuid4 lib))] ;;;
      call_vault lib "vault-write" [VStr VAULT_DJANGO_DB] db ;;;
      try_except
        (name <- lift (domain_to_stackname lib ("proofreader." ++ domain)) ;;
         config <- lift (create_config domain keypair user_data db) ;;
         success <- create (lib_get_commit lib) config session name true fuel ;;
         if py_not success then raise (Exception "Create Failed") else ret tt)
        (fun e =>
           print "Error detected, revoking secrets" ;;;
           try_except
             (call_vault lib "vault-delete" [VStr VAULT_DJANGO] [] ;;;
              call_vault lib "vault-delete" [VStr VAULT_DJANGO_DB] [] ;;;
              ret tt)
             (fun _ => print "Error revoking Django credentials") ;;;
           try_except
             (call_vault lib "vault-revoke" [proofreader_token] [] ;;; ret tt)
             (fun _ => print "Error revoking Proofreader Server Vault access token") ;;;
           raise e).
End Create.

End Proofreader.

Module Production.

Section Create.
Variable lib : Library.
    (** [create_config(session, domain, keypair, user_data, db)] *)
Variable create_config :
      string -> pyval -> string -> dict pyval -> result CloudFormationConfiguration.

    (** [create(session, domain)] *)
Definition create (session : Session) (domain : string) (fuel : nat) : IO unit :=
      let keypair := keypair_lookup lib in
      let db :=
        [("name", VStr "boss");
         ("user", VStr "testuser");
         ("password", VStr (generate_password lib));
         ("port", VStr "3306")] in
      print (py_str (VDict db)) ;;;
      endpoint_token <- call_vault lib "vault-provision" [VStr "endpoint"] [] ;;
      user_data <- lift (UserData_str lib
        [("vault", "url",
          VStr ("http://" ++ py_str (hosts_lookup lib ("vault." ++ domain)) ++ ":8200"));
         ("vault", "token", endpoint_token);
         ("system", "fqdn", VStr ("endpoint.external." ++ domain));
         ("system", "type", VStr "endpoint")]) ;;
      call_vault lib "vault-django"
        [VStr "boss"; VStr "testuser"; VStr (generate_password lib); VStr "3306"] [] ;;;
      try_except
        (name <- lift (domain_to_stackname lib ("production." ++ domain)) ;;
         config <- lift (create_config domain keypair user_data db) ;;
         success <- create (lib_get_commit lib) config session name true fuel ;;
         if py_not success then raise (Exception "Create Failed") else ret tt)
        (fun e =>
           print "Error detected, revoking secrets" ;;;
           try_except
             (call_vault lib "vault-django"
                [VStr EmptyString; VStr EmptyString; VStr EmptyString; VStr EmptyString] [] ;;;
              ret tt)
             (fun _ => print "Error revoking Django credentials") ;;;
           try_except
             (call_vault lib "vault-revoke" [endpoint_token] [] ;;; ret tt)
             (fun _ => print "Error revoking Endpoint Server Vault access token") ;;;
           raise e).
End Create.

End Production.

(** ** The scenario resolver as the specification words it

    "if [value] is a plain scalar, return it unchanged; if it is a scenario
    mapping, return [value[selector]] if present, else [value["default"]] if
    present, else [fallback]".  Compared with [get_scenario] below. *)
Definition resolve_spec (selector : string) (value fallback : pyval) : pyval :=
  match value with
  | VDict d =>
      match dict_get selector d with
      | Some x => x
      | None =>
          match dict_get "default" d with
          | Some y => y
          | None => fallback
          end
      end
  | _ => value
  end.

(** ** Reading a configuration back *)

(** [v.get(k)] on a value, [None] when [v] is not a [dict] *)
Definition pv_lookup (v : pyval) (k : string) : option pyval :=
  match v with
  | VDict d => dict_get k d
  | _ => None
  end.

(** [self.resources[key][field]] *)
Definition resource_field (self : CloudFormationConfiguration) (key field : string)
  : option pyval :=
  match dict_get key (resources self) with
  | Some r => pv_lookup r field
  | None => None
  end.

(** [self.resources[key]["Properties"][prop]] *)
Definition resource_property (self : CloudFormationConfiguration) (key prop : string)
  : option pyval :=
  match resource_field self key "Properties" with
  | Some p => pv_lookup p prop
  | None => None
  end.

(** The keys of the arguments, in order *)
Definition argument_keys (self : CloudFormationConfiguration) : list string :=
  map ParameterKey (arguments self).

(** How many of the values are not [None] *)
Definition count_not_none (l : list pyval) : nat :=
  length (filter (fun v => negb (is_none v)) l).

(** What [add_arg a] does to the parameters [p] and the arguments [ar]. *)
Definition arg_step (a : Arg) (p : dict (dict pyval)) (ar : list Argument)
  (p' : dict (dict pyval)) (ar' : list Argument) : Prop :=
  dict_mem (key a) p' = true /\
  (forall k, dict_mem k p = true -> dict_mem k p' = true) /\
  (forall k, k <> key a -> dict_mem k p' = dict_mem k p) /\
  (dict_mem (key a) p = false ->
   p' = dict_set (key a) (parameter a) p /\ ar' = (ar ++ [argument a])%list) /\
  (dict_mem (key a) p = true -> p' = p /\ ar' = ar) /\
  (exists rest, ar' = (ar ++ rest)%list).

(** ** Reading a run of the provisioner back *)

(** The events of [n] rounds of the polling loop of [create] *)
Definition poll_trace (n : nat) (name : string) : list event :=
  concat (repeat [Sleep 5; Print "."; DescribeStacks name] n).

(** The request that [create] sends for a configuration *)
Definition create_request (get_commit : string) (self : CloudFormationConfiguration)
  (name : string) : event :=
  CreateStack name (_create_template self EmptyString) (arguments self)
    (VList [VDict [("Key", VStr "Commit"); ("Value", VStr get_commit)]]).

(** The answer of the provisioning service to that request *)
Definition create_answer (get_commit : string) (self : CloudFormationConfiguration)
  (session : Session) (name : string) : result pyval :=
  create_stack_answer session name (_create_template self EmptyString) (arguments self)
    (VList [VDict [("Key", VStr "Commit"); ("Value", VStr get_commit)]]).

(** A [describe_stacks] answer that reports the stack as being created *)
Definition in_progress (answer : result (list string)) : Prop :=
  exists l, answer = Ok l /\ get_status l = Ok "CREATE_IN_PROGRESS".

(** How the polling loop ends on an answer that does not report the stack
    as being created: with the answer itself when it has a status, with the
    [IndexError] of [get_status] when it lists no stack, with the exception
    of [describe_stacks] when that raised. *)
Definition settle (answer : result (list string)) : result (list string) :=
  match answer with
  | Ok response =>
      match get_status response with
      | Ok _ => Ok response
      | Raise e => Raise e
      | OutOfFuel => OutOfFuel
      end
  | Raise e => Raise e
  | OutOfFuel => OutOfFuel
  end.

(** ** Reading a run of the compensation workflows back *)

(** The world after some more events *)
Definition after (w : World) (events : list event) : World :=
  mkWorld (trace w ++ events)%list (describes w).

(** What an [except: print(message)] around one secret-store call adds to
    the output: the message when the call raised, nothing when it returned *)
Definition reversal_log (answer : result pyval) (message : string) : list event :=
  match answer with
  | Ok _ => []
  | _ => [Print message]
  end.

(** The body of the [try] block of the two [create] entry points, for the
    stack of [stack_domain] *)
Definition try_launch (lib : Library)
  (create_config :
     string -> pyval -> string -> dict pyval -> result CloudFormationConfiguration)
  (session : Session) (stack_domain domain : string) (keypair : pyval)
  (user_data : string) (db : dict pyval) (fuel : nat) : IO unit :=
  name <- lift (domain_to_stackname lib stack_domain) ;;
  config <- lift (create_config domain keypair user_data db) ;;
  success <- create (lib_get_commit lib) config session name true fuel ;;
  if py_not success then raise (Exception "Create Failed") else ret tt.

(** ** More of Python: text, [int()], nested item access *)

(** [len(s.split(c)) - 1] *)
Fixpoint count_char (c : ascii) (s : string) : nat :=
  match s with
  | EmptyString => 0
  | String c' s' => (if Ascii.eqb c' c then 1 else 0) + count_char c s'
  end.

(** [s.split(c, 1)[1]] for a text that holds [c] (the empty text otherwise) *)
Fixpoint after_first (c : ascii) (s : string) : string :=
  match s with
  | EmptyString => EmptyString
  | String c' s' => if Ascii.eqb c' c then s' else after_first c s'
  end.

Definition ascii_upper (c : ascii) : ascii :=
  let n := nat_of_ascii c in
  if (97 <=? n)%nat && (n <=? 122)%nat then ascii_of_nat (n - 32) else c.

Definition ascii_lower (c : ascii) : ascii :=
  let n := nat_of_ascii c in
  if (65 <=? n)%nat && (n <=? 90)%nat then ascii_of_nat (n + 32) else c.

Fixpoint str_lower (s : string) : string :=
  match s with
  | EmptyString => EmptyString
  | String c s' => String (ascii_lower c) (str_lower s')
  end.

(** [s.capitalize()], for ASCII text *)
Definition capitalize (s : string) : string :=
  match s with
  | EmptyString => EmptyString
  | String c s' => String (ascii_upper c) (str_lower s')
  end.

(** [l.index(x)] in a list of texts *)
Fixpoint list_index (x : string) (l : list string) : result nat :=
  match l with
  | [] => Raise (ValueError "is not in list")
  | y :: l' =>
      if String.eqb x y then Ok 0
      else match list_index x l' with
           | Ok i => Ok (S i)
           | Raise e => Raise e
           | OutOfFuel => OutOfFuel
           end
  end.

(** [l[i]] *)
Definition list_getitem (l : list pyval) (i : nat) : result pyval :=
  match nth_error l i with
  | Some x => Ok x
  | None => Raise (IndexError "index out of range")
  end.

(** [a + b] where the code adds texts: anything but two texts is a
    [TypeError] *)
Definition str_add (a b : pyval) : result pyval :=
  match a, b with
  | VStr x, VStr y => Ok (VStr (x ++ y))
  | _, _ => Raise (TypeError "unsupported operand type(s) for +")
  end.

Definition is_space (c : ascii) : bool :=
  let n := nat_of_ascii c in
  (n =? 32)%nat || ((9 <=? n)%nat && (n <=? 13)%nat).

Fixpoint lstrip (s : string) : string :=
  match s with
  | String c s' => if is_space c then lstrip s' else s
  | EmptyString => EmptyString
  end.

Definition digit_of (c : ascii) : option Z :=
  let n := nat_of_ascii c in
  if (48 <=? n)%nat && (n <=? 57)%nat then Some (Z.of_nat (n - 48)) else None.

(** The digits of a decimal literal, with single underscores between digits
    and blanks allowed after the last digit; [prev] tells whether the
    character before was a digit. *)
Fixpoint parse_digits (acc : Z) (prev : bool) (s : string) : option Z :=
  match s with
  | EmptyString => if prev then Some acc else None
  | String c s' =>
      match digit_of c with
      | Some d => parse_digits (acc * 10 + d) true s'
      | None =>
          if Ascii.eqb c "_" then
            if prev then
              match s' with
              | String c' _ =>
                  match digit_of c' with
                  | Some _ => parse_digits acc false s'
                  | None => None
                  end
              | EmptyString => None
              end
            else None
          else if prev && is_space c then
            match lstrip s' with
            | EmptyString => Some acc
            | _ => None
            end
          else None
      end
  end.

(** [int(v)] for ASCII text in base ten *)
Definition py_int (v : pyval) : result Z :=
  match v with
  | VInt z => Ok z
  | VBool b => Ok (if b then 1 else 0)%Z
  | VStr s =>
      let invalid := Raise (ValueError "invalid literal for int() with base 10") in
      match lstrip s with
      | String "-" s' =>
          match parse_digits 0 false s' with Some z => Ok (- z)%Z | None => invalid end
      | String "+" s' =>
          match parse_digits 0 false s' with Some z => Ok z | None => invalid end
      | s' =>
          match parse_digits 0 false s' with Some z => Ok z | None => invalid end
      end
  | _ => Raise (TypeError "int() argument must be a string or a number")
  end.

(** One step into a nested value: [v[key]] or [v[index]] *)
Inductive item : Type :=
| Key : string -> item
| Index : nat -> item.

Fixpoint list_update (l : list pyval) (i : nat) (f : pyval -> result pyval)
  : result (list pyval) :=
  match l, i with
  | [], _ => Raise (IndexError "list index out of range")
  | x :: l', O =>
      match f x with
      | Ok x' => Ok (x' :: l')
      | Raise e => Raise e
      | OutOfFuel => OutOfFuel
      end
  | x :: l', S i' =>
      match list_update l' i' f with
      | Ok l'' => Ok (x :: l'')
      | Raise e => Raise e
      | OutOfFuel => OutOfFuel
      end
  end.

(** Change the value found by following [path] inside [v] with [f]; the
    values on the way are the objects the code reaches by [v[...][...]]. *)
Fixpoint pv_update (path : list item) (f : pyval -> result pyval) (v : pyval)
  : result pyval :=
  match path with
  | [] => f v
  | Key k :: path' =>
      match v with
      | VDict d =>
          match dict_get k d with
          | Some x =>
              match pv_update path' f x with
              | Ok x' => Ok (VDict (dict_set k x' d))
              | Raise e => Raise e
              | OutOfFuel => OutOfFuel
              end
          | None => Raise (KeyError k)
          end
      | _ => Raise (TypeError "indices must be integers")
      end
  | Index i :: path' =>
      match v with
      | VList l =>
          match list_update l i (pv_update path' f) with
          | Ok l' => Ok (VList l')
          | Raise e => Raise e
          | OutOfFuel => OutOfFuel
          end
      | _ => Raise (TypeError "object is not subscriptable")
      end
  end.

(** [x.append(y)] *)
Definition pv_append (y : pyval) (x : pyval) : result pyval :=
  match x with
  | VList l => Ok (VList (l ++ [y])%list)
  | _ => Raise (TypeError "object has no attribute 'append'")
  end.

(** [self.resources[key]<path> = f(self.resources[key]<path>)] *)
Definition update_resource (key : string) (path : list item)
  (f : pyval -> result pyval) : Build unit :=
  self <- get_state ;;
  r <- lift (match dict_get key (resources self) with
             | Some r => Ok r
             | None => Raise (KeyError key)
             end) ;;
  r' <- lift (pv_update path f r) ;;
  set_resource key r'.

(** [self.subnet_domain = domain; self.subnet_subnet = subnet] *)
Definition set_subnet (domain subnet : pyval) : Build unit :=
  modify (with_subnet domain subnet).

(** ** The remaining builder operations *)

Section BuilderOperations.

(** [os.environ] of the process *)
Variable environ : dict string.

(** [hosts.lookup]: the subnet of a domain name, or [None] *)
Variable lookup : string -> pyval.

(** [lib.azs_lookup(session)]: the availability zones with their subnet
    letters *)
Variable azs_lookup : list (pyval * string).

(** [lib.subnet_id_lookup(session, domain)] *)
Variable subnet_id_lookup : string -> pyval.

(** [CloudFormationConfiguration(domain, region)] *)
Definition __init__ (domain : string) (region : pyval)
  : result CloudFormationConfiguration :=
  let dots := S (count_char "." domain) in
  if Nat.eqb dots 2 then
    Ok (mkConfiguration [] [] [] region domain (lookup domain) VNone VNone)
  else if Nat.eqb dots 3 then
    let vpc_domain := after_first "." domain in
    Ok (mkConfiguration [] [] [] region vpc_domain (lookup vpc_domain)
          (VStr domain) (lookup domain))
  else Raise (Exception "Not a valiid VPC or Subnet domain name").

(** [add_vpc] *)
Definition add_vpc (key : string) : Build unit :=
  set_resource key
    (VDict [
       ("Type", VStr "AWS::EC2::VPC");
       ("Properties", VDict [
          ("CidrBlock", Ref (VStr (key ++ "Subnet")));
          ("EnableDnsSupport", VStr "true");
          ("EnableDnsHostnames", VStr "true");
          ("Tags", VList [
             VDict [("Key", VStr "Stack"); ("Value", Ref (VStr "AWS::StackName"))];
             VDict [("Key", VStr "Name"); ("Value", Ref (VStr (key ++ "Domain")))]])])]) ;;;
  self <- get_state ;;
  set_resource "DNSZone"
    (VDict [
       ("Type", VStr "AWS::Route53::HostedZone");
       ("Properties", VDict [
          ("HostedZoneConfig", VDict [
             ("Comment",
              VStr ("Internal DNS Zone for the VPC of " ++ vpc_domain self))]);
          ("Name", Ref (VStr (key ++ "Domain")));
          ("VPCs", VList [
             VDict [("VPCId", Ref (VStr key));
                    ("VPCRegion", Ref (VStr (key ++ "Region")))]])])]) ;;;
  add_arg (Arg.CIDR (key ++ "Subnet") (vpc_subnet self)
             ("Subnet of the VPC '" ++ key ++ "'")) ;;;
  add_arg (Arg.String (key ++ "Domain") (VStr (vpc_domain self))
             ("Domain of the VPC '" ++ key ++ "'")) ;;;
  add_arg (Arg.String (key ++ "Region") (region self)
             ("Region of the VPC '" ++ key ++ "'")).

(** [add_subnet] *)
Definition add_subnet (key vpc : string) (az : pyval) : Build unit :=
  set_resource key
    (VDict [
       ("Type", VStr "AWS::EC2::Subnet");
       ("Properties", VDict [
          ("VpcId", Ref (VStr vpc));
          ("CidrBlock", Ref (VStr (key ++ "Subnet")));
          ("Tags", VList [
             VDict [("Key", VStr "Stack"); ("Value", Ref (VStr "AWS::StackName"))];
             VDict [("Key", VStr "Name"); ("Value", Ref (VStr (key ++ "Domain")))]])])]) ;;;
  when_not_none az (set_resource_property key "AvailabilityZone" az) ;;;
  self <- get_state ;;
  add_arg (Arg.CIDR (key ++ "Subnet") (subnet_subnet self)
             ("Subnet of the Subnet '" ++ key ++ "'")) ;;;
  add_arg (Arg.String (key ++ "Domain") (subnet_domain self)
             ("Domain of the Subnet '" ++ key ++ "'")).

(** The loop of [add_all_azs], with the two lists it fills *)
Fixpoint add_all_azs_loop (azs : list (pyval * string)) (internal external : list string)
  : Build (list string * list string) :=
  match azs with
  | [] => ret (internal, external)
  | (az, sub) :: azs' =>
      let name := capitalize sub ++ "InternalSubnet" in
      self <- get_state ;;
      set_subnet (VStr (sub ++ "-internal." ++ vpc_domain self))
        (lookup (sub ++ "-internal." ++ vpc_domain self)) ;;;
      add_subnet name "VPC" az ;;;
      let internal := (internal ++ [name])%list in
      let name := capitalize sub ++ "ExternalSubnet" in
      self <- get_state ;;
      set_subnet (VStr (sub ++ "-external." ++ vpc_domain self))
        (lookup (sub ++ "-external." ++ vpc_domain self)) ;;;
      add_subnet name "VPC" az ;;;
      let external := (external ++ [name])%list in
      add_all_azs_loop azs' internal external
  end.

(** [add_all_azs] *)
Definition add_all_azs : Build (list string * list string) :=
  add_all_azs_loop azs_lookup [] [].

(** The loop of [find_all_availability_zones] *)
Fixpoint find_all_availability_zones_loop (azs : list (pyval * string))
  (internal external : list string) : Build (list string * list string) :=
  match azs with
  | [] => ret (internal, external)
  | (az, sub) :: azs' =>
      let name := capitalize sub ++ "InternalSubnet" in
      self <- get_state ;;
      let domain := sub ++ "-internal." ++ vpc_domain self in
      let id := subnet_id_lookup domain in
      add_arg (Arg.Subnet name id EmptyString) ;;;
      let internal := (internal ++ [name])%list in
      let name := capitalize sub ++ "ExternalSubnet" in
      let domain := sub ++ "-external." ++ vpc_domain self in
      let id := subnet_id_lookup domain in
      add_arg (Arg.Subnet name id EmptyString) ;;;
      let external := (external ++ [name])%list in
      find_all_availability_zones_loop azs' internal external
  end.

(** [find_all_availability_zones] *)
Definition find_all_availability_zones : Build (list string * list string) :=
  find_all_availability_zones_loop azs_lookup [] [].

(** [if type(ami) == tuple: commit = ami[1]; ami = ami[0]; if commit is not
    None: <tags>.append(kv)], giving the [ami] to go on with *)
Definition unpack_ami (key : string) (ami : pyval) (tag_extra : dict pyval)
  : Build pyval :=
  match ami with
  | VTuple l =>
      commit <- lift (list_getitem l 1) ;;
      ami <- lift (list_getitem l 0) ;;
      (if negb (is_none commit) then
         update_resource key [Key "Properties"; Key "Tags"]
           (pv_append (VDict ([("Key", VStr "AMI Commit"); ("Value", commit)]
                              ++ tag_extra)%list))
       else ret tt) ;;;
      ret ami
  | _ => ret ami
  end.

(** [add_ec2_instance] *)
Definition add_ec2_instance (key hostname : string) (ami keypair : pyval)
  (subnet : pyval) (type_ : pyval) (iface_check public_ip : bool)
  (security_groups : option (list pyval)) (user_data meta_data depends_on : pyval)
  : Build unit :=
  type_ <- inline_scenario environ type_ (VStr "t2.micro") ;;
  set_resource key
    (VDict [
       ("Type", VStr "AWS::EC2::Instance");
       ("Properties", VDict [
          ("ImageId", Ref (VStr (key ++ "AMI")));
          ("InstanceType", type_);
          ("KeyName", Ref (VStr (key ++ "Key")));
          ("SourceDestCheck", VStr (bool_str iface_check));
          ("Tags", VList [
             VDict [("Key", VStr "Stack"); ("Value", Ref (VStr "AWS::StackName"))];
             VDict [("Key", VStr "Name"); ("Value", Ref (VStr (key ++ "Hostname")))]]);
          ("NetworkInterfaces", VList [
             VDict [("AssociatePublicIpAddress", VStr (bool_str public_ip));
                    ("DeviceIndex", VStr "0");
                    ("DeleteOnTermination", VStr "true");
                    ("SubnetId", Ref subnet)]])])]) ;;;
  ami <- unpack_ami key ami [] ;;
  when_not_none depends_on (set_resource_field key "DependsOn" depends_on) ;;;
  (match security_groups with
   | Some sgs =>
       update_resource key [Key "Properties"; Key "NetworkInterfaces"; Index 0]
         (fun ni => pv_setitem ni "GroupSet" (Refs sgs))
   | None => ret tt
   end) ;;;
  when_not_none meta_data (set_resource_field key "Metadata" meta_data) ;;;
  when_not_none user_data
    (set_resource_property key "UserData" (VDict [("Fn::Base64", user_data)])) ;;;
  add_arg (Arg.AMI (key ++ "AMI") ami ("AMI for the EC2 Instance '" ++ key ++ "'")) ;;;
  add_arg (Arg.KeyPair (key ++ "Key") keypair hostname) ;;;
  add_arg (Arg.String (key ++ "Hostname") (VStr hostname)
             ("Hostname of the EC2 Instance '" ++ key ++ "'")) ;;;
  _add_record_cname key hostname "VPC" (VStr "300") false false false true.

(** [add_dynamo_table_from_json] *)
Definition add_dynamo_table_from_json (key : string)
  (name KeySchema AttributeDefinitions ProvisionedThroughput : pyval) : Build unit :=
  let props :=
    VDict [("TableName", Ref (VStr (key ++ "TableName")));
           ("KeySchema", KeySchema);
           ("AttributeDefinitions", AttributeDefinitions);
           ("ProvisionedThroughput", ProvisionedThroughput)] in
  set_resource key
    (VDict [("Type", VStr "AWS::DynamoDB::Table"); ("Properties", props)]) ;;;
  add_arg (Arg.String (key ++ "TableName") name
             ("Name of the DynamoDB table created by instance '" ++ key ++ "'")).

(** [add_dynamo_table] *)
Definition add_dynamo_table (key : string) (name : pyval)
  (attributes key_schema : dict pyval) (throughput : pyval * pyval) : Build unit :=
  let attr_defs :=
    map (fun '(key_, type_) =>
           VDict [("AttributeName", VStr key_); ("AttributeType", type_)]) attributes in
  let key_schema_ :=
    map (fun '(key_, type_) =>
           VDict [("AttributeName", VStr key_); ("KeyType", type_)]) key_schema in
  read <- lift (py_int (fst throughput)) ;;
  write <- lift (py_int (snd throughput)) ;;
  set_resource key
    (VDict [
       ("Type", VStr "AWS::DynamoDB::Table");
       ("Properties", VDict [
          ("TableName", Ref (VStr (key ++ "TableName")));
          ("AttributeDefinitions", VList attr_defs);
          ("KeySchema", VList key_schema_);
          ("ProvisionedThroughput", VDict [
             ("ReadCapacityUnits", VInt read);
             ("WriteCapacityUnits", VInt write)])])]) ;;;
  add_arg (Arg.String (key ++ "TableName") name
             ("Name of the DynamoDB table created by instance '" ++ key ++ "'")).

(** [add_redis_replication] *)
Definition add_redis_replication (key hostname : string)
  (subnets security_groups : list pyval) (type_ port version clusters : pyval)
  : Build unit :=
  scenario <- lift (environ_lookup environ "SCENARIO") ;;
  let type_ :=
    match type_ with
    | VDict d => scenario_select scenario d (VStr "cache.m3.medium")
    | _ => type_
    end in
  let clusters :=
    match clusters with
    | VDict d => scenario_select scenario d (VInt 1)
    | _ => clusters
    end in
  clusters <- lift (py_int clusters) ;;
  set_resource key
    (VDict [
       ("Type", VStr "AWS::ElastiCache::ReplicationGroup");
       ("Properties", VDict [
          ("AutomaticFailoverEnabled", VStr (bool_str (1 <? clusters)%Z));
          ("CacheNodeType", type_);
          ("CacheSubnetGroupName", Ref (VStr (key ++ "SubnetGroup")));
          ("Engine", VStr "redis");
          ("EngineVersion", version);
          ("NumCacheClusters", VInt clusters);
          ("Port", port);
          ("ReplicationGroupDescription", Ref (VStr (key ++ "Hostname")));
          ("SecurityGroupIds", Refs security_groups)]);
       ("DependsOn", VStr (key ++ "SubnetGroup"))]) ;;;
  set_resource (key ++ "SubnetGroup")
    (VDict [
       ("Type", VStr "AWS::ElastiCache::SubnetGroup");
       ("Properties", VDict [
          ("Description", Ref (VStr (key ++ "Hostname")));
          ("SubnetIds", Refs subnets)])]) ;;;
  add_arg (Arg.String (key ++ "Hostname")
             (VStr (str_replace_char "." "-" hostname))
             ("Hostname of the Redis Cluster '" ++ key ++ "'")) ;;;
  _add_record_cname key hostname "VPC" (VStr "300") false false true false.

(** A rule of a security group: [(protocol, from port, to port, cidr)] *)
Definition rule : Type := (pyval * pyval * pyval * pyval)%type.

(** [map(lambda x: x[1] + "-" + x[2], rules)], as far as it can be computed *)
Fixpoint rule_ports (rules : list rule) : result (list string) :=
  match rules with
  | [] => Ok []
  | (_, from_port, to_port, _) :: rules' =>
      match str_add from_port (VStr "-") with
      | Ok lhs =>
          match str_add lhs to_port with
          | Ok (VStr ports) =>
              match rule_ports rules' with
              | Ok rest => Ok (ports :: rest)
              | Raise e => Raise e
              | OutOfFuel => OutOfFuel
              end
          | Ok _ => Raise (TypeError "sequence item: expected str instance")
          | Raise e => Raise e
          | OutOfFuel => OutOfFuel
          end
      | Raise e => Raise e
      | OutOfFuel => OutOfFuel
      end
  end.

(** [add_security_group] *)
Definition add_security_group (key name : string) (rules : list rule) (vpc : string)
  : Build unit :=
  ports <- lift (rule_ports rules) ;;
  let ports := str_join "/" ports in
  let ingress :=
    map (fun '(protocol, from_port, to_port, cidr) =>
           VDict [("IpProtocol", protocol); ("FromPort", from_port);
                  ("ToPort", to_port); ("CidrIp", cidr)]) rules in
  set_resource key
    (VDict [
       ("Type", VStr "AWS::EC2::SecurityGroup");
       ("Properties", VDict [
          ("VpcId", Ref (VStr vpc));
          ("GroupDescription", VStr ("Enable access to ports " ++ ports));
          ("SecurityGroupIngress", VList ingress);
          ("Tags", VList [
             VDict [("Key", VStr "Stack"); ("Value", Ref (VStr "AWS::StackName"))];
             VDict [("Key", VStr "Name");
                    ("Value",
                     VDict [("Fn::Join",
                             VList [VStr ".";
                                    VList [VStr name;
                                           Ref (VStr (vpc ++ "Domain"))]])])]])])]) ;;;
  self <- get_state ;;
  add_arg (Arg.String (vpc ++ "Domain") (VStr (vpc_domain self))
             ("Domain of the VPC '" ++ vpc ++ "'")).

(** [add_route_table_association] *)
Definition add_route_table_association (key route_table subnet : string) : Build unit :=
  set_resource key
    (VDict [
       ("Type", VStr "AWS::EC2::SubnetRouteTableAssociation");
       ("Properties", VDict [
          ("SubnetId", Ref (VStr subnet));
          ("RouteTableId", Ref (VStr route_table))])]).

(** [add_route_table] *)
Definition add_route_table (key name vpc : string) (subnets : list string) : Build unit :=
  set_resource key
    (VDict [
       ("Type", VStr "AWS::EC2::RouteTable");
       ("Properties", VDict [
          ("VpcId", Ref (VStr vpc));
          ("Tags", VList [
             VDict [("Key", VStr "Stack"); ("Value", Ref (VStr "AWS::StackName"))];
             VDict [("Key", VStr "Name");
                    ("Value",
                     VDict [("Fn::Join",
                             VList [VStr ".";
                                    VList [VStr name;
                                           Ref (VStr (vpc ++ "Domain"))]])])]])])]) ;;;
  self <- get_state ;;
  add_arg (Arg.String (vpc ++ "Domain") (VStr (vpc_domain self))
             ("Domain of the VPC '" ++ vpc ++ "'")) ;;;
  for_each subnets (fun subnet =>
    index <- lift (list_index subnet subnets) ;;
    let key_ := key ++ "SubnetAssociation" ++ nat_str index in
    add_route_table_association key_ key subnet).

(** [add_internet_gateway] *)
Definition add_internet_gateway (key name vpc : string) : Build unit :=
  set_resource key
    (VDict [
       ("Type", VStr "AWS::EC2::InternetGateway");
       ("Properties", VDict [
          ("Tags", VList [
             VDict [("Key", VStr "Stack"); ("Value", Ref (VStr "AWS::StackName"))];
             VDict [("Key", VStr "Name");
                    ("Value",
                     VDict [("Fn::Join",
                             VList [VStr ".";
                                    VList [VStr name;
                                           Ref (VStr (vpc ++ "Domain"))]])])]])]);
       ("DependsOn", VStr vpc)]) ;;;
  set_resource ("Attach" ++ key)
    (VDict [
       ("Type", VStr "AWS::EC2::VPCGatewayAttachment");
       ("Properties", VDict [
          ("VpcId", Ref (VStr vpc));
          ("InternetGatewayId", Ref (VStr key))]);
       ("DependsOn", VStr key)]) ;;;
  self <- get_state ;;
  add_arg (Arg.String (vpc ++ "Domain") (VStr (vpc_domain self))
             ("Domain of the VPC '" ++ vpc ++ "'")).

(** [add_vpc_peering] *)
Definition add_vpc_peering (key : string) (vpc peer_vpc : pyval) : Build unit :=
  set_resource key
    (VDict [
       ("Type", VStr "AWS::EC2::VPCPeeringConnection");
       ("Properties", VDict [
          ("VpcId", Ref (VStr (key ++ "VPC")));
          ("PeerVpcId", Ref (VStr (key ++ "PeerVPC")));
          ("Tags", VList [
             VDict [("Key", VStr "Stack");
                    ("Value", Ref (VStr "AWS::StackName"))]])])]) ;;;
  add_arg (Arg.VPC (key ++ "VPC") vpc "Originating VPC for the peering connection") ;;;
  add_arg (Arg.VPC (key ++ "PeerVPC") peer_vpc
             "Destination VPC for the peering connection").

(** One entry of [listener_defs] in [add_loadbalancer] *)
Definition listener_def (key : string) (listener : list pyval) : result pyval :=
  match list_getitem listener 0 with
  | Ok elb_port =>
      match list_getitem listener 1 with
      | Ok instance_port =>
          match list_getitem listener 2 with
          | Ok protocol =>
              let def :=
                [("LoadBalancerPort", VStr (py_str elb_port));
                 ("InstancePort", VStr (py_str instance_port));
                 ("Protocol", protocol);
                 ("PolicyNames", VList [VStr (key ++ "Policy")])] in
              match listener with
              | [_; _; _; cert] =>
                  if negb (is_none cert)
                  then Ok (VDict (dict_set "SSLCertificateId" cert def))
                  else Ok (VDict def)
              | _ => Ok (VDict def)
              end
          | Raise e => Raise e
          | OutOfFuel => OutOfFuel
          end
      | Raise e => Raise e
      | OutOfFuel => OutOfFuel
      end
  | Raise e => Raise e
  | OutOfFuel => OutOfFuel
  end.

Fixpoint listener_defs (key : string) (listeners : list (list pyval))
  : result (list pyval) :=
  match listeners with
  | [] => Ok []
  | listener :: listeners' =>
      match listener_def key listener with
      | Ok def =>
          match listener_defs key listeners' with
          | Ok defs => Ok (def :: defs)
          | Raise e => Raise e
          | OutOfFuel => OutOfFuel
          end
      | Raise e => Raise e
      | OutOfFuel => OutOfFuel
      end
  end.

(** [add_loadbalancer] *)
Definition add_loadbalancer (key name : string) (listeners : list (list pyval))
  (instances subnets security_groups : option (list pyval))
  (healthcheck_target depends_on : pyval) : Build unit :=
  defs <- lift (listener_defs key listeners) ;;
  set_resource key
    (VDict [
       ("Type", VStr "AWS::ElasticLoadBalancing::LoadBalancer");
       ("Properties", VDict [
          ("CrossZone", VBool true);
          ("HealthCheck", VDict [
             ("Target", healthcheck_target);
             ("HealthyThreshold", VStr "2");
             ("UnhealthyThreshold", VStr "2");
             ("Interval", VStr "30");
             ("Timeout", VStr "5")]);
          ("LBCookieStickinessPolicy",
           VList [VDict [("PolicyName", VStr (key ++ "Policy"))]]);
          ("LoadBalancerName", VStr (str_replace_char "." "-" name));
          ("Listeners", VList defs);
          ("Tags", VList [
             VDict [("Key", VStr "Stack");
                    ("Value", Ref (VStr "AWS::StackName"))]])])]) ;;;
  (match instances with
   | Some refs => set_resource_property key "Instances" (Refs refs)
   | None => ret tt
   end) ;;;
  (match security_groups with
   | Some sgs => set_resource_property key "SecurityGroups" (Refs sgs)
   | None => ret tt
   end) ;;;
  (match subnets with
   | Some subs => set_resource_property key "Subnets" (Refs subs)
   | None => ret tt
   end) ;;;
  when_not_none depends_on (set_resource_field key "DependsOn" depends_on).

(** [add_autoscale_group] *)
Definition add_autoscale_group (key hostname : string) (ami keypair : pyval)
  (subnets : list pyval) (type_ public_ip : pyval) (security_groups : list pyval)
  (user_data min max elb depends_on : pyval) : Build unit :=
  max_size <- lift (get_scenario environ max (VInt 1)) ;;
  min_size <- lift (get_scenario environ min (VInt 1)) ;;
  set_resource key
    (VDict [
       ("Type", VStr "AWS::AutoScaling::AutoScalingGroup");
       ("Properties", VDict [
          ("HealthCheckType", VStr (if is_none elb then "EC2" else "ELB"));
          ("HealthCheckGracePeriod", VInt 30);
          ("LaunchConfigurationName", Ref (VStr (key ++ "Configuration")));
          ("LoadBalancerNames", VList (if is_none elb then [] else [Ref elb]));
          ("MaxSize", VStr (py_str max_size));
          ("MinSize", VStr (py_str min_size));
          ("Tags", VList [
             VDict [("Key", VStr "Stack"); ("Value", Ref (VStr "AWS::StackName"));
                    ("PropagateAtLaunch", VStr "true")];
             VDict [("Key", VStr "Name"); ("Value", Ref (VStr (key ++ "Hostname")));
                    ("PropagateAtLaunch", VStr "true")]]);
          ("VPCZoneIdentifier", Refs subnets)])]) ;;;
  when_not_none depends_on (set_resource_field key "DependsOn" depends_on) ;;;
  instance_type <- lift (get_scenario environ type_ (VStr "t2.micro")) ;;
  set_resource (key ++ "Configuration")
    (VDict [
       ("Type", VStr "AWS::AutoScaling::LaunchConfiguration");
       ("Properties", VDict [
          ("AssociatePublicIpAddress", public_ip);
          ("ImageId", Ref (VStr (key ++ "AMI")));
          ("InstanceMonitoring", VBool false);
          ("InstanceType", instance_type);
          ("KeyName", Ref (VStr (key ++ "Key")));
          ("SecurityGroups", Refs security_groups);
          ("UserData",
           if is_none user_data then VStr EmptyString
           else VDict [("Fn::Base64", user_data)])])]) ;;;
  ami <- unpack_ami key ami [("PropagateAtLaunch", VStr "true")] ;;
  add_arg (Arg.AMI (key ++ "AMI") ami ("AMI for the EC2 Instance '" ++ key ++ "'")) ;;;
  add_arg (Arg.KeyPair (key ++ "Key") keypair hostname) ;;;
  add_arg (Arg.String (key ++ "Hostname") (VStr hostname)
             ("Hostname of the EC2 Instance '" ++ key ++ "'")).

(** One alarm of [add_cloudwatch] *)
Definition cloudwatch_alarm (description : option string)
  (metric statistic threshold : string) (lb_name alarm_actions : pyval) : pyval :=
  VDict [
    ("Type", VStr "AWS::CloudWatch::Alarm");
    ("Properties", VDict
       ([("ActionsEnabled", VStr "true")]
        ++ match description with
           | Some text => [("AlarmDescription", VStr text)]
           | None => []
           end
        ++ [("ComparisonOperator", VStr "GreaterThanOrEqualToThreshold");
            ("EvaluationPeriods", VStr "5");
            ("MetricName", VStr metric);
            ("Namespace", VStr "AWS/ELB");
            ("Period", VStr "60");
            ("Statistic", VStr statistic);
            ("Threshold", VStr threshold);
            ("AlarmActions", VList [alarm_actions]);
            ("Dimensions", VList [
               VDict [("Name", VStr "LoadBalancerName");
                      ("Value", lb_name)]])])%list)].

(** [add_cloudwatch] *)
Definition add_cloudwatch (lb_name alarm_actions depends_on : pyval) : Build unit :=
  set_resource "Latency"
    (cloudwatch_alarm None "Latency" "Average" "2.0" lb_name alarm_actions) ;;;
  when_not_none depends_on (set_resource_field "Latency" "DependsOn" depends_on) ;;;
  set_resource "SurgeCount"
    (cloudwatch_alarm (Some "Surge Count in Load Balance") "SurgeQueueLength"
       "Average" "3.0" lb_name alarm_actions) ;;;
  when_not_none depends_on (set_resource_field "SurgeCount" "DependsOn" depends_on) ;;;
  set_resource "UnhealthyHostCount"
    (cloudwatch_alarm (Some "Urnhealthy Host Count in Load Balance")
       "UnHealthyHostCount" "Minimum" "1.0" lb_name alarm_actions) ;;;
  when_not_none depends_on
    (set_resource_field "UnhealthyHostCount" "DependsOn" depends_on).

(** [add_route_53_record_set] *)
Definition add_route_53_record_set (key : string)
  (full_domain_name cname_value hosted_zone_name : pyval) : Build unit :=
  set_resource key
    (VDict [
       ("Type", VStr "AWS::Route53::RecordSet");
       ("Properties", VDict [
          ("HostedZoneName", hosted_zone_name);
          ("Name", full_domain_name);
          ("Type", VStr "CNAME");
          ("ResourceRecords", VList [cname_value]);
          ("TTL", VInt 300)])]).

(** [add_sns_topic]; [topic_name] is not used by the code *)
Definition add_sns_topic (key : string) (topic_name depends_on : pyval) : Build unit :=
  set_resource key
    (VDict [
       ("topicMicronList", VDict [
          ("Type", VStr "AWS::SNS::Topic");
          ("Properties", VDict [
             ("DisplayName", VStr "MicronList");
             ("Subscription", VList [
                VDict [("Endpoint", VStr "13012544552"); ("Protocol", VStr "sms")];
                VDict [("Endpoint", VStr "sandy.hider@jhuapl.edu");
                       ("Protocol", VStr "email")]])])]);
       ("snspolicyMicronList", VDict [
          ("Type", VStr "AWS::SNS::TopicPolicy");
          ("Properties", VDict [
             ("Topics", VList [Ref (VStr "topicMicronList")]);
             ("PolicyDocument", VDict [
                ("Version", VStr "2008-10-17");
                ("Id", VStr "__default_policy_ID");
                ("Statement", VList [
                   VDict [
                     ("Sid", VStr "__default_statement_ID");
                     ("Effect", VStr "Allow");
                     ("Principal", VDict [("AWS", VStr "*")]);
                     ("Action", VList [
                        VStr "SNS:ListSubscriptionsByTopic";
                        VStr "SNS:Subscribe";
                        VStr "SNS:DeleteTopic";
                        VStr "SNS:GetTopicAttributes";
                        VStr "SNS:Publish";
                        VStr "SNS:RemovePermission";
                        VStr "SNS:AddPermission";
                        VStr "SNS:Receive";
                        VStr "SNS:SetTopicAttributes"]);
                     ("Resource", Ref (VStr "topicMicronList"));
                     ("Condition", VDict [
                        ("StringEquals", VDict [
                           ("AWS:SourceOwner", VStr "256215146792")])])];
                   VDict [
                     ("Sid", VStr "__console_pub_0");
                     ("Effect", VStr "Allow");
                     ("Principal", VDict [("AWS", VStr "*")]);
                     ("Action", VStr "SNS:Publish");
                     ("Resource", Ref (VStr "topicMicronList"))];
                   VDict [
                     ("Sid", VStr "__console_sub_0");
                     ("Effect", VStr "Allow");
                     ("Principal", VDict [("AWS", VStr "*")]);
                     ("Action", VList [VStr "SNS:Subscribe"; VStr "SNS:Receive"]);
                     ("Resource", Ref (VStr "topicMicronList"));
                     ("Condition", VDict [
                        ("StringEquals", VDict [
                           ("SNS:Protocol", VList [
                              VStr "application"; VStr "sms";
                              VStr "email"])])])]])])])])]) ;;;
  when_not_none depends_on (set_resource_field key "DependsOn" depends_on).

End BuilderOperations.

(** ** Sequences of builder calls *)

(** The static constructors of [Arg] *)
Inductive arg_kind : Type :=
| KString | KPassword | KIP | KPort | KCIDR | KVPC | KSubnet | KAMI | KInstance
| KKeyPair | KSecurityGroup | KRouteTable | KCertificate.

(** [Arg.<kind>(key, value, text)]; [text] is the description, for
    [KeyPair] the hostname *)
Definition make_arg (kind : arg_kind) (key : string) (value : pyval) (text : string)
  : Arg :=
  match kind with
  | KString => Arg.String key value text
  | KPassword => Arg.Password key value text
  | KIP => Arg.IP key value text
  | KPort => Arg.Port key value text
  | KCIDR => Arg.CIDR key value text
  | KVPC => Arg.VPC key value text
  | KSubnet => Arg.Subnet key value text
  | KAMI => Arg.AMI key value text
  | KInstance => Arg.Instance key value text
  | KKeyPair => Arg.KeyPair key value text
  | KSecurityGroup => Arg.SecurityGroup key value text
  | KRouteTable => Arg.RouteTable key value text
  | KCertificate => Arg.Certificate key value text
  end.

(** One call on a configuration by a deployment script: a builder method
    with its arguments, or the assignment of the subnet attributes that the
    scripts do before [add_subnet] *)
Inductive operation : Type :=
| Call_add_arg (kind : arg_kind) (key : string) (value : pyval) (text : string)
| Call_add_vpc (key : string)
| Call_add_subnet (key vpc : string) (az : pyval)
| Call_add_all_azs
| Call_find_all_availability_zones
| Call_add_ec2_instance (key hostname : string) (ami keypair subnet type_ : pyval)
    (iface_check public_ip : bool) (security_groups : option (list pyval))
    (user_data meta_data depends_on : pyval)
| Call_add_rds_db (key hostname : string) (port db_name username password : pyval)
    (subnets : list pyval) (type_ storage : pyval)
    (security_groups : option (list pyval))
| Call_add_dynamo_table_from_json (key : string)
    (name KeySchema AttributeDefinitions ProvisionedThroughput : pyval)
| Call_add_dynamo_table (key : string) (name : pyval)
    (attributes key_schema : dict pyval) (throughput : pyval * pyval)
| Call_add_redis_cluster (key hostname : string)
    (subnets security_groups : list pyval) (type_ port version : pyval)
| Call_add_redis_replication (key hostname : string)
    (subnets security_groups : list pyval) (type_ port version clusters : pyval)
| Call_add_security_group (key name : string) (rules : list rule) (vpc : string)
| Call_add_route_table (key name vpc : string) (subnets : list string)
| Call_add_route_table_association (key route_table subnet : string)
| Call_add_route_table_route (key : string)
    (route_table cidr gateway peer instance depends_on : pyval)
| Call_add_internet_gateway (key name vpc : string)
| Call_add_vpc_peering (key : string) (vpc peer_vpc : pyval)
| Call_add_loadbalancer (key name : string) (listeners : list (list pyval))
    (instances subnets security_groups : option (list pyval))
    (healthcheck_target depends_on : pyval)
| Call_add_autoscale_group (key hostname : string) (ami keypair : pyval)
    (subnets : list pyval) (type_ public_ip : pyval) (security_groups : list pyval)
    (user_data min max elb depends_on : pyval)
| Call_add_record_cname (key hostname vpc : string) (ttl : pyval)
    (rds cluster replication ec2 : bool)
| Call_add_cloudwatch (lb_name alarm_actions depends_on : pyval)
| Call_add_route_53_record_set (key : string)
    (full_domain_name cname_value hosted_zone_name : pyval)
| Call_add_sns_topic (key : string) (topic_name depends_on : pyval)
| Assign_subnet (subnet_domain subnet_subnet : pyval).

Section Calls.

Variable environ : dict string.
Variable lookup : string -> pyval.
Variable azs_lookup : list (pyval * string).
Variable subnet_id_lookup : string -> pyval.

(** Make the call; what a method returns is dropped. *)
Definition call (op : operation) : Build unit :=
  match op with
  | Call_add_arg kind key value text => add_arg (make_arg kind key value text)
  | Call_add_vpc key => add_vpc key
  | Call_add_subnet key vpc az => add_subnet key vpc az
  | Call_add_all_azs => add_all_azs lookup azs_lookup ;;; ret tt
  | Call_find_all_availability_zones =>
      find_all_availability_zones azs_lookup subnet_id_lookup ;;; ret tt
  | Call_add_ec2_instance key hostname ami keypair subnet type_ iface_check
      public_ip security_groups user_data meta_data depends_on =>
      add_ec2_instance environ key hostname ami keypair subnet type_ iface_check
        public_ip security_groups user_data meta_data depends_on
  | Call_add_rds_db key hostname port db_name username password subnets type_
      storage security_groups =>
      add_rds_db environ key hostname port db_name username password subnets type_
        storage security_groups
  | Call_add_dynamo_table_from_json key name KeySchema AttributeDefinitions
      ProvisionedThroughput =>
      add_dynamo_table_from_json key name KeySchema AttributeDefinitions
        ProvisionedThroughput
  | Call_add_dynamo_table key name attributes key_schema throughput =>
      add_dynamo_table key name attributes key_schema throughput
  | Call_add_redis_cluster key hostname subnets security_groups type_ port version =>
      add_redis_cluster environ key hostname subnets security_groups type_ port version
  | Call_add_redis_replication key hostname subnets security_groups type_ port
      version clusters =>
      add_redis_replication environ key hostname subnets security_groups type_ port
        version clusters
  | Call_add_security_group key name rules vpc => add_security_group key name rules vpc
  | Call_add_route_table key name vpc subnets => add_route_table key name vpc subnets
  | Call_add_route_table_association key route_table subnet =>
      add_route_table_association key route_table subnet
  | Call_add_route_table_route key route_table cidr gateway peer instance depends_on =>
      add_route_table_route key route_table cidr gateway peer instance depends_on
  | Call_add_internet_gateway key name vpc => add_internet_gateway key name vpc
  | Call_add_vpc_peering key vpc peer_vpc => add_vpc_peering key vpc peer_vpc
  | Call_add_loadbalancer key name listeners instances subnets security_groups
      healthcheck_target depends_on =>
      add_loadbalancer key name listeners instances subnets security_groups
        healthcheck_target depends_on
  | Call_add_autoscale_group key hostname ami keypair subnets type_ public_ip
      security_groups user_data min max elb depends_on =>
      add_autoscale_group environ key hostname ami keypair subnets type_ public_ip
        security_groups user_data min max elb depends_on
  | Call_add_record_cname key hostname vpc ttl rds cluster replication ec2 =>
      _add_record_cname key hostname vpc ttl rds cluster replication ec2
  | Call_add_cloudwatch lb_name alarm_actions depends_on =>
      add_cloudwatch lb_name alarm_actions depends_on
  | Call_add_route_53_record_set key full_domain_name cname_value hosted_zone_name =>
      add_route_53_record_set key full_domain_name cname_value hosted_zone_name
  | Call_add_sns_topic key topic_name depends_on =>
      add_sns_topic key topic_name depends_on
  | Assign_subnet subnet_domain subnet_subnet => set_subnet subnet_domain subnet_subnet
  end.

(** The configuration after a sequence of calls; a call that raised leaves
    the configuration as it was when it raised, and the script may go on. *)
Definition after_calls (ops : list operation) (self : CloudFormationConfiguration)
  : CloudFormationConfiguration :=
  fold_left (fun c op => snd (call op c)) ops self.

End Calls.

(** Parameters and arguments in lockstep: the same keys, in the same order,
    none of them twice *)
Definition lockstep (self : CloudFormationConfiguration) : Prop :=
  argument_keys self = dict_keys (parameters self) /\
  NoDup (dict_keys (parameters self)).

(** A computation that keeps a property of the configuration, whether it
    returns or raises *)
Definition preserves (I : CloudFormationConfiguration -> Prop) {A : Type}
  (m : Build A) : Prop :=
  forall c, I c -> I (snd (m c)).

(** ** Reading rules and ports back *)

(** [isinstance(v, str)] *)
Definition is_str (v : pyval) : bool :=
  match v with VStr _ => true | _ => false end.

(** The text of a value that is a text *)
Definition text_of (v : pyval) : string :=
  match v with VStr s => s | _ => EmptyString end.

(** [from-to] of a rule whose ports are texts *)
Definition port_range (r : rule) : string :=
  let '(_, from_port, to_port, _) := r in
  (text_of from_port ++ "-") ++ text_of to_port.

(** Both ports of the rule are texts *)
Definition text_ports (r : rule) : bool :=
  let '(_, from_port, to_port, _) := r in
  is_str from_port && is_str to_port.

(** ** Reading route table associations back *)

(** The key [add_route_table] gives the association numbered [index] *)
Definition association_key (key : string) (index : nat) : string :=
  key ++ "SubnetAssociation" ++ nat_str index.

(** The resource [add_route_table_association] writes *)
Definition association (route_table subnet : string) : pyval :=
  VDict [
    ("Type", VStr "AWS::EC2::SubnetRouteTableAssociation");
    ("Properties", VDict [
       ("SubnetId", Ref (VStr subnet));
       ("RouteTableId", Ref (VStr route_table))])].

(** * Properties *)

(** ** Dictionaries *)

Section DictFacts.
Variable V : Type.
Implicit Types (d : dict V) (k : string) (v : V).

Lemma dict_get_set_same k v d : dict_get k (dict_set k v d) = Some v.
Proof.
    induction d as [|[k' v'] d IH]; simpl.
    - now rewrite String.eqb_refl.
    - destruct (String.eqb k k') eqn:E; simpl.
      + now rewrite String.eqb_refl.
      + now rewrite E.
Qed.

Lemma dict_get_set_other k k' v d :
    k <> k' -> dict_get k (dict_set k' v d) = dict_get k d.
Proof.
    intros Hne. induction d as [|[k'' v''] d IH]; simpl.
    - apply String.eqb_neq in Hne. now rewrite Hne.
    - destruct (String.eqb k' k'') eqn:E; simpl.
      + apply String.eqb_eq in E. subst k''.
        apply String.eqb_neq in Hne. now rewrite Hne.
      + now rewrite IH.
Qed.

Lemma dict_mem_In k d : dict_mem k d = true <-> In k (dict_keys d).
Proof.
    unfold dict_mem, dict_keys.
    induction d as [|[k' v'] d IH]; simpl.
    - split; [discriminate | tauto].
    - destruct (String.eqb k k') eqn:E.
      + apply String.eqb_eq in E. subst. split; auto.
      + apply String.eqb_neq in E. rewrite IH. split; [tauto|].
        intros [H|H]; [congruence | exact H].
Qed.

Lemma dict_mem_false_not_In k d : dict_mem k d = false <-> ~ In k (dict_keys d).
Proof.
    rewrite <- dict_mem_In. destruct (dict_mem k d); split; congruence.
Qed.

Lemma dict_mem_set_same k v d : dict_mem k (dict_set k v d) = true.
Proof. unfold dict_mem. now rewrite dict_get_set_same. Qed.

Lemma dict_mem_set_other k k' v d :
    k <> k' -> dict_mem k (dict_set k' v d) = dict_mem k d.
Proof. intros H. unfold dict_mem. now rewrite dict_get_set_other. Qed.

  (** Assigning to an absent key appends it; to a present key keeps the keys. *)
Lemma dict_keys_set_absent k v d :
    dict_mem k d = false -> dict_keys (dict_set k v d) = (dict_keys d ++ [k])%list.
Proof.
    unfold dict_mem, dict_keys.
    induction d as [|[k' v'] d IH]; simpl; intros H.
    - reflexivity.
    - destruct (String.eqb k k') eqn:E; [discriminate|].
      simpl. now rewrite IH.
Qed.

Lemma dict_keys_set_present k v d :
    dict_mem k d = true -> dict_keys (dict_set k v d) = dict_keys d.
Proof.
    unfold dict_mem, dict_keys.
    induction d as [|[k' v'] d IH]; simpl; intros H.
    - discriminate.
    - destruct (String.eqb k k') eqn:E; simpl.
      + apply String.eqb_eq in E. now subst.
      + now rewrite IH.
Qed.
End DictFacts.

(** ** Strings *)

Lemma append_inj_l (p a b : string) : p ++ a = p ++ b -> a = b.
Proof.
  induction p as [|c p IH]; simpl; intros H.
  - exact H.
  - injection H as H. auto.
Qed.

Lemma append_length (a b : string) :
  String.length (a ++ b) = String.length a + String.length b.
Proof. induction a as [|c a IH]; simpl; auto. Qed.

Lemma append_nonempty_neq (p a : string) : a <> EmptyString -> p ++ a <> p.
Proof.
  intros Ha H.
  assert (L : String.length (p ++ a) = String.length p) by now rewrite H.
  rewrite append_length in L.
  destruct a as [|c a]; [congruence | simpl in L; lia].
Qed.

(** ** The scenario resolver *)

Lemma environ_lookup_set (environ : dict string) (name v : string) :
  environ_lookup environ name = Ok v <-> dict_get name environ = Some v.
Proof.
  unfold environ_lookup. destruct (dict_get name environ); split; congruence.
Qed.

Example get_scenario_dev :
  get_scenario [("SCENARIO", "dev")]
    (VDict [("dev", VInt 1); ("default", VInt 2)]) (VInt 9) = Ok (VInt 1).
Proof. reflexivity. Qed.

Example get_scenario_prod_default :
  get_scenario [("SCENARIO", "prod")]
    (VDict [("dev", VInt 1); ("default", VInt 2)]) (VInt 9) = Ok (VInt 2).
Proof. reflexivity. Qed.

Example get_scenario_prod_fallback :
  get_scenario [("SCENARIO", "prod")] (VDict [("dev", VInt 1)]) (VInt 9) = Ok (VInt 9).
Proof. reflexivity. Qed.

(** C8, as stated, fails: an entry that is present for the selector but bound
    to [None] is not returned; [get_scenario] treats it as missing and goes
    on to the ["default"] entry. *)
Lemma get_scenario_none_entry_counterexample :
  dict_get "dev" [("dev", VNone); ("default", VInt 2)] = Some VNone /\
  get_scenario [("SCENARIO", "dev")]
    (VDict [("dev", VNone); ("default", VInt 2)]) (VInt 9) = Ok (VInt 2) /\
  get_scenario [("SCENARIO", "dev")]
    (VDict [("dev", VNone); ("default", VInt 2)]) (VInt 9)
  <> Ok (resolve_spec "dev" (VDict [("dev", VNone); ("default", VInt 2)]) (VInt 9)).
Proof.
  split; [reflexivity|]. split; [reflexivity|].
  simpl. intros H. inversion H.
Qed.

(** C8 (amended): with the selector [selector] set in the process environment,
    [get_scenario] returns a value that is not a [dict] unchanged; for a
    [dict] it returns the entry for the selector when that entry is present
    and is not [None], otherwise the entry for ["default"] when present,
    otherwise the fallback.  It agrees with the specification's [resolve]
    on every mapping that does not bind the selector to [None], and on the
    three examples of the specification. *)
Theorem get_scenario_resolves :
  forall (environ : dict string) (selector : string) (var default : pyval),
    environ_lookup environ "SCENARIO" = Ok selector ->
    (is_dict var = false -> get_scenario environ var default = Ok var) /\
    (forall d x, var = VDict d -> dict_get selector d = Some x -> x <> VNone ->
                 get_scenario environ var default = Ok x) /\
    (forall d y, var = VDict d ->
                 dict_get selector d = None \/ dict_get selector d = Some VNone ->
                 dict_get "default" d = Some y ->
                 get_scenario environ var default = Ok y) /\
    (forall d, var = VDict d ->
               dict_get selector d = None \/ dict_get selector d = Some VNone ->
               dict_get "default" d = None ->
               get_scenario environ var default = Ok default) /\
    (forall d, var = VDict d -> dict_get selector d <> Some VNone ->
               get_scenario environ var default = Ok (resolve_spec selector var default)).
Proof.
  intros environ selector var default Henv.
  unfold get_scenario. rewrite Henv.
  repeat split.
  - destruct var; simpl; intros H; try reflexivity; discriminate.
  - intros d x -> Hx Hnn. unfold scenario_select, dict_get_default.
    rewrite Hx. destruct x; simpl; try reflexivity. congruence.
  - intros d y -> Hsel Hd. unfold scenario_select, dict_get_default.
    destruct Hsel as [Hsel|Hsel]; rewrite Hsel; simpl; now rewrite Hd.
  - intros d -> Hsel Hd. unfold scenario_select, dict_get_default.
    destruct Hsel as [Hsel|Hsel]; rewrite Hsel; simpl; now rewrite Hd.
  - intros d -> Hsel. unfold scenario_select, dict_get_default, resolve_spec.
    destruct (dict_get selector d) as [x|] eqn:Hx.
    + destruct x; simpl; try reflexivity. congruence.
    + simpl. reflexivity.
Qed.

Lemma get_scenario_resolves_witness :
  environ_lookup [("SCENARIO", "prod")] "SCENARIO" = Ok "prod" /\
  get_scenario [("SCENARIO", "prod")]
    (VDict [("dev", VInt 1); ("default", VInt 2)]) (VInt 9) = Ok (VInt 2).
Proof.
  split; [reflexivity|].
  refine (proj1 (proj2 (proj2
    (@get_scenario_resolves [("SCENARIO", "prod")] "prod"
       (VDict [("dev", VInt 1); ("default", VInt 2)]) (VInt 9) _)))
    [("dev", VInt 1); ("default", VInt 2)] (VInt 2) _ _ _).
  - reflexivity.
  - reflexivity.
  - left. reflexivity.
  - reflexivity.
Defined.

(** ** Typed argument constructors *)

(** C9: [Arg.CIDR] has no failing path, for any key and any value: it is a
    total function into [Arg].  The length bounds and the pattern are
    recorded on the parameter only, and the argument binds the value it was
    given, unchanged and unchecked: [None] and ["not-a-cidr"] included. *)
Theorem Arg_CIDR_defers_validation :
  forall (k : string) (value : pyval) (description : string),
    key (Arg.CIDR k value description) = k /\
    dict_get "MinLength" (parameter (Arg.CIDR k value description)) = Some (VStr "9") /\
    dict_get "MaxLength" (parameter (Arg.CIDR k value description)) = Some (VStr "18") /\
    dict_get "AllowedPattern" (parameter (Arg.CIDR k value description))
      = Some (VStr "(\d{1,3})\.(\d{1,3})\.(\d{1,3})\.(\d{1,3})/(\d{1,2})") /\
    parameter (Arg.CIDR k value description)
      = parameter (Arg.CIDR k VNone description) /\
    argument (Arg.CIDR k value description) = template_argument k value /\
    ParameterKey (argument (Arg.CIDR k value description)) = k /\
    ParameterValue (argument (Arg.CIDR k value description)) = value /\
    ParameterValue (argument (Arg.CIDR k VNone description)) = VNone /\
    ParameterValue (argument (Arg.CIDR k (VStr "not-a-cidr") description))
      = VStr "not-a-cidr".
Proof. intros. repeat split. Qed.

(** ** The DNS alias helper *)

(** C5: [_add_record_cname] with the single-node-cache role ([cluster] set,
    [rds] not set) raises at once and leaves the configuration as it was: no
    record resource, no parameter and no argument are added. *)
Theorem add_record_cname_cluster_raises :
  forall (k hostname vpc : string) (ttl : pyval) (replication ec2 : bool)
         (self : CloudFormationConfiguration),
    _add_record_cname k hostname vpc ttl false true replication ec2 self
    = (Raise (Exception "NotSupported currently"), self).
Proof. intros. reflexivity. Qed.

(** ** Running builder operations *)

Section MonadFacts.
Variables S A B : Type.

Lemma bind_run_ok (m : M S A) (f : A -> M S B) (s s' : S) (a : A) :
  m s = (Ok a, s') -> bind m f s = f a s'.
Proof. intros H. unfold bind. now rewrite H. Qed.

Lemma bind_run_raise (m : M S A) (f : A -> M S B) (s s' : S) (e : exn) :
  m s = (Raise e, s') -> bind m f s = (Raise e, s').
Proof. intros H. unfold bind. now rewrite H. Qed.

Lemma bind_ret (a : A) (f : A -> M S B) (s : S) : bind (ret a) f s = f a s.
Proof. reflexivity. Qed.

Lemma bind_raise (e : exn) (f : A -> M S B) (s : S) :
  bind (raise e) f s = (Raise e, s).
Proof. reflexivity. Qed.
End MonadFacts.

Lemma run_set_resource k v (c : CloudFormationConfiguration) :
  set_resource k v c = (Ok tt, with_resources (dict_set k v) c).
Proof. reflexivity. Qed.

Lemma run_set_resource_field k f v r (c : CloudFormationConfiguration) :
  dict_get k (resources c) = Some (VDict r) ->
  set_resource_field k f v c
  = (Ok tt, with_resources (dict_set k (VDict (dict_set f v r))) c).
Proof.
  intros H. unfold set_resource_field, bind, get_state, lift. rewrite H. reflexivity.
Qed.

Lemma run_set_resource_property k prop v r p (c : CloudFormationConfiguration) :
  dict_get k (resources c) = Some (VDict r) ->
  dict_get "Properties" r = Some (VDict p) ->
  set_resource_property k prop v c
  = (Ok tt,
     with_resources
       (dict_set k (VDict (dict_set "Properties" (VDict (dict_set prop v p)) r))) c).
Proof.
  intros H Hp. unfold set_resource_property, bind, get_state, lift. rewrite H.
  simpl. rewrite Hp. reflexivity.
Qed.

Lemma run_add_arg a c : add_arg a c = (Ok tt, snd (add_arg a c)).
Proof. unfold add_arg. destruct (negb _); reflexivity. Qed.

Lemma add_arg_resources a c : resources (snd (add_arg a c)) = resources c.
Proof. unfold add_arg. destruct (negb _); reflexivity. Qed.

Lemma add_arg_mem a c : dict_mem (key a) (parameters (snd (add_arg a c))) = true.
Proof.
  unfold add_arg. destruct (dict_mem (key a) (parameters c)) eqn:E; simpl.
  - exact E.
  - apply dict_mem_set_same.
Qed.

Ltac solve_get :=
  cbn [resources with_resources]; first [apply dict_get_set_same | reflexivity].

Ltac run_step :=
  first
    [ rewrite bind_ret
    | rewrite bind_raise
    | erewrite bind_run_ok by (apply run_set_resource)
    | erewrite bind_run_ok by (eapply run_set_resource_property; solve_get)
    | erewrite bind_run_ok by (eapply run_set_resource_field; solve_get)
    | erewrite bind_run_ok by (apply run_add_arg) ].

(** ** Routes *)

Lemma resource_field_set (k f : string) (r : dict pyval) (g : dict pyval -> dict pyval)
  (c : CloudFormationConfiguration) :
  g (resources c) = dict_set k (VDict r) (resources c) ->
  resource_field (with_resources g c) k f = dict_get f r.
Proof.
  intros H. unfold resource_field. cbn [resources with_resources].
  rewrite H, dict_get_set_same. reflexivity.
Qed.

(** C4: [add_route_table_route] succeeds when exactly one of [gateway],
    [peer], [instance] is not [None]: the resource at [key] is then an
    [AWS::EC2::Route] that carries the target property of the one target
    given and of no other, and [key + "Cidr"] is a parameter (with its CIDR
    argument appended when the key was new).  With no target, or with two or
    three, the call raises. *)
Theorem add_route_table_route_one_target :
  forall (k : string) (route_table cidr gateway peer instance depends_on : pyval)
         (self : CloudFormationConfiguration),
    (count_not_none [gateway; peer; instance] = 1 ->
     exists self',
       add_route_table_route k route_table cidr gateway peer instance depends_on self
       = (Ok tt, self') /\
       resource_field self' k "Type" = Some (VStr "AWS::EC2::Route") /\
       resource_property self' k "GatewayId"
       = (if is_none gateway then None else Some (Ref gateway)) /\
       resource_property self' k "VpcPeeringConnectionId"
       = (if is_none peer then None else Some (Ref peer)) /\
       resource_property self' k "InstanceId"
       = (if is_none instance then None else Some (Ref instance)) /\
       dict_mem (k ++ "Cidr") (parameters self') = true /\
       (dict_mem (k ++ "Cidr") (parameters self) = false ->
        dict_get (k ++ "Cidr") (parameters self')
        = Some (parameter (Arg.CIDR (k ++ "Cidr") cidr
                  ("Destination CIDR Block for Route '" ++ k ++ "'"))) /\
        arguments self'
        = (arguments self ++ [template_argument (k ++ "Cidr") cidr])%list)) /\
    (count_not_none [gateway; peer; instance] <> 1 ->
     exists self',
       add_route_table_route k route_table cidr gateway peer instance depends_on self
       = (Raise (Exception
            "Required to specify one and only one of the following arguments: gateway|peer|instance"),
          self')).
Proof.
  intros k route_table cidr gateway peer instance depends_on self.
  unfold add_route_table_route, count_none, count_not_none, when_not_none.
  cbn [filter length].
  split; intros H.
  - destruct (is_none gateway) eqn:Hg, (is_none peer) eqn:Hp,
      (is_none instance) eqn:Hi;
      cbn [negb length] in H; try discriminate;
      cbn [length Nat.sub Nat.eqb negb];
      destruct (is_none depends_on) eqn:Hd.
    all: repeat run_step.
    all: rewrite run_add_arg; eexists; split; [reflexivity|].
    all: unfold resource_property, resource_field.
    all: rewrite add_arg_resources; cbn [resources with_resources].
    all: rewrite !dict_get_set_same.
    all: split; [reflexivity|].
    all: split; [reflexivity|].
    all: split; [reflexivity|].
    all: split; [reflexivity|].
    all: split; [apply (add_arg_mem (Arg.CIDR (k ++ "Cidr") cidr _))|].
    all: intros Habs; unfold add_arg; cbn [key parameter argument Arg.CIDR parameters
                                              with_resources arguments snd];
      rewrite Habs; cbn [negb snd parameters arguments];
      rewrite dict_get_set_same; split; reflexivity.
  - destruct (is_none gateway) eqn:Hg, (is_none peer) eqn:Hp,
      (is_none instance) eqn:Hi;
      cbn [negb length] in H; try congruence;
      cbn [length Nat.sub Nat.eqb negb].
    all: repeat run_step.
    all: eexists; reflexivity.
Qed.

Lemma add_route_table_route_one_target_witness :
  count_not_none [VStr "InternetGateway"; VNone; VNone] = 1 /\
  count_not_none [VStr "InternetGateway"; VStr "Peer"; VNone] <> 1 /\
  (exists self',
     add_route_table_route "InternetRoute" (VStr "InternetRouteTable")
       (VStr "0.0.0.0/0") (VStr "InternetGateway") VNone VNone VNone
       (mkConfiguration [] [] [] (VStr "us-east-1") "vpc.boss" VNone VNone VNone)
     = (Ok tt, self') /\
     resource_field self' "InternetRoute" "Type" = Some (VStr "AWS::EC2::Route")) /\
  (exists self',
     add_route_table_route "InternetRoute" (VStr "InternetRouteTable")
       (VStr "0.0.0.0/0") (VStr "InternetGateway") (VStr "Peer") VNone VNone
       (mkConfiguration [] [] [] (VStr "us-east-1") "vpc.boss" VNone VNone VNone)
     = (Raise (Exception
          "Required to specify one and only one of the following arguments: gateway|peer|instance"),
        self')).
Proof.
  split; [reflexivity|]. split; [discriminate|]. split.
  - destruct (proj1 (add_route_table_route_one_target "InternetRoute"
        (VStr "InternetRouteTable") (VStr "0.0.0.0/0") (VStr "InternetGateway")
        VNone VNone VNone
        (mkConfiguration [] [] [] (VStr "us-east-1") "vpc.boss" VNone VNone VNone))
        eq_refl) as [self' [Hrun [Hty _]]].
    exists self'. split; assumption.
  - refine (proj2 (add_route_table_route_one_target "InternetRoute"
        (VStr "InternetRouteTable") (VStr "0.0.0.0/0") (VStr "InternetGateway")
        (VStr "Peer") VNone VNone
        (mkConfiguration [] [] [] (VStr "us-east-1") "vpc.boss" VNone VNone VNone)) _).
    discriminate.
Defined.

(** ** Stepping through operations on an explicit configuration *)

Lemma bind_get_state {S B : Type} (f : S -> M S B) (s : S) : bind get_state f s = f s s.
Proof. reflexivity. Qed.

Lemma bind_lift_ok {S A B : Type} (r : result A) (a : A) (f : A -> M S B) (s : S) :
  r = Ok a -> bind (lift r) f s = f a s.
Proof. intros ->. reflexivity. Qed.

Lemma bind_lift_raise {S A B : Type} (r : result A) (e : exn) (f : A -> M S B) (s : S) :
  r = Raise e -> bind (lift r) f s = (Raise e, s).
Proof. intros ->. reflexivity. Qed.

Lemma add_arg_flat (a : Arg) res p ar reg vd vs sd ss :
  exists p' ar',
    add_arg a (mkConfiguration res p ar reg vd vs sd ss)
    = (Ok tt, mkConfiguration res p' ar' reg vd vs sd ss) /\
    arg_step a p ar p' ar'.
Proof.
  unfold add_arg, arg_step. cbn [parameters arguments resources region vpc_domain
    vpc_subnet subnet_domain subnet_subnet].
  destruct (dict_mem (key a) p) eqn:E; cbn [negb].
  - exists p, ar. split; [reflexivity|].
    repeat split; auto; try discriminate.
    exists []. now rewrite app_nil_r.
  - exists (dict_set (key a) (parameter a) p), (ar ++ [argument a])%list.
    split; [reflexivity|].
    repeat split; try discriminate.
    + apply dict_mem_set_same.
    + intros k Hk. destruct (String.eqb k (key a)) eqn:Ek.
      * apply String.eqb_eq in Ek. subst. apply dict_mem_set_same.
      * apply String.eqb_neq in Ek. now rewrite dict_mem_set_other.
    + intros k Hk. now rewrite dict_mem_set_other.
    + now exists [argument a].
Qed.

Lemma set_resource_flat k v res p ar reg vd vs sd ss :
  set_resource k v (mkConfiguration res p ar reg vd vs sd ss)
  = (Ok tt, mkConfiguration (dict_set k v res) p ar reg vd vs sd ss).
Proof. reflexivity. Qed.

Lemma set_resource_field_flat k f v r res p ar reg vd vs sd ss :
  dict_get k res = Some (VDict r) ->
  set_resource_field k f v (mkConfiguration res p ar reg vd vs sd ss)
  = (Ok tt,
     mkConfiguration (dict_set k (VDict (dict_set f v r)) res) p ar reg vd vs sd ss).
Proof.
  intros H. unfold set_resource_field, bind, get_state, lift.
  cbn [resources]. rewrite H. reflexivity.
Qed.

Lemma set_resource_property_flat k prop v r pr res p ar reg vd vs sd ss :
  dict_get k res = Some (VDict r) ->
  dict_get "Properties" r = Some (VDict pr) ->
  set_resource_property k prop v (mkConfiguration res p ar reg vd vs sd ss)
  = (Ok tt,
     mkConfiguration
       (dict_set k (VDict (dict_set "Properties" (VDict (dict_set prop v pr)) r)) res)
       p ar reg vd vs sd ss).
Proof.
  intros H Hp. unfold set_resource_property, bind, get_state, lift.
  cbn [resources]. rewrite H. cbn [pv_getitem]. rewrite Hp. reflexivity.
Qed.

Ltac key_neq :=
  let H := fresh in
  intros H;
  first
    [ apply append_inj_l in H; discriminate H
    | apply append_nonempty_neq in H; [exact H | discriminate]
    | symmetry in H; apply append_nonempty_neq in H; [exact H | discriminate] ].

Ltac get_set :=
  repeat first
    [ rewrite dict_get_set_same
    | rewrite dict_get_set_other by (first [assumption | key_neq]) ].

Ltac flat_step :=
  first
    [ rewrite bind_ret
    | rewrite bind_raise
    | rewrite bind_get_state
    | erewrite bind_run_ok by (apply set_resource_flat)
    | erewrite bind_run_ok by
        (eapply set_resource_property_flat; [get_set; reflexivity | reflexivity])
    | erewrite bind_run_ok by (eapply set_resource_field_flat; get_set; reflexivity) ].

(** Run the [add_arg] at the head of the goal, naming the new parameters and
    arguments and the facts about them. *)
Ltac arg_run p ar F :=
  match goal with
  | |- context [bind (add_arg ?a) ?f (mkConfiguration ?res ?p0 ?ar0 ?reg ?vd ?vs ?sd ?ss)] =>
      let E := fresh "E" in
      destruct (add_arg_flat a res p0 ar0 reg vd vs sd ss) as (p & ar & E & F);
      rewrite (bind_run_ok (add_arg a) f _ E); clear E
  | |- context [add_arg ?a (mkConfiguration ?res ?p0 ?ar0 ?reg ?vd ?vs ?sd ?ss)] =>
      let E := fresh "E" in
      destruct (add_arg_flat a res p0 ar0 reg vd vs sd ss) as (p & ar & E & F);
      rewrite E; clear E
  end.

Ltac split_arg_step F :=
  let Fm := fresh "Fm" in
  let Fp := fresh "Fp" in
  let Fo := fresh "Fo" in
  let Fa := fresh "Fa" in
  let Fk := fresh "Fk" in
  let Fr := fresh "Fr" in
  destruct F as (Fm & Fp & Fo & Fa & Fk & Fr);
  cbn [key parameter argument Arg.String Arg.Password Arg.IP Arg.Port Arg.CIDR
       Arg.VPC Arg.Subnet Arg.AMI Arg.Instance Arg.KeyPair Arg.SecurityGroup
       Arg.RouteTable Arg.Certificate] in Fm, Fp, Fo, Fa, Fk, Fr.

(** A key that some [add_arg] made a parameter is still one afterwards. *)
Ltac mem_chain :=
  repeat match goal with
    | H : dict_mem ?k ?p = true |- dict_mem ?k ?p = true => exact H
    | H : forall k, dict_mem k _ = true -> dict_mem k ?p = true
      |- dict_mem _ ?p = true => apply H
    end.

(** A key that was no parameter and that no [add_arg] in between names is
    still none. *)
Ltac absent_chain :=
  repeat match goal with
    | H : forall k, k <> _ -> dict_mem k ?p = dict_mem k _
      |- dict_mem _ ?p = false => rewrite H by key_neq
    end.

(** ** Managed database instances *)

(** With the scenario selector set, one call of [add_rds_db] succeeds and
    registers the DB instance at [key], its subnet group at
    [key + "SubnetGroup"] and, at [key + "Record"], a CNAME record whose
    [ResourceRecords] entry is [Fn::GetAtt] of [[key, "Endpoint.Address"]];
    no other resource key is touched.  [key + "Hostname"], [key + "Port"],
    [key + "DBName"], [key + "Username"] and [key + "Password"] are
    parameters afterwards, and when none of them was one before, their five
    arguments are appended in this order. *)
Theorem add_rds_db_registers :
  forall (environ : dict string) (scenario k hostname : string)
         (port db_name username password : pyval) (subnets : list pyval)
         (type_ storage : pyval) (security_groups : option (list pyval))
         (self : CloudFormationConfiguration),
    environ_lookup environ "SCENARIO" = Ok scenario ->
    exists self',
      add_rds_db environ k hostname port db_name username password subnets
        type_ storage security_groups self = (Ok tt, self') /\
      resource_field self' k "Type" = Some (VStr "AWS::RDS::DBInstance") /\
      resource_property self' k "DBSubnetGroupName"
      = Some (Ref (VStr (k ++ "SubnetGroup"))) /\
      resource_field self' (k ++ "SubnetGroup") "Type"
      = Some (VStr "AWS::RDS::DBSubnetGroup") /\
      resource_property self' (k ++ "SubnetGroup") "SubnetIds" = Some (Refs subnets) /\
      resource_field self' (k ++ "Record") "Type"
      = Some (VStr "AWS::Route53::RecordSet") /\
      resource_property self' (k ++ "Record") "Type" = Some (VStr "CNAME") /\
      resource_property self' (k ++ "Record") "ResourceRecords"
      = Some (VList [VDict [("Fn::GetAtt", VList [VStr k; VStr "Endpoint.Address"])]]) /\
      (forall k', k' <> k -> k' <> k ++ "SubnetGroup" -> k' <> k ++ "Record" ->
                  dict_get k' (resources self') = dict_get k' (resources self)) /\
      (forall suffix,
          In suffix ["Hostname"; "Port"; "DBName"; "Username"; "Password"] ->
          dict_mem (k ++ suffix) (parameters self') = true) /\
      ((forall suffix,
           In suffix ["Hostname"; "Port"; "DBName"; "Username"; "Password"] ->
           dict_mem (k ++ suffix) (parameters self) = false) ->
       exists rest,
         arguments self'
         = (arguments self
            ++ [template_argument (k ++ "Hostname")
                  (VStr (str_replace_char "." "-" hostname));
                template_argument (k ++ "Port") port;
                template_argument (k ++ "DBName") db_name;
                template_argument (k ++ "Username") username;
                template_argument (k ++ "Password") password]
            ++ rest)%list).
Proof.
  intros environ scenario k hostname port db_name username password subnets
    type_ storage security_groups [res p ar reg vd vs sd ss] Henv.
  unfold add_rds_db, _add_record_cname.
  erewrite bind_lift_ok by eassumption.
  cbv zeta.
  do 2 flat_step.
  destruct security_groups as [sgs|]; repeat flat_step.
  all: arg_run p1 ar1 F1; arg_run p2 ar2 F2; arg_run p3 ar3 F3;
       arg_run p4 ar4 F4; arg_run p5 ar5 F5.
  all: repeat flat_step.
  all: cbn [resources].
  all: destruct (dict_mem "DNSZone" _) eqn:HD; repeat flat_step.
  all: cbn [vpc_domain]; arg_run p6 ar6 F6.
  all: eexists; split; [reflexivity|].
  all: unfold resource_property, resource_field; cbn [resources parameters arguments].
  all: do 7 (split; [get_set; reflexivity|]).
  all: split; [intros k' H1 H2 H3; get_set; reflexivity|].
  all: split_arg_step F1; split_arg_step F2; split_arg_step F3;
       split_arg_step F4; split_arg_step F5; split_arg_step F6.
  all: split; [intros suffix [<-|[<-|[<-|[<-|[<-|[]]]]]]; mem_chain|].
  all: intros Habs.
  all: destruct Fr4 as [rest ->]; exists rest.
  all: destruct Fa as [_ ->]; [apply Habs; simpl; tauto|].
  all: destruct Fa0 as [_ ->]; [absent_chain; apply Habs; simpl; tauto|].
  all: destruct Fa1 as [_ ->]; [absent_chain; apply Habs; simpl; tauto|].
  all: destruct Fa2 as [_ ->]; [absent_chain; apply Habs; simpl; tauto|].
  all: destruct Fa3 as [_ ->]; [absent_chain; apply Habs; simpl; tauto|].
  all: unfold template_argument; rewrite <- !app_assoc; reflexivity.
Qed.

Lemma add_rds_db_registers_witness :
  environ_lookup [("SCENARIO", "production")] "SCENARIO" = Ok "production" /\
  exists self',
    add_rds_db [("SCENARIO", "production")] "DB" "db.vpc.boss" (VStr "3306")
      (VStr "boss") (VStr "testuser") (VStr "secret")
      [VStr "ASubnet"; VStr "BSubnet"] (VStr "db.t2.micro") (VStr "5")
      (Some [VStr "InternalSecurityGroup"])
      (mkConfiguration [] [] [] (VStr "us-east-1") "vpc.boss" VNone VNone VNone)
    = (Ok tt, self') /\
    resource_property self' "DBRecord" "ResourceRecords"
    = Some (VList [VDict [("Fn::GetAtt", VList [VStr "DB"; VStr "Endpoint.Address"])]]).
Proof.
  split; [reflexivity|].
  destruct (add_rds_db_registers [("SCENARIO", "production")] "DB" "db.vpc.boss"
              (VStr "3306") (VStr "boss") (VStr "testuser") (VStr "secret")
              [VStr "ASubnet"; VStr "BSubnet"] (VStr "db.t2.micro") (VStr "5")
              (Some [VStr "InternalSecurityGroup"])
              (mkConfiguration [] [] [] (VStr "us-east-1") "vpc.boss" VNone VNone VNone)
              eq_refl)
    as (self' & Hrun & _ & _ & _ & _ & _ & _ & Hrec & _).
  exists self'. split; assumption.
Defined.

Lemma inline_scenario_cases (environ : dict string) (x dflt : pyval)
  (c : CloudFormationConfiguration) :
  (exists t, inline_scenario environ x dflt c = (Ok t, c)) \/
  (is_dict x = true /\ dict_mem "SCENARIO" environ = false /\
   inline_scenario environ x dflt c = (Raise (KeyError "SCENARIO"), c)).
Proof.
  unfold inline_scenario, environ_lookup, dict_mem.
  destruct x; try (left; eexists; reflexivity).
  destruct (dict_get "SCENARIO" environ) as [scenario|].
  - left. eexists. reflexivity.
  - right. repeat split.
Qed.

Lemma inline_scenario_ok (environ : dict string) (x dflt : pyval)
  (c : CloudFormationConfiguration) :
  is_dict x = false \/ dict_mem "SCENARIO" environ = true ->
  exists t, inline_scenario environ x dflt c = (Ok t, c).
Proof.
  intros H.
  destruct (inline_scenario_cases environ x dflt c) as [Hc | (Hd & Hm & _)].
  - exact Hc.
  - destruct H; congruence.
Qed.

(** ** The single-node cache *)

(** Every call of [add_redis_cluster] raises.  When the scenario lookup does
    not fail (the instance type is no [dict], or [SCENARIO] is set), the
    exception is the one of the DNS alias helper, and it leaves the
    configuration with the cache cluster at [key] (ordered after its subnet
    group), the subnet group at [key + "SubnetGroup"] and the
    [key + "Hostname"] parameter already added, and without any record at
    [key + "Record"] that was not there before. *)
Theorem add_redis_cluster_always_raises :
  forall (environ : dict string) (k hostname : string)
         (subnets security_groups : list pyval) (type_ port version : pyval)
         (self : CloudFormationConfiguration),
    (exists e self',
        add_redis_cluster environ k hostname subnets security_groups
          type_ port version self = (Raise e, self')) /\
    (is_dict type_ = false \/ dict_mem "SCENARIO" environ = true ->
     exists self',
       add_redis_cluster environ k hostname subnets security_groups
         type_ port version self
       = (Raise (Exception "NotSupported currently"), self') /\
       resource_field self' k "Type" = Some (VStr "AWS::ElastiCache::CacheCluster") /\
       resource_field self' k "DependsOn" = Some (VStr (k ++ "SubnetGroup")) /\
       resource_field self' (k ++ "SubnetGroup") "Type"
       = Some (VStr "AWS::ElastiCache::SubnetGroup") /\
       resource_property self' (k ++ "SubnetGroup") "SubnetIds" = Some (Refs subnets) /\
       dict_get (k ++ "Record") (resources self')
       = dict_get (k ++ "Record") (resources self) /\
       dict_mem (k ++ "Hostname") (parameters self') = true /\
       (dict_mem (k ++ "Hostname") (parameters self) = false ->
        arguments self'
        = (arguments self
           ++ [template_argument (k ++ "Hostname")
                 (VStr (str_replace_char "." "-" hostname))])%list)).
Proof.
  intros environ k hostname subnets security_groups type_ port version
    [res p ar reg vd vs sd ss].
  assert (Hok : forall t,
    exists self',
      (set_resource k
         (VDict [
            ("Type", VStr "AWS::ElastiCache::CacheCluster");
            ("Properties", VDict [
               ("CacheNodeType", t);
               ("CacheSubnetGroupName", Ref (VStr (k ++ "SubnetGroup")));
               ("Engine", VStr "redis");
               ("EngineVersion", version);
               ("NumCacheNodes", VStr "1");
               ("Port", port);
               ("Tags", VList [
                  VDict [("Key", VStr "Stack"); ("Value", Ref (VStr "AWS::StackName"))];
                  VDict [("Key", VStr "Name"); ("Value", Ref (VStr (k ++ "Hostname")))]]);
               ("VpcSecurityGroupIds", Refs security_groups)]);
            ("DependsOn", VStr (k ++ "SubnetGroup"))]) ;;;
       set_resource (k ++ "SubnetGroup")
         (VDict [
            ("Type", VStr "AWS::ElastiCache::SubnetGroup");
            ("Properties", VDict [
               ("Description", Ref (VStr (k ++ "Hostname")));
               ("SubnetIds", Refs subnets)])]) ;;;
       add_arg (Arg.String (k ++ "Hostname")
                  (VStr (str_replace_char "." "-" hostname))
                  ("Hostname of the Redis Cluster '" ++ k ++ "'")) ;;;
       _add_record_cname k hostname "VPC" (VStr "300") false true false false)
        (mkConfiguration res p ar reg vd vs sd ss)
      = (Raise (Exception "NotSupported currently"), self') /\
      resource_field self' k "Type" = Some (VStr "AWS::ElastiCache::CacheCluster") /\
      resource_field self' k "DependsOn" = Some (VStr (k ++ "SubnetGroup")) /\
      resource_field self' (k ++ "SubnetGroup") "Type"
      = Some (VStr "AWS::ElastiCache::SubnetGroup") /\
      resource_property self' (k ++ "SubnetGroup") "SubnetIds" = Some (Refs subnets) /\
      dict_get (k ++ "Record") (resources self') = dict_get (k ++ "Record") res /\
      dict_mem (k ++ "Hostname") (parameters self') = true /\
      (dict_mem (k ++ "Hostname") p = false ->
       arguments self'
       = (ar ++ [template_argument (k ++ "Hostname")
                   (VStr (str_replace_char "." "-" hostname))])%list)).
  { intros t.
    do 2 flat_step.
    arg_run p1 ar1 F1.
    unfold _add_record_cname. rewrite bind_raise.
    eexists; split; [reflexivity|].
    unfold resource_property, resource_field; cbn [resources parameters arguments].
    do 5 (split; [get_set; reflexivity|]).
    split_arg_step F1.
    split; [exact Fm|].
    intros Habs. now destruct (Fa Habs) as [_ ->]. }
  unfold add_redis_cluster.
  split.
  - destruct (inline_scenario_cases environ type_ (VStr "cache.t2.micro")
                (mkConfiguration res p ar reg vd vs sd ss))
      as [[t Ht] | (_ & _ & Hr)].
    + rewrite (bind_run_ok _ _ _ Ht).
      destruct (Hok t) as (self' & H & _). eauto.
    + rewrite (bind_run_raise _ _ _ Hr). eauto.
  - intros Hsel.
    destruct (inline_scenario_ok environ type_ (VStr "cache.t2.micro")
                (mkConfiguration res p ar reg vd vs sd ss) Hsel) as [t Ht].
    rewrite (bind_run_ok _ _ _ Ht).
    exact (Hok t).
Qed.

(** ** The scenario selector is read before the value is looked at *)

(** Without [SCENARIO] in the process environment, [get_scenario] raises
    [KeyError] for every value, a plain scalar included; [add_rds_db] raises
    it for every input, and [add_redis_cluster] for every instance type given
    as a [dict]; both leave the configuration as it was. *)
Theorem scenario_unset_raises_KeyError :
  forall (environ : dict string),
    dict_mem "SCENARIO" environ = false ->
    (forall var default, get_scenario environ var default = Raise (KeyError "SCENARIO")) /\
    (forall k hostname port db_name username password subnets type_ storage
            security_groups self,
        add_rds_db environ k hostname port db_name username password subnets
          type_ storage security_groups self
        = (Raise (KeyError "SCENARIO"), self)) /\
    (forall k hostname subnets security_groups d port version self,
        add_redis_cluster environ k hostname subnets security_groups
          (VDict d) port version self
        = (Raise (KeyError "SCENARIO"), self)).
Proof.
  intros environ Henv.
  assert (Hl : environ_lookup environ "SCENARIO" = Raise (KeyError "SCENARIO")).
  { unfold environ_lookup, dict_mem in *.
    destruct (dict_get "SCENARIO" environ); [discriminate | reflexivity]. }
  repeat split.
  - intros. unfold get_scenario. now rewrite Hl.
  - intros. unfold add_rds_db. erewrite bind_lift_raise by exact Hl. reflexivity.
  - intros. unfold add_redis_cluster, inline_scenario.
    unfold bind at 1. erewrite bind_lift_raise by exact Hl. reflexivity.
Qed.

Lemma scenario_unset_raises_KeyError_witness :
  dict_mem "SCENARIO" (@nil (string * string)) = false /\
  get_scenario [] (VInt 3) VNone = Raise (KeyError "SCENARIO").
Proof.
  split; [reflexivity|].
  exact (proj1 (@scenario_unset_raises_KeyError [] eq_refl) (VInt 3) VNone).
Defined.

(** ** The DNS alias helper, beyond the unsupported role *)

Lemma Record_neq_DNSZone (k : string) : "DNSZone" <> k ++ "Record".
Proof.
  intros H.
  assert (L := f_equal String.length H).
  rewrite append_length in L. cbn [String.length] in L.
  destruct k as [|c [|c' k]]; cbn in H, L; try lia; discriminate.
Qed.

(** [_add_record_cname] looks at the role flags in the order [rds],
    [cluster], [replication], [ec2] and takes the first that is set.  Unless
    that is [cluster], the call succeeds, for no flag at all as well: the
    record at [key + "Record"] then refers to attribute [None] of [key].
    The record is ordered after ["DNSZone"] exactly when a resource of that
    name is registered, no other resource is touched, and [vpc + "Domain"]
    is a parameter afterwards. *)
Theorem add_record_cname_roles :
  forall (k hostname vpc : string) (ttl : pyval) (rds cluster replication ec2 : bool)
         (self : CloudFormationConfiguration),
    rds = true \/ cluster = false ->
    exists self',
      _add_record_cname k hostname vpc ttl rds cluster replication ec2 self
      = (Ok tt, self') /\
      resource_property self' (k ++ "Record") "ResourceRecords"
      = Some (VList [VDict [("Fn::GetAtt",
                VList [VStr k;
                       if rds then VStr "Endpoint.Address"
                       else if replication then VStr "PrimaryEndPoint.Address"
                       else if ec2 then VStr "PrivateDnsName"
                       else VNone])]]) /\
      resource_property self' (k ++ "Record") "Name" = Some (VStr hostname) /\
      resource_property self' (k ++ "Record") "TTL" = Some ttl /\
      resource_field self' (k ++ "Record") "DependsOn"
      = (if dict_mem "DNSZone" (resources self) then Some (VStr "DNSZone") else None) /\
      (forall k', k' <> k ++ "Record" ->
                  dict_get k' (resources self') = dict_get k' (resources self)) /\
      dict_mem (vpc ++ "Domain") (parameters self') = true.
Proof.
  intros k hostname vpc ttl rds cluster replication ec2
    [res p ar reg vd vs sd ss] Hrole.
  unfold _add_record_cname.
  assert (Haddr : forall (f : pyval -> Build unit) s,
    bind (if rds then ret (VStr "Endpoint.Address")
          else if cluster then raise (Exception "NotSupported currently")
          else if replication then ret (VStr "PrimaryEndPoint.Address")
          else if ec2 then ret (VStr "PrivateDnsName")
          else ret VNone) f s
    = f (if rds then VStr "Endpoint.Address"
         else if replication then VStr "PrimaryEndPoint.Address"
         else if ec2 then VStr "PrivateDnsName"
         else VNone) s).
  { intros f s. destruct rds; [reflexivity|].
    destruct Hrole as [Hr|Hr]; [discriminate|]. subst cluster.
    destruct replication, ec2; reflexivity. }
  rewrite Haddr. clear Haddr.
  repeat flat_step.
  cbn [resources].
  rewrite dict_mem_set_other by apply Record_neq_DNSZone.
  destruct (dict_mem "DNSZone" res) eqn:HD; repeat flat_step.
  all: cbn [vpc_domain]; arg_run p1 ar1 F1.
  all: eexists; split; [reflexivity|].
  all: unfold resource_property, resource_field; cbn [resources parameters].
  all: do 4 (split; [get_set; reflexivity|]).
  all: split; [intros k' Hk'; get_set; reflexivity|].
  all: split_arg_step F1; exact Fm.
Qed.

Lemma add_record_cname_roles_witness :
  (false = true \/ false = false) /\
  exists self',
    _add_record_cname "Web" "web.vpc.boss" "VPC" (VStr "300") false false false false
      (mkConfiguration [] [] [] (VStr "us-east-1") "vpc.boss" VNone VNone VNone)
    = (Ok tt, self') /\
    resource_property self' "WebRecord" "ResourceRecords"
    = Some (VList [VDict [("Fn::GetAtt", VList [VStr "Web"; VNone])]]).
Proof.
  split; [right; reflexivity|].
  destruct (@add_record_cname_roles "Web" "web.vpc.boss" "VPC" (VStr "300")
              false false false false
              (mkConfiguration [] [] [] (VStr "us-east-1") "vpc.boss" VNone VNone VNone)
              (or_intror eq_refl))
    as (self' & Hrun & Hrec & _).
  exists self'. split; assumption.
Defined.

(** ** A rejected route *)

(** When [add_route_table_route] rejects its targets, it has already
    replaced the resource at [key] by a route without a target; parameters,
    arguments and all other resources are as before. *)
Theorem add_route_table_route_rejected_state :
  forall (k : string) (route_table cidr gateway peer instance depends_on : pyval)
         (self : CloudFormationConfiguration),
    count_not_none [gateway; peer; instance] <> 1 ->
    exists self',
      add_route_table_route k route_table cidr gateway peer instance depends_on self
      = (Raise (Exception
           "Required to specify one and only one of the following arguments: gateway|peer|instance"),
         self') /\
      dict_get k (resources self')
      = Some (VDict [
                ("Type", VStr "AWS::EC2::Route");
                ("Properties", VDict [
                   ("RouteTableId", Ref route_table);
                   ("DestinationCidrBlock", Ref (VStr (k ++ "Cidr")))])]) /\
      (forall k', k' <> k -> dict_get k' (resources self') = dict_get k' (resources self)) /\
      parameters self' = parameters self /\
      arguments self' = arguments self.
Proof.
  intros k route_table cidr gateway peer instance depends_on
    [res p ar reg vd vs sd ss].
  unfold add_route_table_route, count_none, count_not_none, when_not_none.
  cbn [filter length]. intros H.
  destruct (is_none gateway) eqn:Hg, (is_none peer) eqn:Hp,
    (is_none instance) eqn:Hi;
    cbn [negb length] in H; try congruence;
    cbn [length Nat.sub Nat.eqb negb].
  all: repeat flat_step.
  all: eexists; split; [reflexivity|].
  all: cbn [resources parameters arguments].
  all: split; [get_set; reflexivity|].
  all: split; [intros k' Hk'; get_set; reflexivity|].
  all: split; reflexivity.
Qed.

Lemma add_route_table_route_rejected_state_witness :
  count_not_none [VNone; VNone; VNone] <> 1 /\
  exists self',
    add_route_table_route "Route" (VStr "RouteTable") (VStr "0.0.0.0/0")
      VNone VNone VNone VNone
      (mkConfiguration [] [] [] (VStr "us-east-1") "vpc.boss" VNone VNone VNone)
    = (Raise (Exception
         "Required to specify one and only one of the following arguments: gateway|peer|instance"),
       self') /\
    parameters self' = [].
Proof.
  split; [discriminate|].
  assert (Hc : count_not_none [VNone; VNone; VNone] <> 1) by discriminate.
  destruct (@add_route_table_route_rejected_state "Route" (VStr "RouteTable")
              (VStr "0.0.0.0/0") VNone VNone VNone VNone
              (mkConfiguration [] [] [] (VStr "us-east-1") "vpc.boss" VNone VNone VNone)
              Hc)
    as (self' & Hrun & _ & _ & Hp & _).
  exists self'. split; assumption.
Defined.

(** ** The stack provisioner *)

Lemma is_none_true (v : pyval) : is_none v = true <-> v = VNone.
Proof. destruct v; simpl; split; congruence. Qed.

(** The loop over the arguments at the head of [create]. *)
Lemma check_arguments_bound (args : list Argument) (w : World) :
  Forall (fun a => ParameterValue a <> VNone) args ->
  for_each args (fun argument =>
    if is_none (ParameterValue argument) then
      raise (Exception
               ("Could not determine argument '" ++ ParameterKey argument ++ "'"))
    else ret tt) w = (Ok tt, w).
Proof.
  induction 1 as [|a args Ha _ IH]; cbn [for_each].
  - reflexivity.
  - destruct (is_none (ParameterValue a)) eqn:E.
    + apply is_none_true in E. contradiction.
    + rewrite bind_ret. exact IH.
Qed.

Lemma check_arguments_unbound (args : list Argument) (w : World) :
  (exists a, In a args /\ ParameterValue a = VNone) ->
  exists pre a post,
    args = (pre ++ a :: post)%list /\
    Forall (fun a => ParameterValue a <> VNone) pre /\
    ParameterValue a = VNone /\
    for_each args (fun argument =>
      if is_none (ParameterValue argument) then
        raise (Exception
                 ("Could not determine argument '" ++ ParameterKey argument ++ "'"))
      else ret tt) w
    = (Raise (Exception ("Could not determine argument '" ++ ParameterKey a ++ "'")), w).
Proof.
  induction args as [|b args IH]; intros (a & Hin & Ha).
  - destruct Hin.
  - cbn [for_each].
    destruct (is_none (ParameterValue b)) eqn:E.
    + exists [], b, args. apply is_none_true in E.
      repeat split; auto.
    + destruct Hin as [-> | Hin].
      * rewrite Ha in E. discriminate.
      * destruct IH as (pre & a' & post & -> & Hpre & Ha' & Hrun); [eauto|].
        exists (b :: pre), a', post.
        split; [reflexivity|].
        split; [constructor; [intros H; rewrite H in E; discriminate | exact Hpre]|].
        split; [exact Ha'|].
        rewrite bind_ret. exact Hrun.
Qed.

(** [create] with an argument bound to [None] raises before anything else
    happens: the exception names the key of the first such argument, and the
    world is untouched (no request to the provisioning service, no output),
    whatever [wait] is. *)
Theorem create_rejects_unbound_argument :
  forall (get_commit : string) (self : CloudFormationConfiguration)
         (session : Session) (name : string) (wait : bool) (fuel : nat) (w : World),
    (exists a, In a (arguments self) /\ ParameterValue a = VNone) ->
    exists pre a post,
      arguments self = (pre ++ a :: post)%list /\
      Forall (fun a => ParameterValue a <> VNone) pre /\
      ParameterValue a = VNone /\
      create get_commit self session name wait fuel w
      = (Raise (Exception ("Could not determine argument '" ++ ParameterKey a ++ "'")), w).
Proof.
  intros get_commit self session name wait fuel w H.
  destruct (@check_arguments_unbound (arguments self) w H) as (pre & a & post & Hs & Hpre & Ha & Hrun).
  exists pre, a, post. repeat split; auto.
  unfold create. erewrite bind_run_raise by exact Hrun. reflexivity.
Qed.

Lemma create_rejects_unbound_argument_witness :
  (exists a,
      In a [template_argument "VPC" (VStr "vpc-1"); template_argument "WebAMI" VNone] /\
      ParameterValue a = VNone) /\
  (exists pre a post,
      [template_argument "VPC" (VStr "vpc-1"); template_argument "WebAMI" VNone]
      = (pre ++ a :: post)%list /\
      Forall (fun a => ParameterValue a <> VNone) pre /\
      ParameterValue a = VNone /\
      create "abc123"
        (mkConfiguration [] []
           [template_argument "VPC" (VStr "vpc-1"); template_argument "WebAMI" VNone]
           (VStr "us-east-1") "vpc.boss" VNone VNone VNone)
        (mkSession (fun _ _ _ _ => Ok VNone) (fun _ _ => Ok ["CREATE_COMPLETE"]))
        "stack" true 0 (mkWorld [] 0)
      = (Raise (Exception ("Could not determine argument '" ++ ParameterKey a ++ "'")),
         mkWorld [] 0)).
Proof.
  assert (H : exists a,
             In a [template_argument "VPC" (VStr "vpc-1"); template_argument "WebAMI" VNone] /\
             ParameterValue a = VNone).
  { exists (template_argument "WebAMI" VNone). split; [right; left|]; reflexivity. }
  split; [exact H|].
  exact (@create_rejects_unbound_argument "abc123"
           (mkConfiguration [] []
              [template_argument "VPC" (VStr "vpc-1"); template_argument "WebAMI" VNone]
              (VStr "us-east-1") "vpc.boss" VNone VNone VNone)
           (mkSession (fun _ _ _ _ => Ok VNone) (fun _ _ => Ok ["CREATE_COMPLETE"]))
           "stack" true 0 (mkWorld [] 0) H).
Defined.

Unset Implicit Arguments.

Lemma repeat_snoc {A : Type} (x : A) (n : nat) : (x :: repeat x n = repeat x n ++ [x])%list.
Proof. induction n as [|n IH]; cbn [repeat app]; [reflexivity | now rewrite <- IH]. Qed.

Lemma poll_trace_S (n : nat) (name : string) :
  poll_trace (S n) name
  = ([Sleep 5; Print "."; DescribeStacks name] ++ poll_trace n name)%list.
Proof. reflexivity. Qed.

(** One round of the loop: the status was "in progress" and there is fuel. *)
Lemma poll_round (fuel : nat) (session : Session) (name : string)
  (response : list string) (w : World) :
  get_status response = Ok "CREATE_IN_PROGRESS" ->
  poll (S fuel) session name response w
  = match describe_stacks_answer session (describes w) name with
    | Ok response' =>
        poll fuel session name response'
          (mkWorld (trace w ++ [Sleep 5; Print "."; DescribeStacks name])%list
             (S (describes w)))
    | Raise e =>
        (Raise e,
         mkWorld (trace w ++ [Sleep 5; Print "."; DescribeStacks name])%list
           (S (describes w)))
    | OutOfFuel =>
        (OutOfFuel,
         mkWorld (trace w ++ [Sleep 5; Print "."; DescribeStacks name])%list
           (S (describes w)))
    end.
Proof.
  intros H. cbn [poll]. unfold bind at 1, lift at 1. rewrite H.
  cbn [String.eqb Ascii.eqb Bool.eqb].
  unfold sleep, print, emit, modify, bind, describe_stacks.
  cbn [trace describes]. rewrite <- !app_assoc. cbn [app].
  destruct (describe_stacks_answer session (describes w) name); reflexivity.
Qed.

(** The loop stops at once on a status other than "in progress". *)
Lemma poll_stop (fuel : nat) (session : Session) (name status : string)
  (response : list string) (w : World) :
  get_status response = Ok status ->
  status <> "CREATE_IN_PROGRESS" ->
  poll fuel session name response w = (Ok response, w).
Proof.
  intros H Hs. apply String.eqb_neq in Hs.
  destruct fuel; cbn [poll]; unfold bind, lift; rewrite H, Hs; reflexivity.
Qed.

Lemma poll_raise (fuel : nat) (session : Session) (name : string)
  (response : list string) (e : exn) (w : World) :
  get_status response = Raise e ->
  poll fuel session name response w = (Raise e, w).
Proof.
  intros H. destruct fuel; cbn [poll]; unfold bind, lift; rewrite H; reflexivity.
Qed.

Lemma get_status_not_out_of_fuel (response : list string) :
  get_status response <> OutOfFuel.
Proof. destruct response; discriminate. Qed.

(** [m] answers "in progress" (the first of them being [response], the answer
    number [d0]), then an answer that is not: the loop runs [m] rounds if it
    is given the fuel, and ends as that answer settles; with less fuel it is
    still running. *)
Lemma poll_run (m : nat) :
  forall (fuel : nat) (session : Session) (name : string)
         (response : list string) (w : World) (d0 : nat),
    describes w = S d0 ->
    describe_stacks_answer session d0 name = Ok response ->
    (forall i, i < m -> in_progress (describe_stacks_answer session (d0 + i) name)) ->
    ~ in_progress (describe_stacks_answer session (d0 + m) name) ->
    (m <= fuel ->
     poll fuel session name response w
     = (settle (describe_stacks_answer session (d0 + m) name),
        mkWorld (trace w ++ poll_trace m name)%list (describes w + m))) /\
    (fuel < m -> fst (poll fuel session name response w) = OutOfFuel).
Proof.
  induction m as [|m IH];
    intros fuel session name response w d0 Hd H0 Hprog Hfin.
  - rewrite Nat.add_0_r in *. rewrite H0 in *.
    split; [|lia]. intros _.
    unfold poll_trace. cbn [repeat concat settle]. rewrite app_nil_r, Nat.add_0_r.
    destruct (get_status response) as [status | e |] eqn:Hst.
    + rewrite (poll_stop fuel session name status response w Hst).
      * destruct w; reflexivity.
      * intros ->. apply Hfin. exists response. auto.
    + rewrite (poll_raise fuel session name response e w Hst).
      destruct w; reflexivity.
    + now apply get_status_not_out_of_fuel in Hst.
  - assert (Hresp : get_status response = Ok "CREATE_IN_PROGRESS").
    { destruct (Hprog 0) as (l & Hl & Hs); [lia|].
      rewrite Nat.add_0_r, H0 in Hl. injection Hl as <-. exact Hs. }
    destruct fuel as [|fuel].
    + split; [lia|]. intros _.
      cbn [poll]. unfold bind, lift. rewrite Hresp. reflexivity.
    + rewrite (poll_round fuel session name response w Hresp).
      rewrite Hd.
      replace (d0 + S m) with (S d0 + m) in * by lia.
      destruct (describe_stacks_answer session (S d0) name) as [response' | e |] eqn:Hnext.
      * destruct (IH fuel session name response'
                    (mkWorld (trace w ++ [Sleep 5; Print "."; DescribeStacks name])%list
                       (S (S d0)))
                    (S d0)) as [Hrun Hout]; auto.
        -- intros i Hi. replace (S d0 + i) with (d0 + S i) by lia. apply Hprog. lia.
        -- split.
           ++ intros Hle. rewrite Hrun by lia. cbn [trace describes].
              rewrite poll_trace_S, <- app_assoc.
              f_equal. f_equal. lia.
           ++ intros Hlt. apply Hout. lia.
      * destruct m as [|m].
        -- rewrite Nat.add_0_r, Hnext. split; [|lia]. intros _.
           cbn [settle]. rewrite poll_trace_S. unfold poll_trace.
           cbn [repeat concat]. rewrite app_nil_r. f_equal. f_equal. lia.
        -- destruct (Hprog 1) as (l & Hl & _); [lia|].
           rewrite Nat.add_1_r, Hnext in Hl. discriminate.
      * destruct m as [|m].
        -- rewrite Nat.add_0_r, Hnext. split; [|lia]. intros _.
           cbn [settle]. rewrite poll_trace_S. unfold poll_trace.
           cbn [repeat concat]. rewrite app_nil_r. f_equal. f_equal. lia.
        -- destruct (Hprog 1) as (l & Hl & _); [lia|].
           rewrite Nat.add_1_r, Hnext in Hl. discriminate.
Qed.

(** The part of [create] before the wait: the check of the arguments and the
    request. *)
Lemma create_head (get_commit : string) (self : CloudFormationConfiguration)
  (session : Session) (name : string) (wait : bool) (fuel : nat) (w : World) :
  Forall (fun a => ParameterValue a <> VNone) (arguments self) ->
  create get_commit self session name wait fuel w
  = match create_answer get_commit self session name with
    | Ok _ =>
        (if wait then
           response <- describe_stacks session name ;;
           if Nat.eqb (length response) 0 then
             print "Problem launching stack" ;;;
             ret None
           else
             print "Waiting for create " ;;;
             response <- poll fuel session name response ;;
             print " done" ;;;
             status <- lift (get_status response) ;;
             if String.eqb status "CREATE_COMPLETE" then
               print ("Created stack '" ++ name ++ "'") ;;;
               ret (Some true)
             else
               print ("Status of stack '" ++ name ++ "' is '" ++ status ++ "'") ;;;
               ret (Some false)
         else ret None)
          (mkWorld (trace w ++ [create_request get_commit self name])%list (describes w))
    | Raise e =>
        (Raise e,
         mkWorld (trace w ++ [create_request get_commit self name])%list (describes w))
    | OutOfFuel =>
        (OutOfFuel,
         mkWorld (trace w ++ [create_request get_commit self name])%list (describes w))
    end.
Proof.
  intros Hb. unfold create.
  erewrite bind_run_ok by (apply check_arguments_bound; exact Hb).
  unfold create_stack, create_answer, create_request.
  unfold bind at 1. unfold bind at 1. unfold emit, modify, lift.
  destruct (create_stack_answer session name _ _ _); reflexivity.
Qed.

(** With every argument bound, [create] sends exactly one request, first of
    all, with the stack name, the template, the arguments in their order and
    the commit tag.  When the request raises, the exception goes to the
    caller and the stack is never described, whatever [wait] is; when it is
    accepted and [wait] is false, [create] returns [None] without describing
    the stack, sleeping or printing. *)
Theorem create_submits_once :
  forall (get_commit : string) (self : CloudFormationConfiguration)
         (session : Session) (name : string) (fuel : nat) (w : World),
    Forall (fun a => ParameterValue a <> VNone) (arguments self) ->
    (forall wait e,
        create_answer get_commit self session name = Raise e ->
        create get_commit self session name wait fuel w
        = (Raise e,
           mkWorld (trace w ++ [create_request get_commit self name])%list
             (describes w))) /\
    (forall r,
        create_answer get_commit self session name = Ok r ->
        create get_commit self session name false fuel w
        = (Ok None,
           mkWorld (trace w ++ [create_request get_commit self name])%list
             (describes w))).
Proof.
  intros get_commit self session name fuel w Hb. split.
  - intros wait e He. rewrite create_head by exact Hb. now rewrite He.
  - intros r Hr. rewrite create_head by exact Hb. now rewrite Hr.
Qed.

Lemma create_submits_once_witness :
  Forall (fun a => ParameterValue a <> VNone) [template_argument "VPC" (VStr "vpc-1")] /\
  create "abc123"
    (mkConfiguration [] [] [template_argument "VPC" (VStr "vpc-1")]
       (VStr "us-east-1") "vpc.boss" VNone VNone VNone)
    (mkSession (fun _ _ _ _ => Raise (Exception "AlreadyExists"))
       (fun _ _ => Ok ["CREATE_COMPLETE"]))
    "stack" true 3 (mkWorld [] 0)
  = (Raise (Exception "AlreadyExists"),
     mkWorld
       [create_request "abc123"
          (mkConfiguration [] [] [template_argument "VPC" (VStr "vpc-1")]
             (VStr "us-east-1") "vpc.boss" VNone VNone VNone) "stack"] 0).
Proof.
  assert (H : Forall (fun a => ParameterValue a <> VNone)
                [template_argument "VPC" (VStr "vpc-1")]).
  { constructor; [discriminate | constructor]. }
  split; [exact H|].
  exact (proj1 (create_submits_once "abc123"
           (mkConfiguration [] [] [template_argument "VPC" (VStr "vpc-1")]
              (VStr "us-east-1") "vpc.boss" VNone VNone VNone)
           (mkSession (fun _ _ _ _ => Raise (Exception "AlreadyExists"))
              (fun _ _ => Ok ["CREATE_COMPLETE"]))
           "stack" 3 (mkWorld [] 0) H) true (Exception "AlreadyExists") eq_refl).
Defined.

(** Waiting: after an accepted request, [m] answers that report the stack
    as being created and then one with another status.  Given the steps,
    [create] describes the stack [m + 1] times, sleeps 5 between two
    answers and nowhere else, and returns [True] exactly when the final
    status is ["CREATE_COMPLETE"], [False] for any other final status.  Given
    fewer than [m] steps it is still polling: the loop has no bound of its
    own. *)
Theorem create_waits_until_terminal :
  forall (get_commit : string) (self : CloudFormationConfiguration)
         (session : Session) (name status : string) (final : list string)
         (r : pyval) (m fuel : nat) (w : World),
    Forall (fun a => ParameterValue a <> VNone) (arguments self) ->
    create_answer get_commit self session name = Ok r ->
    (forall i, i < m ->
               in_progress (describe_stacks_answer session (describes w + i) name)) ->
    describe_stacks_answer session (describes w + m) name = Ok final ->
    get_status final = Ok status ->
    status <> "CREATE_IN_PROGRESS" ->
    (m <= fuel ->
     create get_commit self session name true fuel w
     = (Ok (Some (String.eqb status "CREATE_COMPLETE")),
        mkWorld
          (trace w
           ++ [create_request get_commit self name; DescribeStacks name;
               Print "Waiting for create "]
           ++ poll_trace m name
           ++ [Print " done";
               Print (if String.eqb status "CREATE_COMPLETE"
                      then "Created stack '" ++ name ++ "'"
                      else "Status of stack '" ++ name ++ "' is '" ++ status ++ "'")])%list
          (describes w + S m))) /\
    (fuel < m -> fst (create get_commit self session name true fuel w) = OutOfFuel).
Proof.
  intros get_commit self session name status final r m fuel w Hb Hr Hprog Hfin Hst Hne.
  rewrite create_head by exact Hb. rewrite Hr.
  assert (Hfirst : exists response,
             describe_stacks_answer session (describes w) name = Ok response /\
             Nat.eqb (length response) 0 = false).
  { destruct m as [|m].
    - exists final. rewrite Nat.add_0_r in Hfin. split; [exact Hfin|].
      destruct final; [discriminate | reflexivity].
    - destruct (Hprog 0) as (l & Hl & Hs); [lia|].
      rewrite Nat.add_0_r in Hl. exists l. split; [exact Hl|].
      destruct l; [discriminate | reflexivity]. }
  destruct Hfirst as (response & H0 & Hlen).
  assert (Hnp : ~ in_progress (describe_stacks_answer session (describes w + m) name)).
  { intros (l & Hl & Hs). rewrite Hfin in Hl. injection Hl as <-.
    rewrite Hst in Hs. injection Hs as ->. now apply Hne. }
  destruct (poll_run m fuel session name response
              (mkWorld
                 (((trace w ++ [create_request get_commit self name])
                   ++ [DescribeStacks name]) ++ [Print "Waiting for create "])%list
                 (S (describes w)))
              (describes w) eq_refl H0 Hprog Hnp) as [Hrun Hout].
  split; intros Hf;
    unfold bind at 1; unfold describe_stacks at 1; cbn [trace describes];
    rewrite H0, Hlen;
    unfold bind at 1; unfold print at 1, emit at 1, modify at 1;
    cbn [trace describes];
    unfold bind at 1.
  - rewrite (Hrun Hf).
    rewrite Hfin. cbn [settle]. rewrite Hst.
    unfold bind at 1. unfold print at 1, emit at 1, modify at 1.
    cbn [trace describes].
    unfold bind at 1, lift at 1. rewrite Hst.
    destruct (String.eqb status "CREATE_COMPLETE");
      unfold bind, print, emit, modify, ret; cbn [trace describes];
      rewrite <- !app_assoc; cbn [app];
      (f_equal; f_equal; lia).
  - specialize (Hout Hf).
    destruct (poll fuel session name response _) as [[x | e |] w']; cbn in Hout;
      try discriminate.
    reflexivity.
Qed.

Lemma create_waits_until_terminal_witness :
  Forall (fun a => ParameterValue a <> VNone) [template_argument "VPC" (VStr "vpc-1")] /\
  2 <= 5 /\
  fst (create "abc123"
         (mkConfiguration [] [] [template_argument "VPC" (VStr "vpc-1")]
            (VStr "us-east-1") "vpc.boss" VNone VNone VNone)
         (mkSession (fun _ _ _ _ => Ok VNone)
            (fun n _ => if Nat.ltb n 2 then Ok ["CREATE_IN_PROGRESS"]
                        else Ok ["CREATE_COMPLETE"]))
         "stack" true 5 (mkWorld [] 0))
  = Ok (Some true).
Proof.
  assert (H : Forall (fun a => ParameterValue a <> VNone)
                [template_argument "VPC" (VStr "vpc-1")]).
  { constructor; [discriminate | constructor]. }
  assert (Hle : 2 <= 5) by lia.
  split; [exact H|]. split; [exact Hle|].
  assert (Hprog : forall i, i < 2 ->
            in_progress
              (describe_stacks_answer
                 (mkSession (fun _ _ _ _ => Ok VNone)
                    (fun n _ => if Nat.ltb n 2 then Ok ["CREATE_IN_PROGRESS"]
                                else Ok ["CREATE_COMPLETE"]))
                 (describes (mkWorld [] 0) + i) "stack")).
  { intros i Hi. exists ["CREATE_IN_PROGRESS"].
    destruct i as [|[|i]]; [split; reflexivity | split; reflexivity | lia]. }
  assert (Hne : "CREATE_COMPLETE" <> "CREATE_IN_PROGRESS") by discriminate.
  rewrite (proj1 (create_waits_until_terminal "abc123"
           (mkConfiguration [] [] [template_argument "VPC" (VStr "vpc-1")]
              (VStr "us-east-1") "vpc.boss" VNone VNone VNone)
           (mkSession (fun _ _ _ _ => Ok VNone)
              (fun n _ => if Nat.ltb n 2 then Ok ["CREATE_IN_PROGRESS"]
                          else Ok ["CREATE_COMPLETE"]))
           "stack" "CREATE_COMPLETE" ["CREATE_COMPLETE"] VNone 2 5 (mkWorld [] 0)
           H eq_refl Hprog eq_refl eq_refl Hne) Hle).
  reflexivity.
Defined.

(** Waiting on a stack that the provisioning service does not list: when the
    first answer lists no stack, [create] prints "Problem launching stack"
    and returns [None], the value it also returns without waiting; it
    neither sleeps nor describes the stack again. *)
Theorem create_no_stack_listed :
  forall (get_commit : string) (self : CloudFormationConfiguration)
         (session : Session) (name : string) (r : pyval) (fuel : nat) (w : World),
    Forall (fun a => ParameterValue a <> VNone) (arguments self) ->
    create_answer get_commit self session name = Ok r ->
    describe_stacks_answer session (describes w) name = Ok [] ->
    create get_commit self session name true fuel w
    = (Ok None,
       mkWorld
         (trace w
          ++ [create_request get_commit self name; DescribeStacks name;
              Print "Problem launching stack"])%list
         (S (describes w))).
Proof.
  intros get_commit self session name r fuel w Hb Hr H0.
  rewrite create_head by exact Hb. rewrite Hr.
  unfold bind at 1. unfold describe_stacks at 1. cbn [trace describes].
  rewrite H0. cbn [length Nat.eqb].
  unfold bind, print, emit, modify, ret. cbn [trace describes].
  rewrite <- !app_assoc. reflexivity.
Qed.

Lemma create_no_stack_listed_witness :
  Forall (fun a => ParameterValue a <> VNone) (@nil Argument) /\
  create "abc123"
    (mkConfiguration [] [] [] (VStr "us-east-1") "vpc.boss" VNone VNone VNone)
    (mkSession (fun _ _ _ _ => Ok VNone) (fun _ _ => Ok []))
    "stack" true 0 (mkWorld [] 0)
  = (Ok None,
     mkWorld
       [create_request "abc123"
          (mkConfiguration [] [] [] (VStr "us-east-1") "vpc.boss" VNone VNone VNone)
          "stack";
        DescribeStacks "stack"; Print "Problem launching stack"] 1).
Proof.
  split; [constructor|].
  exact (create_no_stack_listed "abc123"
           (mkConfiguration [] [] [] (VStr "us-east-1") "vpc.boss" VNone VNone VNone)
           (mkSession (fun _ _ _ _ => Ok VNone) (fun _ _ => Ok []))
           "stack" VNone 0 (mkWorld [] 0) (Forall_nil _) eq_refl eq_refl).
Defined.

(** Waiting on a stack that fails to answer: after [m] answers "in
    progress", an answer that lists no stack makes [create] raise the
    [IndexError] of its status lookup, and an exception of [describe_stacks]
    (at the first call or at a later one) goes to the caller as it is.  In
    both cases nothing is printed after the last dot, and no result is
    returned. *)
Theorem create_poll_failure :
  forall (get_commit : string) (self : CloudFormationConfiguration)
         (session : Session) (name : string) (r : pyval) (m fuel : nat) (w : World),
    Forall (fun a => ParameterValue a <> VNone) (arguments self) ->
    create_answer get_commit self session name = Ok r ->
    (forall i, i < m ->
               in_progress (describe_stacks_answer session (describes w + i) name)) ->
    m <= fuel ->
    (1 <= m ->
     describe_stacks_answer session (describes w + m) name = Ok [] ->
     create get_commit self session name true fuel w
     = (Raise (IndexError "list index out of range"),
        mkWorld
          (trace w
           ++ [create_request get_commit self name; DescribeStacks name;
               Print "Waiting for create "]
           ++ poll_trace m name)%list
          (describes w + S m))) /\
    (forall e,
        describe_stacks_answer session (describes w + m) name = Raise e ->
        create get_commit self session name true fuel w
        = (Raise e,
           mkWorld
             (trace w
              ++ [create_request get_commit self name; DescribeStacks name]
              ++ match m with
                 | 0 => []
                 | S _ => Print "Waiting for create " :: poll_trace m name
                 end)%list
             (describes w + S m))).
Proof.
  intros get_commit self session name r m fuel w Hb Hr Hprog Hle.
  rewrite create_head by exact Hb. rewrite Hr.
  destruct m as [|m].
  - split; [lia|]. intros e He. rewrite Nat.add_0_r in He.
    unfold bind at 1. unfold describe_stacks at 1. cbn [trace describes].
    rewrite He. rewrite <- app_assoc. cbn [app].
    f_equal. f_equal. lia.
  - destruct (Hprog 0) as (response & H0 & Hs0); [lia|].
    rewrite Nat.add_0_r in H0.
    assert (Hlen : Nat.eqb (length response) 0 = false).
    { destruct response; [discriminate | reflexivity]. }
    split; [intros _ Hfin | intros e Hfin].
    all: assert (Hnp : ~ in_progress
                         (describe_stacks_answer session (describes w + S m) name))
      by (intros (l & Hl & Hs); rewrite Hfin in Hl;
          first [discriminate | injection Hl as <-; discriminate]).
    all: destruct (poll_run (S m) fuel session name response
              (mkWorld
                 (((trace w ++ [create_request get_commit self name])
                   ++ [DescribeStacks name]) ++ [Print "Waiting for create "])%list
                 (S (describes w)))
              (describes w) eq_refl H0 Hprog Hnp) as [Hrun _].
    all: unfold bind at 1; unfold describe_stacks at 1; cbn [trace describes];
      rewrite H0, Hlen;
      unfold bind at 1; unfold print at 1, emit at 1, modify at 1;
      cbn [trace describes];
      unfold bind at 1.
    all: rewrite (Hrun Hle), Hfin; cbn [settle get_status trace describes].
    all: rewrite <- !app_assoc; cbn [app]; f_equal; f_equal; lia.
Qed.

Lemma create_poll_failure_witness :
  Forall (fun a => ParameterValue a <> VNone) (@nil Argument) /\
  1 <= 1 /\
  fst (create "abc123"
         (mkConfiguration [] [] [] (VStr "us-east-1") "vpc.boss" VNone VNone VNone)
         (mkSession (fun _ _ _ _ => Ok VNone)
            (fun n _ => if Nat.ltb n 1 then Ok ["CREATE_IN_PROGRESS"] else Ok []))
         "stack" true 1 (mkWorld [] 0))
  = Raise (IndexError "list index out of range").
Proof.
  assert (Hle : 1 <= 1) by lia.
  split; [constructor|]. split; [exact Hle|].
  assert (Hprog : forall i, i < 1 ->
            in_progress
              (describe_stacks_answer
                 (mkSession (fun _ _ _ _ => Ok VNone)
                    (fun n _ => if Nat.ltb n 1 then Ok ["CREATE_IN_PROGRESS"] else Ok []))
                 (describes (mkWorld [] 0) + i) "stack")).
  { intros i Hi. exists ["CREATE_IN_PROGRESS"].
    destruct i as [|i]; [split; reflexivity | lia]. }
  rewrite (proj1 (create_poll_failure "abc123"
           (mkConfiguration [] [] [] (VStr "us-east-1") "vpc.boss" VNone VNone VNone)
           (mkSession (fun _ _ _ _ => Ok VNone)
              (fun n _ => if Nat.ltb n 1 then Ok ["CREATE_IN_PROGRESS"] else Ok []))
           "stack" VNone 1 1 (mkWorld [] 0) (Forall_nil _) eq_refl Hprog Hle)
           Hle eq_refl).
  reflexivity.
Defined.

(** ** The compensation workflows *)

Lemma run_call_vault (lib : Library) (command : string) (args : list pyval)
  (kwargs : dict pyval) (w : World) :
  call_vault lib command args kwargs w
  = (call_vault_answer lib (trace w) command args kwargs,
     after w [CallVault command args kwargs]).
Proof. reflexivity. Qed.

Lemma run_print (text : string) (w : World) :
  print text w = (Ok tt, after w [Print text]).
Proof. reflexivity. Qed.

Lemma after_after (w : World) (l1 l2 : list event) :
  after (after w l1) l2 = after w (l1 ++ l2).
Proof. unfold after. cbn [trace describes]. now rewrite app_assoc. Qed.

(** One reversal step: a secret-store call in its own [try], with a message
    when it raises. *)
Lemma run_reversal (lib : Library) (command : string) (args : list pyval)
  (message : string) (w : World) :
  call_vault_answer lib (trace w) command args [] <> OutOfFuel ->
  try_except (call_vault lib command args [] ;;; ret tt) (fun _ => print message) w
  = (Ok tt,
     after w (CallVault command args []
              :: reversal_log (call_vault_answer lib (trace w) command args []) message)).
Proof.
  intros H. unfold try_except, bind. rewrite run_call_vault.
  destruct (call_vault_answer lib (trace w) command args []) as [x | e |];
    cbn [reversal_log].
  - reflexivity.
  - rewrite run_print, after_after. reflexivity.
  - contradiction.
Qed.

(** How the [try] block ends: normally only when [config.create] returned
    [True]; with "Create Failed" when it returned [False] or [None]; with
    the exception of the step that raised otherwise. *)
Theorem try_launch_outcome :
  forall (lib : Library)
         (create_config :
            string -> pyval -> string -> dict pyval -> result CloudFormationConfiguration)
         (session : Session) (stack_domain domain : string) (keypair : pyval)
         (user_data : string) (db : dict pyval) (fuel : nat) (w : World),
    (forall e, domain_to_stackname lib stack_domain = Raise e ->
               try_launch lib create_config session stack_domain domain keypair
                 user_data db fuel w = (Raise e, w)) /\
    (forall name e,
        domain_to_stackname lib stack_domain = Ok name ->
        create_config domain keypair user_data db = Raise e ->
        try_launch lib create_config session stack_domain domain keypair
          user_data db fuel w = (Raise e, w)) /\
    (forall name config,
        domain_to_stackname lib stack_domain = Ok name ->
        create_config domain keypair user_data db = Ok config ->
        try_launch lib create_config session stack_domain domain keypair
          user_data db fuel w
        = match create (lib_get_commit lib) config session name true fuel w with
          | (Ok (Some true), w') => (Ok tt, w')
          | (Ok (Some false), w') => (Raise (Exception "Create Failed"), w')
          | (Ok None, w') => (Raise (Exception "Create Failed"), w')
          | (Raise e, w') => (Raise e, w')
          | (OutOfFuel, w') => (OutOfFuel, w')
          end).
Proof.
  intros lib create_config session stack_domain domain keypair user_data db fuel w.
  unfold try_launch. repeat split.
  - intros e He. erewrite bind_lift_raise by exact He. reflexivity.
  - intros name e Hn He. erewrite bind_lift_ok by exact Hn.
    erewrite bind_lift_raise by exact He. reflexivity.
  - intros name config Hn Hc. erewrite bind_lift_ok by exact Hn.
    erewrite bind_lift_ok by exact Hc. unfold bind.
    destruct (create (lib_get_commit lib) config session name true fuel w)
      as [[[[|]|] | e |] w']; reflexivity.
Qed.

Lemma bind_print {B : Type} (text : string) (f : unit -> IO B) (w : World) :
  bind (print text) f w = f tt (after w [Print text]).
Proof. reflexivity. Qed.

Lemma bind_call_vault_ok {B : Type} (lib : Library) (command : string)
  (args : list pyval) (kwargs : dict pyval) (f : pyval -> IO B) (w : World) (x : pyval) :
  call_vault_answer lib (trace w) command args kwargs = Ok x ->
  bind (call_vault lib command args kwargs) f w
  = f x (after w [CallVault command args kwargs]).
Proof. intros H. unfold bind. rewrite run_call_vault, H. reflexivity. Qed.

Lemma bind_call_vault_raise {B : Type} (lib : Library) (command : string)
  (args : list pyval) (kwargs : dict pyval) (f : pyval -> IO B) (w : World) (e : exn) :
  call_vault_answer lib (trace w) command args kwargs = Raise e ->
  bind (call_vault lib command args kwargs) f w
  = (Raise e, after w [CallVault command args kwargs]).
Proof. intros H. unfold bind. rewrite run_call_vault, H. reflexivity. Qed.

Lemma try_except_raise {S A : Type} (body : M S A) (handler : exn -> M S A)
  (s s' : S) (e : exn) :
  body s = (Raise e, s') -> try_except body handler s = handler e s'.
Proof. intros H. unfold try_except. now rewrite H. Qed.

Lemma try_except_ok {S A : Type} (body : M S A) (handler : exn -> M S A)
  (s s' : S) (a : A) :
  body s = (Ok a, s') -> try_except body handler s = (Ok a, s').
Proof. intros H. unfold try_except. now rewrite H. Qed.

(** The production workflow, when the launch fails after the token was
    provisioned and the database credentials were written: both reversals
    are attempted, the overwrite of the credentials and then the revocation
    of the token, the second also when the first raised; a reversal that
    raises only leaves its message in the output; and the exception of the
    launch is the one the caller gets. *)
Theorem production_create_compensates :
  forall (lib : Library)
         (create_config :
            string -> pyval -> string -> dict pyval -> result CloudFormationConfiguration)
         (session : Session) (domain : string) (fuel : nat) (w w4 : World)
         (token x : pyval) (user_data : string) (e : exn),
    let db :=
      [("name", VStr "boss"); ("user", VStr "testuser");
       ("password", VStr (generate_password lib)); ("port", VStr "3306")] in
    let issue :=
      [Print (py_str (VDict db));
       CallVault "vault-provision" [VStr "endpoint"] [];
       CallVault "vault-django"
         [VStr "boss"; VStr "testuser"; VStr (generate_password lib); VStr "3306"] []] in
    let clear :=
      CallVault "vault-django"
        [VStr EmptyString; VStr EmptyString; VStr EmptyString; VStr EmptyString] [] in
    let r1 :=
      call_vault_answer lib (trace w4 ++ [Print "Error detected, revoking secrets"])
        "vault-django"
        [VStr EmptyString; VStr EmptyString; VStr EmptyString; VStr EmptyString] [] in
    let part1 :=
      ([Print "Error detected, revoking secrets"; clear]
       ++ reversal_log r1 "Error revoking Django credentials")%list in
    let r2 := call_vault_answer lib (trace w4 ++ part1) "vault-revoke" [token] [] in
    (forall tr command args kwargs,
        call_vault_answer lib tr command args kwargs <> OutOfFuel) ->
    call_vault_answer lib (trace w ++ [Print (py_str (VDict db))])
      "vault-provision" [VStr "endpoint"] [] = Ok token ->
    UserData_str lib
      [("vault", "url",
        VStr ("http://" ++ py_str (hosts_lookup lib ("vault." ++ domain)) ++ ":8200"));
       ("vault", "token", token);
       ("system", "fqdn", VStr ("endpoint.external." ++ domain));
       ("system", "type", VStr "endpoint")] = Ok user_data ->
    call_vault_answer lib
      (trace w ++ [Print (py_str (VDict db));
                   CallVault "vault-provision" [VStr "endpoint"] []])
      "vault-django"
      [VStr "boss"; VStr "testuser"; VStr (generate_password lib); VStr "3306"] []
    = Ok x ->
    try_launch lib create_config session ("production." ++ domain) domain
      (keypair_lookup lib) user_data db fuel (after w issue) = (Raise e, w4) ->
    Production.create lib create_config session domain fuel w
    = (Raise e,
       after w4
         (part1 ++ [CallVault "vault-revoke" [token] []]
          ++ reversal_log r2 "Error revoking Endpoint Server Vault access token")).
Proof.
  intros lib create_config session domain fuel w w4 token x user_data e
    db issue clear r1 part1 r2 Hterm Htoken Hdata Hdjango Hlaunch.
  unfold Production.create. cbv zeta.
  rewrite bind_print.
  erewrite bind_call_vault_ok by exact Htoken.
  erewrite bind_lift_ok by exact Hdata.
  rewrite after_after.
  erewrite bind_call_vault_ok
    by (unfold after; cbn [trace]; cbn [app]; exact Hdjango).
  rewrite after_after. cbn [app].
  erewrite try_except_raise by exact Hlaunch.
  rewrite bind_print.
  erewrite bind_run_ok by (apply run_reversal; apply Hterm).
  rewrite after_after.
  erewrite bind_run_ok by (apply run_reversal; apply Hterm).
  rewrite after_after.
  unfold raise.
  subst part1 r2 r1 clear. unfold after. cbn [trace describes app].
  rewrite <- ?app_assoc. cbn [app]. reflexivity.
Qed.

Lemma production_create_compensates_witness :
  let lib :=
    mkLibrary
      (fun _ command args _ =>
         match args with
         | VStr EmptyString :: _ => Raise (Exception "vault unreachable")
         | _ => Ok (VStr "token-1")
         end)
      (VStr "keypair") "pw" "uuid" (fun s => Ok s) (fun _ => VStr "10.0.0.5")
      (fun _ => Ok "[vault]") "abc123" in
  (forall tr command args kwargs,
      call_vault_answer lib tr command args kwargs <> OutOfFuel) /\
  Production.create lib (fun _ _ _ _ => Raise (Exception "VPC does not exists, exiting..."))
    (mkSession (fun _ _ _ _ => Ok VNone) (fun _ _ => Ok ["CREATE_COMPLETE"]))
    "vpc.boss" 0 (mkWorld [] 0)
  = (Raise (Exception "VPC does not exists, exiting..."),
     mkWorld
       [Print "{'name': 'boss', 'user': 'testuser', 'password': 'pw', 'port': '3306'}";
        CallVault "vault-provision" [VStr "endpoint"] [];
        CallVault "vault-django" [VStr "boss"; VStr "testuser"; VStr "pw"; VStr "3306"] [];
        Print "Error detected, revoking secrets";
        CallVault "vault-django"
          [VStr EmptyString; VStr EmptyString; VStr EmptyString; VStr EmptyString] [];
        Print "Error revoking Django credentials";
        CallVault "vault-revoke" [VStr "token-1"] []] 0).
Proof.
  intros lib.
  assert (Hterm : forall tr command args kwargs,
             call_vault_answer lib tr command args kwargs <> OutOfFuel).
  { intros tr command args kwargs. subst lib. cbn [call_vault_answer].
    destruct args as [|[| | |[|]| | |] args]; discriminate. }
  split; [exact Hterm|].
  exact (production_create_compensates lib
           (fun _ _ _ _ => Raise (Exception "VPC does not exists, exiting..."))
           (mkSession (fun _ _ _ _ => Ok VNone) (fun _ _ => Ok ["CREATE_COMPLETE"]))
           "vpc.boss" 0 (mkWorld [] 0)
           (mkWorld
              [Print "{'name': 'boss', 'user': 'testuser', 'password': 'pw', 'port': '3306'}";
               CallVault "vault-provision" [VStr "endpoint"] [];
               CallVault "vault-django"
                 [VStr "boss"; VStr "testuser"; VStr "pw"; VStr "3306"] []] 0)
           (VStr "token-1") (VStr "token-1") "[vault]"
           (Exception "VPC does not exists, exiting...")
           Hterm eq_refl eq_refl eq_refl eq_refl).
Defined.

(** The Django step of the proofreader workflow: two deletes in one [try]. *)
Lemma run_proofreader_django_reversal (lib : Library) (w : World) :
  (forall tr command args kwargs,
      call_vault_answer lib tr command args kwargs <> OutOfFuel) ->
  try_except
    (call_vault lib "vault-delete" [VStr Proofreader.VAULT_DJANGO] [] ;;;
     call_vault lib "vault-delete" [VStr Proofreader.VAULT_DJANGO_DB] [] ;;;
     ret tt)
    (fun _ => print "Error revoking Django credentials") w
  = (Ok tt,
     after w
       (CallVault "vault-delete" [VStr Proofreader.VAULT_DJANGO] []
        :: match call_vault_answer lib (trace w) "vault-delete"
                   [VStr Proofreader.VAULT_DJANGO] [] with
           | Ok _ =>
               CallVault "vault-delete" [VStr Proofreader.VAULT_DJANGO_DB] []
               :: reversal_log
                    (call_vault_answer lib
                       (trace w
                        ++ [CallVault "vault-delete" [VStr Proofreader.VAULT_DJANGO] []])
                       "vault-delete" [VStr Proofreader.VAULT_DJANGO_DB] [])
                    "Error revoking Django credentials"
           | _ => [Print "Error revoking Django credentials"]
           end)).
Proof.
  intros Hterm. unfold try_except, bind. rewrite run_call_vault.
  destruct (call_vault_answer lib (trace w) "vault-delete"
              [VStr Proofreader.VAULT_DJANGO] []) as [y | e1 |] eqn:H1.
  - rewrite run_call_vault. unfold after. cbn [trace describes].
    destruct (call_vault_answer lib _ "vault-delete"
                [VStr Proofreader.VAULT_DJANGO_DB] []) as [z | e2 |] eqn:H2;
      cbn [reversal_log].
    + unfold ret. rewrite <- ?app_assoc. reflexivity.
    + unfold print, emit, modify. cbn [trace describes].
      rewrite <- ?app_assoc. reflexivity.
    + now apply Hterm in H2.
  - unfold print, emit, modify, after. cbn [trace describes].
    rewrite <- ?app_assoc. reflexivity.
  - now apply Hterm in H1.
Qed.

(** The proofreader workflow, when the launch fails after the token was
    provisioned and the two Django secrets were written: the delete of the
    first secret and the revocation of the token are always attempted, and
    the exception of the launch is the one the caller gets.  The delete of
    the second secret shares the [try] of the first: it is attempted when
    the first delete returned, and is not attempted when the first delete
    raised. *)
Theorem proofreader_create_compensates :
  forall (lib : Library)
         (create_config :
            string -> pyval -> string -> dict pyval -> result CloudFormationConfiguration)
         (session : Session) (domain : string) (fuel : nat) (w w4 : World)
         (token x1 x2 : pyval) (user_data : string) (e : exn),
    let db :=
      [("name", VStr "microns_proofreader"); ("user", VStr "proofreader");
       ("password", VStr (generate_password lib)); ("port", VStr "3306")] in
    let issue :=
      [CallVault "vault-provision" [VStr "proofreader"] [];
       CallVault "vault-write" [VStr Proofreader.VAULT_DJANGO]
         [("secret_key", VStr (uuid4 lib))];
       CallVault "vault-write" [VStr Proofreader.VAULT_DJANGO_DB] db] in
    let delete1 := CallVault "vault-delete" [VStr Proofreader.VAULT_DJANGO] [] in
    let delete2 := CallVault "vault-delete" [VStr Proofreader.VAULT_DJANGO_DB] [] in
    let revoke := CallVault "vault-revoke" [token] [] in
    let r1 :=
      call_vault_answer lib (trace w4 ++ [Print "Error detected, revoking secrets"])
        "vault-delete" [VStr Proofreader.VAULT_DJANGO] [] in
    let part1 :=
      ([Print "Error detected, revoking secrets"; delete1]
       ++ match r1 with
          | Ok _ =>
              delete2
              :: reversal_log
                   (call_vault_answer lib
                      (trace w4 ++ [Print "Error detected, revoking secrets"; delete1])
                      "vault-delete" [VStr Proofreader.VAULT_DJANGO_DB] [])
                   "Error revoking Django credentials"
          | _ => [Print "Error revoking Django credentials"]
          end)%list in
    let r2 := call_vault_answer lib (trace w4 ++ part1) "vault-revoke" [token] [] in
    let added :=
      (part1 ++ [revoke]
       ++ reversal_log r2 "Error revoking Proofreader Server Vault access token")%list in
    (forall tr command args kwargs,
        call_vault_answer lib tr command args kwargs <> OutOfFuel) ->
    call_vault_answer lib (trace w) "vault-provision" [VStr "proofreader"] [] = Ok token ->
    UserData_str lib
      [("vault", "token", token);
       ("system", "fqdn", VStr ("proofreader-web." ++ domain));
       ("system", "type", VStr "proofreader-web");
       ("aws", "db", VStr ("proofreader-db." ++ domain))] = Ok user_data ->
    call_vault_answer lib
      (trace w ++ [CallVault "vault-provision" [VStr "proofreader"] []])
      "vault-write" [VStr Proofreader.VAULT_DJANGO] [("secret_key", VStr (uuid4 lib))]
    = Ok x1 ->
    call_vault_answer lib
      (trace w ++ [CallVault "vault-provision" [VStr "proofreader"] [];
                   CallVault "vault-write" [VStr Proofreader.VAULT_DJANGO]
                     [("secret_key", VStr (uuid4 lib))]])
      "vault-write" [VStr Proofreader.VAULT_DJANGO_DB] db
    = Ok x2 ->
    try_launch lib create_config session ("proofreader." ++ domain) domain
      (keypair_lookup lib) user_data db fuel (after w issue) = (Raise e, w4) ->
    Proofreader.create lib create_config session domain fuel w
    = (Raise e, after w4 added) /\
    In delete1 added /\
    In revoke added /\
    (forall y, r1 = Ok y -> In delete2 added) /\
    (forall e1, r1 = Raise e1 -> ~ In delete2 added).
Proof.
  intros lib create_config session domain fuel w w4 token x1 x2 user_data e
    db issue delete1 delete2 revoke r1 part1 r2 added
    Hterm Htoken Hdata Hw1 Hw2 Hlaunch.
  split.
  - unfold Proofreader.create. cbv zeta.
    erewrite bind_call_vault_ok by exact Htoken.
    erewrite bind_lift_ok by exact Hdata.
    erewrite bind_call_vault_ok by (unfold after; cbn [trace]; exact Hw1).
    rewrite after_after. cbn [app].
    erewrite bind_call_vault_ok by (unfold after; cbn [trace]; exact Hw2).
    rewrite after_after. cbn [app].
    erewrite try_except_raise by exact Hlaunch.
    rewrite bind_print.
    erewrite bind_run_ok by (apply run_proofreader_django_reversal; exact Hterm).
    rewrite after_after.
    erewrite bind_run_ok by (apply run_reversal; apply Hterm).
    rewrite after_after.
    unfold raise.
    subst added part1 r2 r1 delete1 delete2 revoke. unfold after.
    cbn [trace describes app].
    rewrite <- ?app_assoc. cbn [app]. reflexivity.
  - subst added part1. cbn [app].
    split; [right; left; reflexivity|].
    split; [apply in_cons, in_cons, in_or_app; right; left; reflexivity|].
    split.
    + intros y Hy. rewrite Hy. right; right; left; reflexivity.
    + intros e1 He1. rewrite He1. cbn [app].
      intros [H | [H | [H | [H | H]]]]; try discriminate.
      destruct (call_vault_answer lib _ "vault-revoke" [token] []);
        cbn [reversal_log In] in H; try contradiction;
        destruct H as [H|[]]; discriminate.
Qed.

Lemma proofreader_create_compensates_witness :
  let lib :=
    mkLibrary
      (fun _ command _ _ =>
         if String.eqb command "vault-delete"
         then Raise (Exception "vault unreachable")
         else Ok (VStr "token-1"))
      (VStr "keypair") "pw" "uuid" (fun s => Ok s) (fun _ => VStr "10.0.0.5")
      (fun _ => Ok "[vault]") "abc123" in
  (forall tr command args kwargs,
      call_vault_answer lib tr command args kwargs <> OutOfFuel) /\
  Proofreader.create lib
    (fun _ _ _ _ => Raise (Exception "VPC does not exists, exiting..."))
    (mkSession (fun _ _ _ _ => Ok VNone) (fun _ _ => Ok ["CREATE_COMPLETE"]))
    "vpc.boss" 0 (mkWorld [] 0)
  = (Raise (Exception "VPC does not exists, exiting..."),
     mkWorld
       [CallVault "vault-provision" [VStr "proofreader"] [];
        CallVault "vault-write" [VStr "secret/proofreader/django"]
          [("secret_key", VStr "uuid")];
        CallVault "vault-write" [VStr "secret/proofreader/django/db"]
          [("name", VStr "microns_proofreader"); ("user", VStr "proofreader");
           ("password", VStr "pw"); ("port", VStr "3306")];
        Print "Error detected, revoking secrets";
        CallVault "vault-delete" [VStr "secret/proofreader/django"] [];
        Print "Error revoking Django credentials";
        CallVault "vault-revoke" [VStr "token-1"] []] 0).
Proof.
  intros lib.
  assert (Hterm : forall tr command args kwargs,
             call_vault_answer lib tr command args kwargs <> OutOfFuel).
  { intros tr command args kwargs. subst lib. cbn [call_vault_answer].
    destruct (String.eqb command "vault-delete"); discriminate. }
  split; [exact Hterm|].
  exact (proj1 (proofreader_create_compensates lib
           (fun _ _ _ _ => Raise (Exception "VPC does not exists, exiting..."))
           (mkSession (fun _ _ _ _ => Ok VNone) (fun _ _ => Ok ["CREATE_COMPLETE"]))
           "vpc.boss" 0 (mkWorld [] 0)
           (mkWorld
              [CallVault "vault-provision" [VStr "proofreader"] [];
               CallVault "vault-write" [VStr "secret/proofreader/django"]
                 [("secret_key", VStr "uuid")];
               CallVault "vault-write" [VStr "secret/proofreader/django/db"]
                 [("name", VStr "microns_proofreader"); ("user", VStr "proofreader");
                  ("password", VStr "pw"); ("port", VStr "3306")]] 0)
           (VStr "token-1") (VStr "token-1") (VStr "token-1") "[vault]"
           (Exception "VPC does not exists, exiting...")
           Hterm eq_refl eq_refl eq_refl eq_refl eq_refl)).
Defined.

(** Secrets are issued before the [try]: when an issuing step raises, the
    exception goes to the caller and no reversal is attempted, not even for
    what was issued before.  In the production workflow a failing write of
    the credentials leaves the provisioned token unrevoked; in the
    proofreader workflow a failing second write leaves the token unrevoked
    and the first secret in place. *)
Theorem issuing_failure_is_not_compensated :
  forall (lib : Library)
         (create_config :
            string -> pyval -> string -> dict pyval -> result CloudFormationConfiguration)
         (session : Session) (domain : string) (fuel : nat) (w : World)
         (token : pyval) (user_data : string) (e : exn),
    let production_db :=
      [("name", VStr "boss"); ("user", VStr "testuser");
       ("password", VStr (generate_password lib)); ("port", VStr "3306")] in
    let proofreader_db :=
      [("name", VStr "microns_proofreader"); ("user", VStr "proofreader");
       ("password", VStr (generate_password lib)); ("port", VStr "3306")] in
    (call_vault_answer lib (trace w ++ [Print (py_str (VDict production_db))])
       "vault-provision" [VStr "endpoint"] [] = Ok token ->
     UserData_str lib
       [("vault", "url",
         VStr ("http://" ++ py_str (hosts_lookup lib ("vault." ++ domain)) ++ ":8200"));
        ("vault", "token", token);
        ("system", "fqdn", VStr ("endpoint.external." ++ domain));
        ("system", "type", VStr "endpoint")] = Ok user_data ->
     call_vault_answer lib
       (trace w ++ [Print (py_str (VDict production_db));
                    CallVault "vault-provision" [VStr "endpoint"] []])
       "vault-django"
       [VStr "boss"; VStr "testuser"; VStr (generate_password lib); VStr "3306"] []
     = Raise e ->
     Production.create lib create_config session domain fuel w
     = (Raise e,
        after w
          [Print (py_str (VDict production_db));
           CallVault "vault-provision" [VStr "endpoint"] [];
           CallVault "vault-django"
             [VStr "boss"; VStr "testuser"; VStr (generate_password lib); VStr "3306"]
             []])) /\
    (forall x1,
        call_vault_answer lib (trace w) "vault-provision" [VStr "proofreader"] []
        = Ok token ->
        UserData_str lib
          [("vault", "token", token);
           ("system", "fqdn", VStr ("proofreader-web." ++ domain));
           ("system", "type", VStr "proofreader-web");
           ("aws", "db", VStr ("proofreader-db." ++ domain))] = Ok user_data ->
        call_vault_answer lib
          (trace w ++ [CallVault "vault-provision" [VStr "proofreader"] []])
          "vault-write" [VStr Proofreader.VAULT_DJANGO]
          [("secret_key", VStr (uuid4 lib))]
        = Ok x1 ->
        call_vault_answer lib
          (trace w ++ [CallVault "vault-provision" [VStr "proofreader"] [];
                       CallVault "vault-write" [VStr Proofreader.VAULT_DJANGO]
                         [("secret_key", VStr (uuid4 lib))]])
          "vault-write" [VStr Proofreader.VAULT_DJANGO_DB] proofreader_db
        = Raise e ->
        Proofreader.create lib create_config session domain fuel w
        = (Raise e,
           after w
             [CallVault "vault-provision" [VStr "proofreader"] [];
              CallVault "vault-write" [VStr Proofreader.VAULT_DJANGO]
                [("secret_key", VStr (uuid4 lib))];
              CallVault "vault-write" [VStr Proofreader.VAULT_DJANGO_DB]
                proofreader_db])).
Proof.
  intros lib create_config session domain fuel w token user_data e
    production_db proofreader_db.
  split.
  - intros Htoken Hdata Hdjango.
    unfold Production.create. cbv zeta.
    rewrite bind_print.
    erewrite bind_call_vault_ok by exact Htoken.
    erewrite bind_lift_ok by exact Hdata.
    rewrite after_after.
    erewrite bind_call_vault_raise
      by (unfold after; cbn [trace]; cbn [app]; exact Hdjango).
    rewrite after_after. reflexivity.
  - intros x1 Htoken Hdata Hw1 Hw2.
    unfold Proofreader.create. cbv zeta.
    erewrite bind_call_vault_ok by exact Htoken.
    erewrite bind_lift_ok by exact Hdata.
    erewrite bind_call_vault_ok by (unfold after; cbn [trace]; exact Hw1).
    rewrite after_after. cbn [app].
    erewrite bind_call_vault_raise by (unfold after; cbn [trace]; exact Hw2).
    rewrite after_after. reflexivity.
Qed.

Lemma issuing_failure_is_not_compensated_witness :
  let lib :=
    mkLibrary
      (fun _ command _ _ =>
         if String.eqb command "vault-django"
         then Raise (Exception "vault unreachable")
         else Ok (VStr "token-1"))
      (VStr "keypair") "pw" "uuid" (fun s => Ok s) (fun _ => VStr "10.0.0.5")
      (fun _ => Ok "[vault]") "abc123" in
  Production.create lib (fun _ _ _ _ => Raise (Exception "unused"))
    (mkSession (fun _ _ _ _ => Ok VNone) (fun _ _ => Ok ["CREATE_COMPLETE"]))
    "vpc.boss" 0 (mkWorld [] 0)
  = (Raise (Exception "vault unreachable"),
     mkWorld
       [Print "{'name': 'boss', 'user': 'testuser', 'password': 'pw', 'port': '3306'}";
        CallVault "vault-provision" [VStr "endpoint"] [];
        CallVault "vault-django" [VStr "boss"; VStr "testuser"; VStr "pw"; VStr "3306"] []]
       0).
Proof.
  intros lib.
  exact (proj1 (issuing_failure_is_not_compensated lib
           (fun _ _ _ _ => Raise (Exception "unused"))
           (mkSession (fun _ _ _ _ => Ok VNone) (fun _ _ => Ok ["CREATE_COMPLETE"]))
           "vpc.boss" 0 (mkWorld [] 0) (VStr "token-1") "[vault]"
           (Exception "vault unreachable"))
           eq_refl eq_refl eq_refl).
Defined.

(** When the launch succeeds, a workflow returns normally without touching
    the secret store again: the world is the one the launch left. *)
Theorem launch_success_keeps_secrets :
  forall (lib : Library)
         (create_config :
            string -> pyval -> string -> dict pyval -> result CloudFormationConfiguration)
         (session : Session) (domain : string) (fuel : nat) (w w4 : World)
         (token x1 x2 : pyval) (user_data : string),
    let production_db :=
      [("name", VStr "boss"); ("user", VStr "testuser");
       ("password", VStr (generate_password lib)); ("port", VStr "3306")] in
    let proofreader_db :=
      [("name", VStr "microns_proofreader"); ("user", VStr "proofreader");
       ("password", VStr (generate_password lib)); ("port", VStr "3306")] in
    (call_vault_answer lib (trace w ++ [Print (py_str (VDict production_db))])
       "vault-provision" [VStr "endpoint"] [] = Ok token ->
     UserData_str lib
       [("vault", "url",
         VStr ("http://" ++ py_str (hosts_lookup lib ("vault." ++ domain)) ++ ":8200"));
        ("vault", "token", token);
        ("system", "fqdn", VStr ("endpoint.external." ++ domain));
        ("system", "type", VStr "endpoint")] = Ok user_data ->
     call_vault_answer lib
       (trace w ++ [Print (py_str (VDict production_db));
                    CallVault "vault-provision" [VStr "endpoint"] []])
       "vault-django"
       [VStr "boss"; VStr "testuser"; VStr (generate_password lib); VStr "3306"] []
     = Ok x1 ->
     try_launch lib create_config session ("production." ++ domain) domain
       (keypair_lookup lib) user_data production_db fuel
       (after w
          [Print (py_str (VDict production_db));
           CallVault "vault-provision" [VStr "endpoint"] [];
           CallVault "vault-django"
             [VStr "boss"; VStr "testuser"; VStr (generate_password lib); VStr "3306"]
             []])
     = (Ok tt, w4) ->
     Production.create lib create_config session domain fuel w = (Ok tt, w4)) /\
    (call_vault_answer lib (trace w) "vault-provision" [VStr "proofreader"] []
     = Ok token ->
     UserData_str lib
       [("vault", "token", token);
        ("system", "fqdn", VStr ("proofreader-web." ++ domain));
        ("system", "type", VStr "proofreader-web");
        ("aws", "db", VStr ("proofreader-db." ++ domain))] = Ok user_data ->
     call_vault_answer lib
       (trace w ++ [CallVault "vault-provision" [VStr "proofreader"] []])
       "vault-write" [VStr Proofreader.VAULT_DJANGO]
       [("secret_key", VStr (uuid4 lib))]
     = Ok x1 ->
     call_vault_answer lib
       (trace w ++ [CallVault "vault-provision" [VStr "proofreader"] [];
                    CallVault "vault-write" [VStr Proofreader.VAULT_DJANGO]
                      [("secret_key", VStr (uuid4 lib))]])
       "vault-write" [VStr Proofreader.VAULT_DJANGO_DB] proofreader_db
     = Ok x2 ->
     try_launch lib create_config session ("proofreader." ++ domain) domain
       (keypair_lookup lib) user_data proofreader_db fuel
       (after w
          [CallVault "vault-provision" [VStr "proofreader"] [];
           CallVault "vault-write" [VStr Proofreader.VAULT_DJANGO]
             [("secret_key", VStr (uuid4 lib))];
           CallVault "vault-write" [VStr Proofreader.VAULT_DJANGO_DB] proofreader_db])
     = (Ok tt, w4) ->
     Proofreader.create lib create_config session domain fuel w = (Ok tt, w4)).
Proof.
  intros lib create_config session domain fuel w w4 token x1 x2 user_data
    production_db proofreader_db.
  split.
  - intros Htoken Hdata Hdjango Hlaunch.
    unfold Production.create. cbv zeta.
    rewrite bind_print.
    erewrite bind_call_vault_ok by exact Htoken.
    erewrite bind_lift_ok by exact Hdata.
    rewrite after_after.
    erewrite bind_call_vault_ok
      by (unfold after; cbn [trace]; cbn [app]; exact Hdjango).
    rewrite after_after. cbn [app].
    erewrite try_except_ok by exact Hlaunch.
    reflexivity.
  - intros Htoken Hdata Hw1 Hw2 Hlaunch.
    unfold Proofreader.create. cbv zeta.
    erewrite bind_call_vault_ok by exact Htoken.
    erewrite bind_lift_ok by exact Hdata.
    erewrite bind_call_vault_ok by (unfold after; cbn [trace]; exact Hw1).
    rewrite after_after. cbn [app].
    erewrite bind_call_vault_ok by (unfold after; cbn [trace]; exact Hw2).
    rewrite after_after. cbn [app].
    erewrite try_except_ok by exact Hlaunch.
    reflexivity.
Qed.

Lemma launch_success_keeps_secrets_witness :
  let lib :=
    mkLibrary (fun _ _ _ _ => Ok (VStr "token-1"))
      (VStr "keypair") "pw" "uuid" (fun s => Ok s) (fun _ => VStr "10.0.0.5")
      (fun _ => Ok "[vault]") "abc123" in
  let config := mkConfiguration [] [] [] (VStr "us-east-1") "vpc.boss" VNone VNone VNone in
  let session := mkSession (fun _ _ _ _ => Ok VNone) (fun _ _ => Ok ["CREATE_COMPLETE"]) in
  Production.create lib (fun _ _ _ _ => Ok config) session "vpc.boss" 0 (mkWorld [] 0)
  = (Ok tt,
     mkWorld
       [Print "{'name': 'boss', 'user': 'testuser', 'password': 'pw', 'port': '3306'}";
        CallVault "vault-provision" [VStr "endpoint"] [];
        CallVault "vault-django" [VStr "boss"; VStr "testuser"; VStr "pw"; VStr "3306"] [];
        create_request "abc123" config "production.vpc.boss";
        DescribeStacks "production.vpc.boss";
        Print "Waiting for create ";
        Print " done";
        Print "Created stack 'production.vpc.boss'"] 1).
Proof.
  intros lib config session.
  exact (proj1 (launch_success_keeps_secrets lib (fun _ _ _ _ => Ok config) session
           "vpc.boss" 0 (mkWorld [] 0)
           (mkWorld
              [Print "{'name': 'boss', 'user': 'testuser', 'password': 'pw', 'port': '3306'}";
               CallVault "vault-provision" [VStr "endpoint"] [];
               CallVault "vault-django"
                 [VStr "boss"; VStr "testuser"; VStr "pw"; VStr "3306"] [];
               create_request "abc123" config "production.vpc.boss";
               DescribeStacks "production.vpc.boss";
               Print "Waiting for create ";
               Print " done";
               Print "Created stack 'production.vpc.boss'"] 1)
           (VStr "token-1") (VStr "token-1") (VStr "token-1") "[vault]")
           eq_refl eq_refl eq_refl eq_refl).
Defined.

(** ** Parameters and arguments stay in lockstep *)

Section Preserves.
Variable I : CloudFormationConfiguration -> Prop.

(** [I] looks at the parameters and the arguments only. *)
Hypothesis I_resources : forall f c, I c -> I (with_resources f c).
Hypothesis I_subnet : forall d s c, I c -> I (with_subnet d s c).
Hypothesis I_add_arg : forall a c,
    ParameterKey (argument a) = key a -> I c -> I (snd (add_arg a c)).

Lemma preserves_ret {A : Type} (a : A) : preserves I (ret a).
Proof. intros c H. exact H. Qed.

Lemma preserves_raise {A : Type} (e : exn) : preserves I (@raise _ A e).
Proof. intros c H. exact H. Qed.

Lemma preserves_lift {A : Type} (r : result A) : preserves I (lift r).
Proof. intros c H. exact H. Qed.

Lemma preserves_get_state : preserves I get_state.
Proof. intros c H. exact H. Qed.

Lemma preserves_bind {A B : Type} (m : Build A) (f : A -> Build B) :
  preserves I m -> (forall a, preserves I (f a)) -> preserves I (bind m f).
Proof.
  intros Hm Hf c H. unfold bind. specialize (Hm c H).
  destruct (m c) as [[a | e |] c']; cbn [snd] in *.
  - apply Hf. exact Hm.
  - exact Hm.
  - exact Hm.
Qed.

Lemma preserves_set_resource (k : string) (v : pyval) : preserves I (set_resource k v).
Proof. intros c H. apply I_resources. exact H. Qed.

Lemma preserves_set_subnet (d s : pyval) : preserves I (set_subnet d s).
Proof. intros c H. apply I_subnet. exact H. Qed.

Lemma preserves_set_resource_field (k f : string) (v : pyval) :
  preserves I (set_resource_field k f v).
Proof.
  unfold set_resource_field.
  repeat first [ apply preserves_bind; [|intros ?] | apply preserves_get_state
               | apply preserves_lift | apply preserves_set_resource ].
Qed.

Lemma preserves_set_resource_property (k p : string) (v : pyval) :
  preserves I (set_resource_property k p v).
Proof.
  unfold set_resource_property.
  repeat first [ apply preserves_bind; [|intros ?] | apply preserves_get_state
               | apply preserves_lift | apply preserves_set_resource ].
Qed.

Lemma preserves_update_resource (k : string) (path : list item)
  (f : pyval -> result pyval) : preserves I (update_resource k path f).
Proof.
  unfold update_resource.
  repeat first [ apply preserves_bind; [|intros ?] | apply preserves_get_state
               | apply preserves_lift | apply preserves_set_resource ].
Qed.

Lemma preserves_when_not_none (x : pyval) (m : Build unit) :
  preserves I m -> preserves I (when_not_none x m).
Proof. intros H. unfold when_not_none. destruct (is_none x); [apply preserves_ret | exact H]. Qed.

Lemma preserves_for_each {X : Type} (xs : list X) (body : X -> Build unit) :
  (forall x, preserves I (body x)) -> preserves I (for_each xs body).
Proof.
  intros H. induction xs as [|x xs IH]; cbn [for_each].
  - apply preserves_ret.
  - apply preserves_bind; [apply H | intros _; exact IH].
Qed.

Lemma preserves_add_arg (kind : arg_kind) (k : string) (v : pyval) (text : string) :
  preserves I (add_arg (make_arg kind k v text)).
Proof. intros c H. apply I_add_arg; [destruct kind; reflexivity | exact H]. Qed.

Lemma preserves_inline_scenario (environ : dict string) (x dflt : pyval) :
  preserves I (inline_scenario environ x dflt).
Proof.
  unfold inline_scenario. destruct x; try apply preserves_ret.
  apply preserves_bind; [apply preserves_lift | intros ?; apply preserves_ret].
Qed.

Lemma preserves_add_arg_keyed (a : Arg) :
  ParameterKey (argument a) = key a -> preserves I (add_arg a).
Proof. intros Ha c H. apply I_add_arg; assumption. Qed.

Ltac preserve :=
  repeat first
    [ apply preserves_ret
    | apply preserves_raise
    | apply preserves_lift
    | apply preserves_get_state
    | apply preserves_set_resource
    | apply preserves_set_subnet
    | apply preserves_set_resource_field
    | apply preserves_set_resource_property
    | apply preserves_update_resource
    | apply preserves_inline_scenario
    | apply preserves_when_not_none
    | apply preserves_add_arg_keyed; reflexivity
    | apply preserves_for_each; intros ?
    | apply preserves_bind; [|intros ?]
    | match goal with
      | |- preserves _ (if ?b then _ else _) => destruct b
      | |- preserves _ (match ?x with _ => _ end) => destruct x
      end ].

Lemma preserves_add_record_cname (k hostname vpc : string) (ttl : pyval)
  (rds cluster replication ec2 : bool) :
  preserves I (_add_record_cname k hostname vpc ttl rds cluster replication ec2).
Proof. unfold _add_record_cname. preserve. Qed.

Lemma preserves_add_subnet (k vpc : string) (az : pyval) :
  preserves I (add_subnet k vpc az).
Proof. unfold add_subnet. preserve. Qed.

Lemma preserves_add_all_azs_loop (lookup : string -> pyval)
  (azs : list (pyval * string)) :
  forall internal external, preserves I (add_all_azs_loop lookup azs internal external).
Proof.
  induction azs as [|[az sub] azs IH]; intros internal external;
    cbn [add_all_azs_loop].
  - preserve.
  - repeat first [ apply preserves_add_subnet | apply IH
                 | apply preserves_get_state | apply preserves_set_subnet
                 | apply preserves_bind; [|intros ?] ].
Qed.

Lemma preserves_find_all_availability_zones_loop (subnet_id_lookup : string -> pyval)
  (azs : list (pyval * string)) :
  forall internal external,
    preserves I (find_all_availability_zones_loop subnet_id_lookup azs internal external).
Proof.
  induction azs as [|[az sub] azs IH]; intros internal external;
    cbn [find_all_availability_zones_loop].
  - preserve.
  - repeat first [ apply IH | apply preserves_get_state
                 | apply preserves_add_arg_keyed; reflexivity
                 | apply preserves_bind; [|intros ?] ].
Qed.

Lemma preserves_unpack_ami (k : string) (ami : pyval) (extra : dict pyval) :
  preserves I (unpack_ami k ami extra).
Proof. unfold unpack_ami. preserve. Qed.

Lemma preserves_add_route_table_association (k route_table subnet : string) :
  preserves I (add_route_table_association k route_table subnet).
Proof. unfold add_route_table_association. preserve. Qed.

(** Every call keeps [I]. *)
Lemma preserves_call (environ : dict string) (lookup : string -> pyval)
  (azs_lookup : list (pyval * string)) (subnet_id_lookup : string -> pyval)
  (op : operation) :
  preserves I (call environ lookup azs_lookup subnet_id_lookup op).
Proof.
  destruct op; cbn [call].
  - apply preserves_add_arg.
  - unfold add_vpc. preserve.
  - apply preserves_add_subnet.
  - unfold add_all_azs.
    apply preserves_bind; [apply preserves_add_all_azs_loop | intros ?].
    apply preserves_ret.
  - unfold find_all_availability_zones.
    apply preserves_bind;
      [apply preserves_find_all_availability_zones_loop | intros ?].
    apply preserves_ret.
  - unfold add_ec2_instance.
    repeat first [ apply preserves_add_record_cname | apply preserves_unpack_ami
                 | apply preserves_inline_scenario
                 | apply preserves_bind; [|intros ?] ]; preserve.
  - unfold add_rds_db.
    repeat first [ apply preserves_add_record_cname
                 | apply preserves_lift
                 | apply preserves_bind; [|intros ?] ]; preserve.
  - unfold add_dynamo_table_from_json. preserve.
  - unfold add_dynamo_table. preserve.
  - unfold add_redis_cluster.
    repeat first [ apply preserves_add_record_cname
                 | apply preserves_inline_scenario
                 | apply preserves_bind; [|intros ?] ]; preserve.
  - unfold add_redis_replication.
    repeat first [ apply preserves_add_record_cname
                 | apply preserves_lift
                 | apply preserves_bind; [|intros ?] ]; preserve.
  - unfold add_security_group. preserve.
  - unfold add_route_table.
    repeat first [ apply preserves_add_route_table_association
                 | apply preserves_for_each; intros ?
                 | apply preserves_lift | apply preserves_get_state
                 | apply preserves_set_resource
                 | apply preserves_add_arg_keyed; reflexivity
                 | apply preserves_bind; [|intros ?] ].
  - apply preserves_add_route_table_association.
  - unfold add_route_table_route. preserve.
  - unfold add_internet_gateway. preserve.
  - unfold add_vpc_peering. preserve.
  - unfold add_loadbalancer. preserve.
  - unfold add_autoscale_group.
    repeat first [ apply preserves_unpack_ami
                 | apply preserves_lift
                 | apply preserves_set_resource
                 | apply preserves_when_not_none
                 | apply preserves_set_resource_field
                 | apply preserves_add_arg_keyed; reflexivity
                 | apply preserves_bind; [|intros ?] ].
  - apply preserves_add_record_cname.
  - unfold add_cloudwatch. preserve.
  - unfold add_route_53_record_set. preserve.
  - unfold add_sns_topic. preserve.
  - apply preserves_set_subnet.
Qed.

End Preserves.

Lemma lockstep_resources (f : dict pyval -> dict pyval) (c : CloudFormationConfiguration) :
  lockstep c -> lockstep (with_resources f c).
Proof. intros H. exact H. Qed.

Lemma lockstep_subnet (d s : pyval) (c : CloudFormationConfiguration) :
  lockstep c -> lockstep (with_subnet d s c).
Proof. intros H. exact H. Qed.

Lemma lockstep_add_arg (a : Arg) (c : CloudFormationConfiguration) :
  ParameterKey (argument a) = key a -> lockstep c -> lockstep (snd (add_arg a c)).
Proof.
  intros Ha [Hk Hn]. unfold add_arg.
  destruct (dict_mem (key a) (parameters c)) eqn:E; cbn [negb snd].
  - split; assumption.
  - unfold lockstep, argument_keys in *. cbn [parameters arguments].
    rewrite dict_keys_set_absent by exact E.
    rewrite map_app. cbn [map]. rewrite Ha, Hk. split; [reflexivity|].
    apply NoDup_app; [exact Hn | constructor; [intros [] | constructor] |].
    intros k Hin [<-|[]].
    apply dict_mem_false_not_In in E. contradiction.
Qed.

(** A configuration as the constructor leaves it *)
Lemma lockstep_init (lookup : string -> pyval) (domain : string) (region : pyval)
  (c : CloudFormationConfiguration) :
  __init__ lookup domain region = Ok c -> lockstep c.
Proof.
  unfold __init__. intros H.
  destruct (Nat.eqb (S (count_char "." domain)) 2);
    [|destruct (Nat.eqb (S (count_char "." domain)) 3)];
    inversion H; subst; split; constructor.
Qed.

(** Whatever a deployment script calls on a configuration after constructing
    it, in whatever order, and whether the calls return or raise: the keys
    of the parameters and the [ParameterKey]s of the arguments are the same,
    in the same order, no key occurs twice, and there are as many arguments
    as parameters. *)
Theorem builder_calls_keep_lockstep :
  forall (environ : dict string) (lookup : string -> pyval)
         (azs_lookup : list (pyval * string)) (subnet_id_lookup : string -> pyval)
         (domain : string) (region : pyval) (ops : list operation)
         (c0 : CloudFormationConfiguration),
    __init__ lookup domain region = Ok c0 ->
    let c := after_calls environ lookup azs_lookup subnet_id_lookup ops c0 in
    argument_keys c = dict_keys (parameters c) /\
    NoDup (argument_keys c) /\
    length (arguments c) = length (parameters c) /\
    (forall k, In k (argument_keys c) <-> dict_mem k (parameters c) = true).
Proof.
  intros environ lookup azs_lookup subnet_id_lookup domain region ops c0 Hinit c.
  assert (H : lockstep c).
  { subst c. apply lockstep_init in Hinit. revert c0 Hinit.
    unfold after_calls.
    induction ops as [|op ops IH]; intros c0 H0; cbn [fold_left].
    - exact H0.
    - apply IH.
      apply (preserves_call lockstep lockstep_resources lockstep_subnet
               lockstep_add_arg environ lookup azs_lookup subnet_id_lookup op).
      exact H0. }
  destruct H as [Hk Hn].
  split; [exact Hk|].
  split; [rewrite Hk; exact Hn|].
  split.
  - transitivity (length (argument_keys c)).
    + unfold argument_keys. now rewrite length_map.
    + rewrite Hk. unfold dict_keys. now rewrite length_map.
  - intros k. rewrite Hk. symmetry. apply dict_mem_In.
Qed.

Lemma builder_calls_keep_lockstep_witness :
  let environ := [("SCENARIO", "production")] in
  let lookup := fun _ : string => VStr "10.0.0.0/16" in
  let ops :=
    [Call_add_vpc "VPC";
     Call_add_security_group "InternetSecurityGroup" "internet"
       [(VStr "tcp", VStr "22", VStr "22", VStr "0.0.0.0/0")] "VPC";
     Call_add_redis_cluster "Cache" "cache.vpc.boss" [VStr "ASubnet"] [] (VStr "cache.t2.micro")
       (VInt 6379) (VStr "2.8.24");
     Call_add_arg KString "VPCDomain" (VStr "other") "again"] in
  __init__ lookup "vpc.boss" (VStr "us-east-1")
  = Ok (mkConfiguration [] [] [] (VStr "us-east-1") "vpc.boss" (VStr "10.0.0.0/16")
          VNone VNone) /\
  argument_keys
    (after_calls environ lookup [] (fun _ => VNone) ops
       (mkConfiguration [] [] [] (VStr "us-east-1") "vpc.boss" (VStr "10.0.0.0/16")
          VNone VNone))
  = ["VPCSubnet"; "VPCDomain"; "VPCRegion"; "CacheHostname"].
Proof.
  intros environ lookup ops.
  split; [reflexivity|].
  rewrite (proj1 (builder_calls_keep_lockstep environ lookup [] (fun _ => VNone)
                    "vpc.boss" (VStr "us-east-1") ops
                    (mkConfiguration [] [] [] (VStr "us-east-1") "vpc.boss"
                       (VStr "10.0.0.0/16") VNone VNone)
                    eq_refl)).
  reflexivity.
Defined.

(** ** The constructor *)

Lemma after_first_split (c : ascii) (s : string) :
  count_char c s <> 0 ->
  exists label,
    s = label ++ String c (after_first c s) /\
    count_char c label = 0 /\
    count_char c s = S (count_char c (after_first c s)).
Proof.
  induction s as [|c' s IH]; cbn [count_char after_first]; intros H.
  - contradiction.
  - destruct (Ascii.eqb c' c) eqn:E.
    + apply Ascii.eqb_eq in E. subst c'. exists EmptyString. repeat split.
    + cbn [Nat.add] in *. destruct (IH H) as (label & Hs & Hl & Hc).
      exists (String c' label). cbn [append count_char]. rewrite E.
      repeat split; [now rewrite <- Hs | exact Hl | exact Hc].
Qed.

(** The constructor takes a domain of two labels as the domain of a VPC and
    a domain of three labels as the domain of a subnet, whose VPC domain is
    what follows the first dot; any other number of labels is rejected.  A
    new configuration has no resource, parameter or argument.  Labels are
    only counted: empty ones pass. *)
Theorem init_domain_shapes :
  forall (lookup : string -> pyval) (domain : string) (region : pyval),
    (count_char "." domain = 1 ->
     __init__ lookup domain region
     = Ok (mkConfiguration [] [] [] region domain (lookup domain) VNone VNone)) /\
    (count_char "." domain = 2 ->
     exists label vpc,
       domain = label ++ "." ++ vpc /\
       count_char "." label = 0 /\ count_char "." vpc = 1 /\
       __init__ lookup domain region
       = Ok (mkConfiguration [] [] [] region vpc (lookup vpc)
               (VStr domain) (lookup domain))) /\
    (count_char "." domain <> 1 -> count_char "." domain <> 2 ->
     __init__ lookup domain region
     = Raise (Exception "Not a valiid VPC or Subnet domain name")) /\
    __init__ lookup "." region
    = Ok (mkConfiguration [] [] [] region "." (lookup ".") VNone VNone).
Proof.
  intros lookup domain region. unfold __init__.
  split; [|split; [|split]].
  - intros H. rewrite H. reflexivity.
  - intros H. rewrite H. cbn [Nat.eqb].
    destruct (after_first_split "." domain) as (label & Hs & Hl & Hc);
      [rewrite H; discriminate|].
    exists label, (after_first "." domain).
    repeat split; [exact Hs | exact Hl | lia].
  - intros H1 H2.
    destruct (count_char "." domain) as [|[|[|n]]]; try contradiction; reflexivity.
  - reflexivity.
Qed.

(** ** [add_arg] never overwrites *)

Lemma run_add_arg_present_key (a : Arg) (c : CloudFormationConfiguration) :
  dict_mem (key a) (parameters c) = true -> add_arg a c = (Ok tt, c).
Proof. intros H. unfold add_arg. now rewrite H. Qed.


(** [add_arg] with a key that is already a parameter changes nothing: neither
    the recorded parameter nor the bound value.  So of two [add_arg] with
    the same key the first one wins, whatever the second one binds; a key
    that is new gets its parameter and has its argument appended. *)
Theorem add_arg_first_wins :
  forall (a b : Arg) (c : CloudFormationConfiguration),
    (dict_mem (key a) (parameters c) = true -> add_arg a c = (Ok tt, c)) /\
    (key b = key a ->
     add_arg b (snd (add_arg a c)) = (Ok tt, snd (add_arg a c))) /\
    (dict_mem (key a) (parameters c) = false ->
     key b = key a ->
     dict_get (key a) (parameters (snd (add_arg b (snd (add_arg a c)))))
     = Some (parameter a) /\
     arguments (snd (add_arg b (snd (add_arg a c))))
     = (arguments c ++ [argument a])%list).
Proof.
  intros a b c.
  assert (Hsecond : key b = key a ->
            add_arg b (snd (add_arg a c)) = (Ok tt, snd (add_arg a c))).
  { intros Hk. apply run_add_arg_present_key. rewrite Hk. apply add_arg_mem. }
  split; [|split].
  - intros H. unfold add_arg. now rewrite H.
  - exact Hsecond.
  - intros Habs Hk. rewrite (Hsecond Hk). cbn [snd].
    unfold add_arg. rewrite Habs. cbn [negb snd parameters arguments].
    rewrite dict_get_set_same. split; reflexivity.
Qed.

(** ** Security groups *)

Lemma rule_ports_text (rules : list rule) :
  forallb text_ports rules = true ->
  rule_ports rules = Ok (map port_range rules).
Proof.
  induction rules as [|[[[protocol from_port] to_port] cidr] rules IH];
    cbn [forallb rule_ports map]; intros H.
  - reflexivity.
  - apply andb_prop in H. destruct H as [Hr Hrest].
    cbn [text_ports] in Hr. apply andb_prop in Hr. destruct Hr as [Hf Ht].
    destruct from_port; try discriminate. destruct to_port; try discriminate.
    cbn [str_add]. rewrite (IH Hrest). reflexivity.
Qed.

Lemma rule_ports_not_text (rules : list rule) :
  forallb text_ports rules = false ->
  rule_ports rules = Raise (TypeError "unsupported operand type(s) for +").
Proof.
  induction rules as [|[[[protocol from_port] to_port] cidr] rules IH];
    cbn [forallb rule_ports]; intros H.
  - discriminate.
  - destruct from_port; cbn [str_add]; try reflexivity.
    destruct to_port; cbn [str_add]; try reflexivity.
    cbn [text_ports is_str andb] in H. now rewrite (IH H).
Qed.

(** [add_security_group] builds the group description by adding texts, so
    it works on rules whose two ports are texts: the description then lists
    their ranges [from-to] joined by [/], and the ingress list has one entry
    per rule, in order.  A rule with a port that is not a text, the integer
    [-1] of the wildcard included, makes the call raise [TypeError] with the
    configuration untouched. *)
Theorem add_security_group_ports :
  forall (k name : string) (rules : list rule) (vpc : string)
         (self : CloudFormationConfiguration),
    (forallb text_ports rules = true ->
     exists self',
       add_security_group k name rules vpc self = (Ok tt, self') /\
       resource_field self' k "Type" = Some (VStr "AWS::EC2::SecurityGroup") /\
       resource_property self' k "GroupDescription"
       = Some (VStr ("Enable access to ports "
                     ++ str_join "/" (map port_range rules))) /\
       resource_property self' k "SecurityGroupIngress"
       = Some (VList
                 (map (fun '(protocol, from_port, to_port, cidr) =>
                         VDict [("IpProtocol", protocol); ("FromPort", from_port);
                                ("ToPort", to_port); ("CidrIp", cidr)]) rules)) /\
       (forall k', k' <> k -> dict_get k' (resources self') = dict_get k' (resources self)) /\
       dict_mem (vpc ++ "Domain") (parameters self') = true) /\
    (forallb text_ports rules = false ->
     add_security_group k name rules vpc self
     = (Raise (TypeError "unsupported operand type(s) for +"), self)).
Proof.
  intros k name rules vpc [res p ar reg vd vs sd ss].
  unfold add_security_group. split; intros H.
  - erewrite bind_lift_ok by (apply rule_ports_text; exact H).
    repeat flat_step. cbn [vpc_domain]. arg_run p1 ar1 F1.
    eexists; split; [reflexivity|].
    unfold resource_property, resource_field; cbn [resources parameters].
    do 3 (split; [get_set; reflexivity|]).
    split; [intros k' Hk'; get_set; reflexivity|].
    split_arg_step F1. exact Fm.
  - erewrite bind_lift_raise by (apply rule_ports_not_text; exact H).
    reflexivity.
Qed.

Lemma add_security_group_ports_witness :
  forallb text_ports [(VStr "-1", VInt (-1), VInt (-1), VStr "0.0.0.0/0")] = false /\
  forallb text_ports [(VStr "tcp", VStr "22", VStr "22", VStr "0.0.0.0/0");
                      (VStr "tcp", VStr "80", VStr "80", VStr "0.0.0.0/0")] = true /\
  add_security_group "Open" "open" [(VStr "-1", VInt (-1), VInt (-1), VStr "0.0.0.0/0")]
    "VPC" (mkConfiguration [] [] [] (VStr "us-east-1") "vpc.boss" VNone VNone VNone)
  = (Raise (TypeError "unsupported operand type(s) for +"),
     mkConfiguration [] [] [] (VStr "us-east-1") "vpc.boss" VNone VNone VNone) /\
  exists self',
    add_security_group "Internet" "internet"
      [(VStr "tcp", VStr "22", VStr "22", VStr "0.0.0.0/0");
       (VStr "tcp", VStr "80", VStr "80", VStr "0.0.0.0/0")] "VPC"
      (mkConfiguration [] [] [] (VStr "us-east-1") "vpc.boss" VNone VNone VNone)
    = (Ok tt, self') /\
    resource_property self' "Internet" "GroupDescription"
    = Some (VStr "Enable access to ports 22-22/80-80").
Proof.
  split; [reflexivity|]. split; [reflexivity|]. split.
  - exact (proj2 (add_security_group_ports "Open" "open"
             [(VStr "-1", VInt (-1), VInt (-1), VStr "0.0.0.0/0")] "VPC"
             (mkConfiguration [] [] [] (VStr "us-east-1") "vpc.boss" VNone VNone VNone))
             eq_refl).
  - destruct (proj1 (add_security_group_ports "Internet" "internet"
             [(VStr "tcp", VStr "22", VStr "22", VStr "0.0.0.0/0");
              (VStr "tcp", VStr "80", VStr "80", VStr "0.0.0.0/0")] "VPC"
             (mkConfiguration [] [] [] (VStr "us-east-1") "vpc.boss" VNone VNone VNone))
             eq_refl) as (self' & Hrun & _ & Hdesc & _).
    exists self'. split; assumption.
Defined.

(** ** Route tables *)

Lemma nat_str_inj (a b : nat) : nat_str a = nat_str b -> a = b.
Proof.
  assert (N : forall n, Nat.to_uint n <> Decimal.Nil).
  { intros n E. pose proof (DecimalNat.Unsigned.of_to n) as H.
    rewrite E in H. cbn in H. subst n. discriminate E. }
  unfold nat_str. intros H.
  apply DecimalNat.Unsigned.to_uint_inj.
  pose proof (DecimalString.NilZero.usu _ (N a)) as Ha.
  pose proof (DecimalString.NilZero.usu _ (N b)) as Hb.
  rewrite H in Ha. rewrite Ha in Hb. now injection Hb.
Qed.

Lemma association_key_inj (key : string) (i j : nat) :
  association_key key i = association_key key j -> i = j.
Proof.
  unfold association_key. intros H.
  apply append_inj_l in H. apply append_inj_l in H. now apply nat_str_inj.
Qed.

Lemma association_key_neq (key : string) (i : nat) : association_key key i <> key.
Proof. unfold association_key. apply append_nonempty_neq. discriminate. Qed.

Lemma list_index_In (s : string) (l : list string) :
  In s l -> exists j, list_index s l = Ok j.
Proof.
  induction l as [|y l IH]; cbn [In list_index]; intros H.
  - contradiction.
  - destruct (String.eqb s y) eqn:E; [now exists 0|].
    destruct H as [H|H]; [subst y; rewrite String.eqb_refl in E; discriminate|].
    destruct (IH H) as [j ->]. now exists (S j).
Qed.

Lemma list_index_first (s : string) (l : list string) (j : nat) :
  list_index s l = Ok j ->
  nth_error l j = Some s /\ forall i, i < j -> nth_error l i <> Some s.
Proof.
  revert j. induction l as [|y l IH]; cbn [list_index]; intros j H.
  - discriminate.
  - destruct (String.eqb s y) eqn:E.
    + injection H as <-. apply String.eqb_eq in E. subst y.
      split; [reflexivity | intros i Hi; lia].
    + destruct (list_index s l) as [j'| |] eqn:Ej; try discriminate.
      injection H as <-. destruct (IH j' eq_refl) as [Hn Hf].
      split; [exact Hn|]. intros [|i] Hi; cbn [nth_error].
      * intros Hy. injection Hy as ->. rewrite String.eqb_refl in E. discriminate.
      * apply Hf. lia.
Qed.

(** The loop of [add_route_table] over a part [rest] of the subnets. *)
Lemma run_association_loop (key : string) (subnets rest : list string) :
  (forall s, In s rest -> In s subnets) ->
  forall res p ar reg vd vs sd ss,
  exists res',
    for_each rest (fun subnet =>
      index <- lift (list_index subnet subnets) ;;
      add_route_table_association
        (key ++ "SubnetAssociation" ++ nat_str index) key subnet)
      (mkConfiguration res p ar reg vd vs sd ss)
    = (Ok tt, mkConfiguration res' p ar reg vd vs sd ss) /\
    (forall s j, In s rest -> list_index s subnets = Ok j ->
       dict_get (association_key key j) res' = Some (association key s)) /\
    (forall k, (forall s j, In s rest -> list_index s subnets = Ok j ->
                  k <> association_key key j) ->
       dict_get k res' = dict_get k res).
Proof.
  induction rest as [|s0 rest IH]; intros Hin res p ar reg vd vs sd ss.
  - exists res. cbn [for_each]. split; [reflexivity|].
    split; [intros s j []|reflexivity].
  - destruct (list_index_In s0 subnets (Hin s0 (or_introl eq_refl))) as [j0 Ej0].
    cbn [for_each].
    erewrite bind_run_ok; cycle 1.
    { erewrite bind_lift_ok by exact Ej0.
      unfold add_route_table_association. apply set_resource_flat. }
    fold (association_key key j0). fold (association key s0).
    destruct (IH (fun s H => Hin s (or_intror H))
                 (dict_set (association_key key j0) (association key s0) res)
                 p ar reg vd vs sd ss) as (res' & Hrun & Hget & Hother).
    exists res'. split; [exact Hrun|]. split.
    + intros s j Hs Ej.
      destruct (in_dec string_dec s rest) as [Hr|Hr]; [now apply Hget|].
      destruct Hs as [<-|Hs]; [|contradiction].
      rewrite Ej0 in Ej. injection Ej as <-.
      rewrite Hother; [apply dict_get_set_same|].
      intros s' j' Hs' Ej' Hk. apply association_key_inj in Hk. subst j'.
      apply list_index_first in Ej0, Ej'.
      destruct Ej0 as [E0 _], Ej' as [E' _]. rewrite E0 in E'.
      injection E' as <-. contradiction.
    + intros k Hk. rewrite Hother.
      * apply dict_get_set_other. apply (Hk s0 j0); [now left | exact Ej0].
      * intros s j Hs. apply Hk. now right.
Qed.

(** [add_route_table] never raises.  It numbers each association by
    [subnets.index(subnet)], the first position of the subnet in the list:
    every listed subnet ends with one association, at the key numbered by
    its first position, and a position that repeats an earlier subnet gets
    no association of its own, the key with that number being left as it
    was.  The table itself is at [key], and resources other than the table
    and the associations are untouched. *)
Theorem add_route_table_associations :
  forall (key name vpc : string) (subnets : list string)
         (self : CloudFormationConfiguration),
  exists self',
    add_route_table key name vpc subnets self = (Ok tt, self') /\
    resource_field self' key "Type" = Some (VStr "AWS::EC2::RouteTable") /\
    (forall i s, nth_error subnets i = Some s ->
       exists j, list_index s subnets = Ok j /\ j <= i /\
         dict_get (association_key key j) (resources self')
         = Some (association key s)) /\
    (forall i s, nth_error subnets i = Some s -> list_index s subnets <> Ok i ->
       dict_get (association_key key i) (resources self')
       = dict_get (association_key key i) (resources self)) /\
    (forall k, k <> key -> (forall j, k <> association_key key j) ->
       dict_get k (resources self') = dict_get k (resources self)).
Proof.
  intros key name vpc subnets [res p ar reg vd vs sd ss].
  unfold add_route_table. repeat flat_step. cbn [vpc_domain]. arg_run p1 ar1 F1.
  match goal with
  | |- context [for_each _ _ (mkConfiguration ?r _ _ _ _ _ _ _)] =>
      destruct (run_association_loop key subnets subnets (fun s H => H)
                  r p1 ar1 reg vd vs sd ss) as (res' & Hrun & Hget & Hother)
  end.
  exists (mkConfiguration res' p1 ar1 reg vd vs sd ss).
  split; [exact Hrun|]. cbn [resources]. unfold resource_field. cbn [resources].
  split.
  { rewrite Hother.
    - rewrite dict_get_set_same. reflexivity.
    - intros s j _ _ Hk. symmetry in Hk. exact (association_key_neq _ _ Hk). }
  split.
  { intros i s Hi.
    destruct (list_index_In s subnets (nth_error_In _ _ Hi)) as [j Ej].
    exists j. split; [exact Ej|]. split.
    - destruct (list_index_first _ _ _ Ej) as [_ Hf].
      destruct (Nat.le_gt_cases j i) as [Hle|Hlt]; [exact Hle|].
      exfalso. exact (Hf i Hlt Hi).
    - apply Hget; [exact (nth_error_In _ _ Hi) | exact Ej]. }
  split.
  { intros i s Hi Hne. rewrite Hother.
    - apply dict_get_set_other. apply association_key_neq.
    - intros s' j' _ Ej' Hk. apply association_key_inj in Hk. subst j'.
      destruct (list_index_first _ _ _ Ej') as [E' _]. rewrite Hi in E'.
      injection E' as <-. contradiction. }
  intros k Hk Hassoc. rewrite Hother.
  - now apply dict_get_set_other.
  - intros s j _ _. apply Hassoc.
Qed.

Lemma add_route_table_associations_witness :
  exists self',
    add_route_table "InternetRouteTable" "internet" "VPC" ["A"; "B"; "A"]
      (mkConfiguration [] [] [] (VStr "us-east-1") "vpc.boss" VNone VNone VNone)
    = (Ok tt, self') /\
    dict_get (association_key "InternetRouteTable" 0) (resources self')
    = Some (association "InternetRouteTable" "A") /\
    dict_get (association_key "InternetRouteTable" 2) (resources self') = None.
Proof.
  destruct (add_route_table_associations "InternetRouteTable" "internet" "VPC"
              ["A"; "B"; "A"]
              (mkConfiguration [] [] [] (VStr "us-east-1") "vpc.boss" VNone VNone VNone))
    as (self' & Hrun & _ & Hget & Hskip & _).
  exists self'. split; [exact Hrun|]. split.
  - destruct (Hget 2 "A" eq_refl) as (j & Ej & _ & Hj).
    cbn in Ej. injection Ej as <-. exact Hj.
  - rewrite (Hskip 2 "A" eq_refl); [reflexivity | discriminate].
Defined.
